(** * AstroHack 2025: the celestial position and visibility engine

    A shallow embedding of the parts of [astronomy_utils.py],
    [planets_api.py] and [neo_api.py] that the specification talks about,
    and the properties of the specification stated over them.

    Conventions.
    - Python floats are modelled by exact rationals ([Q]); integer literals
      that meet floats are injected with [inject_Z].
    - A Python call that may raise is a function into [option] (one possible
      exception) or into a sum with the exception on the left.
    - Library calls whose code is not part of the repository (Skyfield,
      [datetime] parsing, [hashlib], [random]) are parameters: Section
      variables or the fields of a class. *)

From Stdlib Require Import QArith Qabs Qround Lqa ZArith Lia Ascii String DecimalString Sorted.
From stdpp Require Import base option list strings gmap.

Local Open Scope Q_scope.
Set Warnings "-register-all".

(** ** Python numerics over [Q] *)

Module PyNum.

Definition Qltb (x y : Q) : bool := negb (Qle_bool y x).

(** [a % b] for a positive modulus, as Python defines it on floats:
    the result has the sign of [b]. The remainder here is exact. So is
    Python's for an operand that is not negative (it is the [fmod] of
    C); for a negative operand Python adds [b] to the result of [fmod],
    and that sum is rounded. *)
Definition py_mod (a b : Q) : Q := a - b * inject_Z (Qfloor (a / b)).

(** Rounding to the nearest integer, ties to even: the rule behind
    [round(x, n)] and the [.nf] format. *)
Definition round_half_even (x : Q) : Z :=
  let f := Qfloor x in
  match Qcompare (x - inject_Z f) (1 # 2) with
  | Lt => f
  | Gt => (f + 1)%Z
  | Eq => if Z.even f then f else (f + 1)%Z
  end.

(** [round(x, 2)] *)
Definition round2 (x : Q) : Q := Qred (inject_Z (round_half_even (x * 100)) / 100).

(** [round(x, 1)] *)
Definition round1 (x : Q) : Q := Qred (inject_Z (round_half_even (x * 10)) / 10).

(** [str(n)] for an integer. *)
Definition str_Z (n : Z) : string := NilZero.string_of_int (Z.to_int n).

(** [f"{x:.1f}"]: one decimal, the sign kept even when the digits round
    to zero (Python prints [-0.0] for [-0.01]). *)
Definition format_1f (x : Q) : string :=
  let n := round_half_even (Qabs x * 10) in
  (if Qltb x 0 then "-" else "") +:+ str_Z (n / 10) +:+ "." +:+ str_Z (n mod 10).

(** [min(l, key=key)]: the first element whose key is minimal;
    [None] stands for the [ValueError] on an empty sequence. *)
Fixpoint min_from {A} (key : A -> Q) (best : A) (l : list A) : A :=
  match l with
  | [] => best
  | x :: l' => min_from key (if Qltb (key x) (key best) then x else best) l'
  end.

Definition py_min {A} (key : A -> Q) (l : list A) : option A :=
  match l with
  | [] => None
  | x :: l' => Some (min_from key x l')
  end.

(** [sorted(l, key=key)]: a stable sort. *)
Fixpoint insert_by {A} (key : A -> Q) (x : A) (l : list A) : list A :=
  match l with
  | [] => [x]
  | y :: l' => if Qle_bool (key x) (key y) then x :: y :: l' else y :: insert_by key x l'
  end.

Fixpoint py_sorted {A} (key : A -> Q) (l : list A) : list A :=
  match l with
  | [] => []
  | x :: l' => insert_by key x (py_sorted key l')
  end.

End PyNum.

(** ** astronomy_utils.py *)

Module AstronomyUtils.
Import PyNum.

(** [AZIMUTH_DIRECTIONS], in the order the dict literal lists its keys
    (the order [keys()] iterates in). *)
Definition AZIMUTH_DIRECTIONS : list (Z * string) :=
  [ (0, "North"); (45, "Northeast"); (90, "East"); (135, "Southeast");
    (180, "South"); (225, "Southwest"); (270, "West"); (315, "Northwest");
    (360, "North") ]%Z.

Definition dict_keys {V} (d : list (Z * V)) : list Z := d.*1.

(** [d[k]]; [None] stands for [KeyError]. *)
Fixpoint dict_get {V} (d : list (Z * V)) (k : Z) : option V :=
  match d with
  | [] => None
  | (k', v) :: d' => if Z.eqb k' k then Some v else dict_get d' k
  end.

Definition HORIZON_ALTITUDE : Q := 0.

(** [is_planet_visible(altitude, magnitude, min_altitude, max_magnitude)];
    the defaults are [magnitude=None], [min_altitude=HORIZON_ALTITUDE] and
    [max_magnitude=None]. The comparisons are those of the code; the
    effective magnitude is the exact sum, where the code has the sum of
    floats, rounded: the two can differ when the effective magnitude is
    within a rounding of the limit. *)
Definition is_planet_visible (altitude : Q) (magnitude : option Q)
    (min_altitude : Q) (max_magnitude : option Q) : bool :=
  if Qltb altitude min_altitude then false
  else if
    match magnitude, max_magnitude with
    | Some m, Some mx => Qltb mx m
    | _, _ => false
    end
  then false
  else if
    match magnitude with
    | Some m =>
        Qltb altitude 10 &&
        (let effective_magnitude := m + (10 - altitude) * 0.2 in
         match max_magnitude with
         | Some mx => Qltb mx effective_magnitude
         | None => false
         end)
    | None => false
    end
  then false
  else true.

(** The swap test of the combined-direction branch. *)
Definition needs_swap (dir1 dir2 : Z) : bool :=
  ((dir2 <? dir1)%Z && negb ((270 <? dir1)%Z && (dir2 <? 90)%Z))
  || ((dir1 <? 90)%Z && (270 <? dir2)%Z).

Definition get_azimuth_direction (azimuth : Q) : option string :=
  let azimuth := py_mod azimuth 360 in
  let dist (x : Z) := Qabs (inject_Z x - azimuth) in
  closest_direction ← py_min dist (dict_keys AZIMUTH_DIRECTIONS);
  if Qltb 22.5 (Qabs (azimuth - inject_Z closest_direction)) then
    let directions := py_sorted dist (dict_keys AZIMUTH_DIRECTIONS) in
    dir1 ← directions !! 0%nat;
    dir2 ← directions !! 1%nat;
    let '(dir1, dir2) := if needs_swap dir1 dir2 then (dir2, dir1) else (dir1, dir2) in
    name1 ← dict_get AZIMUTH_DIRECTIONS dir1;
    name2 ← dict_get AZIMUTH_DIRECTIONS dir2;
    Some (name1 +:+ "-" +:+ name2)
  else
    dict_get AZIMUTH_DIRECTIONS closest_direction.

Definition get_altitude_description (altitude : Q) : string :=
  if Qltb altitude 0 then "below the horizon"
  else if Qltb altitude 15 then "low"
  else if Qltb altitude 45 then "at medium height"
  else if Qltb altitude 75 then "high"
  else "almost directly overhead".

(** [get_sky_position_description(altitude, azimuth, language='en')]:
    both branches on [language] build the same text. *)
Definition get_sky_position_description (altitude azimuth : Q) (language : string)
    : option string :=
  direction ← get_azimuth_direction azimuth;
  let altitude_desc := get_altitude_description altitude in
  if String.eqb language "en" then
    Some ("looking " +:+ direction +:+ ", " +:+ altitude_desc
            +:+ " (" +:+ format_1f altitude +:+ "°)")
  else
    Some ("looking " +:+ direction +:+ ", " +:+ altitude_desc
            +:+ " (" +:+ format_1f altitude +:+ "°)").

(** The altitude bands as the specification words them: below 0, 0 to 15,
    15 to 45, 45 to 75, and above 75; the last band is the one with an
    explicit strict bound, so 75 itself belongs to the band before it. *)
Definition spec_band (altitude : Q) (band : string) : Prop :=
  (altitude < 0 -> band = "below the horizon") /\
  (0 <= altitude < 15 -> band = "low") /\
  (15 <= altitude < 45 -> band = "at medium height") /\
  (45 <= altitude <= 75 -> band = "high") /\
  (75 < altitude -> band = "almost directly overhead").

(** The bands the code implements: each one closed below and open above. *)
Definition code_band (altitude : Q) (band : string) : Prop :=
  (altitude < 0 -> band = "below the horizon") /\
  (0 <= altitude < 15 -> band = "low") /\
  (15 <= altitude < 45 -> band = "at medium height") /\
  (45 <= altitude < 75 -> band = "high") /\
  (75 <= altitude -> band = "almost directly overhead").

(** Whether a text contains a hyphen: every combined direction does. *)
Fixpoint has_hyphen (s : string) : bool :=
  match s with
  | EmptyString => false
  | String c s' => Ascii.eqb c "-" || has_hyphen s'
  end.

(** The order on optional magnitudes under which brighter is smaller:
    two given magnitudes compare as numbers, two omitted ones agree. *)
Definition brighter_or_equal (m' m : option Q) : Prop :=
  match m', m with
  | Some a, Some b => a <= b
  | None, None => True
  | _, _ => False
  end.

(** The text the specification composes from a direction, a band and an
    altitude. *)
Definition spec_phrase (direction band : string) (altitude : Q) : string :=
  "looking " +:+ direction +:+ ", " +:+ band +:+ " (" +:+ format_1f altitude +:+ "°)".

End AstronomyUtils.

(** ** neo_api.py *)

Module NeoApi.
Import PyNum.
Local Open Scope Z_scope.

(** [datetime.date], and the day count [date.toordinal()] that the
    subtraction of two dates and [.days] read off. *)
Record date := Date { year : Z; month : Z; day : Z }.

Definition is_leap (y : Z) : bool :=
  (y mod 4 =? 0) && (negb (y mod 100 =? 0) || (y mod 400 =? 0)).

Definition days_before_year (y : Z) : Z :=
  let y := y - 1 in y * 365 + y / 4 - y / 100 + y / 400.

Definition days_before_month (y m : Z) : Z :=
  nth (Z.to_nat m) [0; 0; 31; 59; 90; 120; 151; 181; 212; 243; 273; 304; 334] 0
  + (if (2 <? m) && is_leap y then 1 else 0).

Definition toordinal (d : date) : Z :=
  days_before_year (year d) + days_before_month (year d) (month d) + day d.

(** [(a - b).days] *)
Definition days_between (a b : date) : Z := toordinal a - toordinal b.

(** The values a NEO record holds under its keys. *)
Inductive neo_value :=
  | VStr (s : string)
  | VNum (q : Q)
  | VBool (b : bool)
  | VNone.

Definition neo_record := gmap string neo_value.

Inductive exn :=
  | KeyError (key : string)
  | TypeError
  | ValueError
  | IndexError.

(** The dict [get_neo_visibility] returns: one shape per verdict. *)
Inductive visibility :=
  | NotVisible (reason : string)
  | Visible (direction : string) (elevation : Z) (azimuth : Z) (note : string).

Definition visible (v : visibility) : bool :=
  match v with NotVisible _ => false | Visible _ _ _ _ => true end.

Definition NOTE : string :=
  "This is an approximate visibility estimate. Actual visibility depends on many factors including light pollution, weather, and precise orbital calculations.".

(** The generator behind the [random] module: [randbelow n] draws from
    [0 .. n-1] and moves the generator on. *)
Class RandomSource (G : Type) := {
  randbelow : Z -> G -> Z * G;
  randbelow_range : forall n g, 0 < n -> 0 <= (randbelow n g).1 < n
}.

(** A generator for examples: it counts. *)
#[export] Program Instance counter_source : RandomSource Z :=
  {| randbelow n g := (g mod n, g + 1) |}.
Next Obligation. intros n g Hn. simpl. apply Z.mod_pos_bound. exact Hn. Qed.

(** A reading of ["%Y-%m-%d"] for examples, on ASCII digits: a year
    of four digits, a month and a day of one or two digits (the day
    also as a space and a digit), and then a date of the calendar, from
    the year 1 on. *)
Definition digit (c : ascii) : option Z :=
  let n := Z.of_nat (nat_of_ascii c) in
  if (48 <=? n) && (n <=? 57) then Some (n - 48) else None.

Definition month_length (y m : Z) : Z :=
  if m =? 2 then (if is_leap y then 29 else 28)
  else if (m =? 4) || (m =? 6) || (m =? 9) || (m =? 11) then 30
  else 31.

(** One or two digits. *)
Definition two_digits (cs : list ascii) : option Z :=
  match cs with
  | [c] => digit c
  | [c1; c2] => a ← digit c1; b ← digit c2; Some (10 * a + b)
  | _ => None
  end.

(** The text before the first hyphen, and the text after it. *)
Fixpoint split_hyphen (cs : list ascii) : option (list ascii * list ascii) :=
  match cs with
  | [] => None
  | c :: cs' =>
      if Ascii.eqb c "-" then Some ([], cs')
      else '(before, after) ← split_hyphen cs'; Some (c :: before, after)
  end.

Definition strict_ymd (s : string) : option date :=
  match list_ascii_of_string s with
  | y1 :: y2 :: y3 :: y4 :: h1 :: rest =>
      a ← digit y1; b ← digit y2; c ← digit y3; d ← digit y4;
      '(month_text, day_text) ← split_hyphen rest;
      m ← two_digits month_text;
      dd ← match day_text with
           | [sp; c1] => if Ascii.eqb sp " " then digit c1 else two_digits day_text
           | _ => two_digits day_text
           end;
      let y := 1000 * a + 100 * b + 10 * c + d in
      if Ascii.eqb h1 "-" && (1 <=? y)
         && (1 <=? m) && (m <=? 12) && (1 <=? dd) && (dd <=? month_length y m)
      then Some (Date y m dd) else None
  | _ => None
  end.

Section GetNeoVisibility.
Context {G : Type} `{RandomSource G}.

(** [datetime.strptime(s, "%Y-%m-%d").date()]; [None] is its
    [ValueError]. *)
Variable strptime : string -> option date.

(** [random.choice(seq)] *)
Definition random_choice {A} (seq : list A) (g : G) : (exn + A) * G :=
  match seq with
  | [] => (inl IndexError, g)
  | _ =>
      let '(i, g') := randbelow (Z.of_nat (length seq)) g in
      match seq !! Z.to_nat i with
      | Some x => (inr x, g')
      | None => (inl IndexError, g')
      end
  end.

(** [random.randint(a, b)] *)
Definition random_randint (a b : Z) (g : G) : Z * G :=
  let '(i, g') := randbelow (b - a + 1) g in (a + i, g').

(** The chain of comparisons that turns the drawn direction into an
    azimuth, starting from the default 0. *)
Definition direction_to_azimuth (direction : string) : Z :=
  if String.eqb direction "North" then 0
  else if String.eqb direction "Northeast" then 45
  else if String.eqb direction "East" then 90
  else if String.eqb direction "Southeast" then 135
  else if String.eqb direction "South" then 180
  else if String.eqb direction "Southwest" then 225
  else if String.eqb direction "West" then 270
  else if String.eqb direction "Northwest" then 315
  else 0.

Definition possible_directions (latitude : Q) : list string :=
  let is_northern := Qltb 0 latitude in
  if is_northern then
    if Qltb 45 latitude then ["South"; "Southeast"; "Southwest"]
    else ["South"; "Southeast"; "Southwest"; "East"; "West"]
  else
    if Qltb latitude (-45) then ["North"; "Northeast"; "Northwest"]
    else ["North"; "Northeast"; "Northwest"; "East"; "West"].

(** [get_neo_visibility(neo_data, latitude, longitude)], with today's
    date and the generator's state made explicit. *)
Definition get_neo_visibility (neo_data : neo_record) (latitude longitude : Q)
    (today : date) (g : G) : (exn + visibility) * G :=
  match neo_data !! "close_approach_date" with
  | None => (inl (KeyError "close_approach_date"), g)
  | Some (VStr s) =>
      match strptime s with
      | None => (inl ValueError, g)
      | Some approach_date =>
          let date_diff := Z.abs (days_between approach_date today) in
          if 7 <? date_diff then
            (inr (NotVisible ("Not visible: approach date is " +:+ str_Z date_diff
                                +:+ " days away from today")), g)
          else
            match random_choice (possible_directions latitude) g with
            | (inl e, g1) => (inl e, g1)
            | (inr direction, g1) =>
                let '(elevation, g2) := random_randint 20 60 g1 in
                let azimuth := direction_to_azimuth direction in
                (inr (Visible direction elevation azimuth NOTE), g2)
            end
      end
  | Some _ => (inl TypeError, g)
  end.
End GetNeoVisibility.

(** The fixed table of the specification: the canonical azimuth of each
    of the eight compass points. *)
Definition canonical_azimuth : list (string * Z) :=
  [ ("North", 0); ("Northeast", 45); ("East", 90); ("Southeast", 135);
    ("South", 180); ("Southwest", 225); ("West", 270); ("Northwest", 315) ].

Definition canonical_azimuth_of (direction : string) : option Z :=
  snd <$> List.find (fun entry => String.eqb entry.1 direction) canonical_azimuth.

(** The reason text of the specification: it cites the gap in days. *)
Definition cites_day_gap (reason : string) (gap : Z) : Prop :=
  reason = "Not visible: approach date is " +:+ str_Z gap +:+ " days away from today".

End NeoApi.

(** ** The result cache: [cache_result] and [_generate_cache_key]

    The decorator is defined twice, with the same text, in
    [planets_api.py] and in [astronomy_utils.py]; what differs is the
    module around it: the names the module imports and its cache
    settings. *)

Module Cache.
Import PyNum.

(** Python values, as far as results and cache files need them.
    [PObject] is any value [json] has no encoding for (a [datetime],
    a set, ...). *)
Inductive pyval :=
  | PNone
  | PBool (b : bool)
  | PInt (n : Z)
  | PFloat (q : Q)
  | PStr (s : string)
  | PList (l : list pyval)
  | PTuple (l : list pyval)
  | PDict (d : list (string * pyval))
  | PObject (id : nat).

(** [json.loads(json.dumps(v))]: tuples come back as lists; [None] is the
    [TypeError] of [json.dump] on a value it cannot encode. *)
Fixpoint json_roundtrip (v : pyval) : option pyval :=
  match v with
  | PNone | PBool _ | PInt _ | PFloat _ | PStr _ => Some v
  | PList l =>
      PList <$> (fix go (l : list pyval) : option (list pyval) :=
                   match l with
                   | [] => Some []
                   | x :: l' => x' ← json_roundtrip x; l'' ← go l'; Some (x' :: l'')
                   end) l
  | PTuple l =>
      PList <$> (fix go (l : list pyval) : option (list pyval) :=
                   match l with
                   | [] => Some []
                   | x :: l' => x' ← json_roundtrip x; l'' ← go l'; Some (x' :: l'')
                   end) l
  | PDict d =>
      PDict <$> (fix go (d : list (string * pyval)) : option (list (string * pyval)) :=
                   match d with
                   | [] => Some []
                   | (k, x) :: d' => x' ← json_roundtrip x; d'' ← go d'; Some ((k, x') :: d'')
                   end) d
  | PObject _ => None
  end.

(** [d.get(key, default)] *)
Fixpoint py_get (d : list (string * pyval)) (key : string) (default : pyval) : pyval :=
  match d with
  | [] => default
  | (k, v) :: d' => if String.eqb k key then v else py_get d' key default
  end.

Inductive exn :=
  | NameError (name : string)
  | OSError
  | JSONDecodeError
  | AttributeError
  | TypeError
  | Failure (msg : string).

(** What a cache file holds: a JSON document, or text [json.load]
    rejects (an empty or truncated file). *)
Inductive file :=
  | Garbled
  | Document (v : pyval).

(** The state a wrapped call runs in: the clock [time.time()] reads, the
    files of the cache directory, the paths that cannot be opened for
    reading or for writing, and the number of times the wrapped
    computations have run. *)
Record world := World {
  now : Q;
  files : gmap string file;
  unreadable : gset string;
  unwritable : gset string;
  calls : nat
}.

Definition set_now (t : Q) (w : world) : world :=
  World t (files w) (unreadable w) (unwritable w) (calls w).

Definition set_file (path : string) (f : file) (w : world) : world :=
  World (now w) (<[path := f]> (files w)) (unreadable w) (unwritable w) (calls w).

(** A Python module, as far as the decorator depends on it. *)
Record py_module := PyModule {
  imports : gset string;
  CACHE_ENABLED : bool;
  CACHE_DIR : string;
  CACHE_DURATION : Q
}.

Definition planets_api : py_module :=
  {| imports := {[ "logging"; "json"; "os"; "hashlib"; "math"; "datetime"; "timedelta";
                   "time"; "load"; "wgs84"; "utc"; "almanac"; "planetary_magnitude";
                   "get_constellation"; "pytz" ]};
     CACHE_ENABLED := true;
     CACHE_DIR := ".cache";
     CACHE_DURATION := 300 |}.

Definition astronomy_utils : py_module :=
  {| imports := {[ "math"; "logging"; "os"; "json"; "functools"; "datetime"; "timedelta";
                   "np"; "u"; "SkyCoord"; "AltAz"; "EarthLocation"; "get_constellation";
                   "Time"; "solar_system_ephemeris"; "get_body"; "load"; "wgs84";
                   "planetary_magnitude" ]};
     CACHE_ENABLED := true;
     CACHE_DIR := ".cache/astronomy";
     CACHE_DURATION := 3600 |}.

(** Looking a global name up in a module: [NameError] when nothing
    binds it. *)
Definition global_name (m : py_module) (name : string) : exn + unit :=
  if bool_decide (name ∈ imports m) then inr tt else inl (NameError name).

(** [time.time()] *)
Definition time_time (m : py_module) (w : world) : exn + Q :=
  match global_name m "time" with
  | inl e => inl e
  | inr _ => inr (now w)
  end.

(** [os.path.exists(path)] *)
Definition os_path_exists (w : world) (path : string) : bool :=
  bool_decide (is_Some (files w !! path)).

(** [current_time - cache_time], the left operand a float. *)
Definition float_sub (x : Q) (v : pyval) : exn + Q :=
  match v with
  | PFloat y => inr (x - y)
  | PInt n => inr (x - inject_Z n)
  | PBool b => inr (x - (if b then 1 else 0))
  | _ => inl TypeError
  end.

Section CacheResult.
(** The arguments of a call, the text
    [str(args) + str(sorted(kwargs.items()))] made from them, and
    [hashlib.md5(text.encode()).hexdigest()]. *)
Variable Args : Type.
Variable args_text : Args -> string.
Variable md5_hexdigest : string -> string.

(** A wrapped function: run on its arguments at a clock reading, it
    returns or raises, and takes some time. *)
Definition computation := Args -> Q -> (exn + pyval) * Q.

Definition _generate_cache_key (m : py_module) (func_name : string) (args : Args)
    : exn + string :=
  let args_str := args_text args in
  match global_name m "hashlib" with
  | inl e => inl e
  | inr _ => inr (func_name +:+ "_" +:+ md5_hexdigest args_str)
  end.

Definition cache_path_of (m : py_module) (cache_key : string) : string :=
  CACHE_DIR m +:+ "/" +:+ cache_key +:+ ".json".

(** The body of the first [try]: [inr (Some v)] returns [v] from the
    wrapper, [inr None] falls through (entry expired), [inl e] is the
    exception the [except] clause swallows. *)
Definition read_entry (m : py_module) (w : world) (cache_path : string)
    : exn + option pyval :=
  if bool_decide (cache_path ∈ unreadable w) then inl OSError
  else match files w !! cache_path with
       | None => inl OSError
       | Some Garbled => inl JSONDecodeError
       | Some (Document (PDict cached_data)) =>
           let cache_time := py_get cached_data "_cache_time" (PInt 0) in
           match time_time m w with
           | inl e => inl e
           | inr current_time =>
               match float_sub current_time cache_time with
               | inl e => inl e
               | inr age =>
                   if Qle_bool age (CACHE_DURATION m)
                   then inr (Some (py_get cached_data "result" PNone))
                   else inr None
               end
           end
       | Some (Document _) => inl AttributeError
       end.

(** The lookup as a whole: the payload of a fresh, readable entry. *)
Definition cached_payload (m : py_module) (w : world) (cache_path : string) : option pyval :=
  if os_path_exists w cache_path then
    match read_entry m w cache_path with
    | inr (Some v) => Some v
    | _ => None
    end
  else None.

(** The second [try]: [open(cache_path, 'w')] truncates the file before
    the entry is built and dumped, so a failure after it leaves a file
    [json.load] rejects. *)
Definition write_entry (m : py_module) (w : world) (cache_path : string)
    (result : pyval) : world :=
  if bool_decide (cache_path ∈ unwritable w) then w
  else
    let truncated := set_file cache_path Garbled w in
    match time_time m w with
    | inl _ => truncated
    | inr t =>
        match json_roundtrip (PDict [("result", result); ("_cache_time", PFloat t)]) with
        | None => truncated
        | Some doc => set_file cache_path (Document doc) w
        end
    end.

(** The call of [func] on the arguments, counted. *)
Definition run (func : computation) (args : Args) (w : world) : (exn + pyval) * world :=
  let '(out, elapsed) := func args (now w) in
  (out, World (now w + elapsed) (files w) (unreadable w) (unwritable w) (S (calls w))).

(** The [wrapper] that [cache_result(func)] returns, in module [m]. *)
Definition wrapper (m : py_module) (func_name : string) (func : computation)
    (args : Args) (w : world) : (exn + pyval) * world :=
  if negb (CACHE_ENABLED m) then run func args w
  else
    match _generate_cache_key m func_name args with
    | inl e => (inl e, w)
    | inr cache_key =>
        let cache_path := cache_path_of m cache_key in
        match cached_payload m w cache_path with
        | Some v => (inr v, w)
        | None =>
            let '(out, w1) := run func args w in
            match out with
            | inl e => (inl e, w1)
            | inr result => (inr result, write_entry m w1 cache_path result)
            end
        end
    end.

(** The round trip of the specification at one input: two calls with
    the same arguments, the second at clock reading [t2]; both return
    the same value and the computation ran once. *)
Definition round_trip (m : py_module) (func_name : string) (func : computation)
    (args : Args) (w : world) (t2 : Q) : Prop :=
  exists r w1 w2,
    wrapper m func_name func args w = (inr r, w1) /\
    wrapper m func_name func args (set_now t2 w1) = (inr r, w2) /\
    calls w2 = S (calls w).

(** The same two calls, run: what each returns or raises, and how many
    times the computation ran over both. *)
Definition two_calls (m : py_module) (func_name : string) (func : computation)
    (args : Args) (w : world) (t2 : Q) : (exn + pyval) * (exn + pyval) * nat :=
  let '(out1, w1) := wrapper m func_name func args w in
  let '(out2, w2) := wrapper m func_name func args (set_now t2 w1) in
  (out1, out2, (calls w2 - calls w)%nat).
End CacheResult.

(** Stand-ins for examples: arguments that are their own text, a digest
    that is the identity, and three computations. *)
Definition demo_digest (s : string) : string := s.

Definition demo_list : pyval :=
  PList [PDict [("name", PStr "Sun"); ("altitude", PFloat 12.5); ("magnitude", PFloat (-26.7))]].

Definition returns_list : computation string := fun _ _ => (inr demo_list, 2).
Definition always_raises : computation string :=
  fun _ _ => (inl (Failure "Error getting planet data"), 1).
Definition returns_tuple : computation string :=
  fun _ _ => (inr (PTuple [PInt 1; PInt 2]), 1).

Definition empty_world : world := World 1000 ∅ ∅ ∅ 0.

(** A cache that already holds an entry for the arguments ["()[]"],
    written 100 seconds before. *)
Definition warm_world : world :=
  World 1000
    {[ ".cache/get_visible_planets_()[].json" :=
         Document (PDict [("result", demo_list); ("_cache_time", PFloat 900)]) ]}
    ∅ ∅ 0.

End Cache.

(** ** planets_api.py *)

Module PlanetsApi.
Import PyNum.

(** A [datetime]: the wall-clock reading in seconds and, when the value
    is timezone-aware, the offset of its zone from UTC. *)
Record datetime := DateTime { wall : Z; tzinfo : option Z }.

Definition utc : Z := 0%Z.

(** [datetime.now(tz=utc)], from the clock in seconds. *)
Definition datetime_now_utc (clock : Z) : datetime := DateTime clock (Some utc).

(** [d.replace(tzinfo=tz)] *)
Definition replace_tzinfo (d : datetime) (tz : Z) : datetime := DateTime (wall d) (Some tz).

(** The [time] argument: an ISO 8601 string or a [datetime]. *)
Inductive time_arg :=
  | TimeStr (s : string)
  | TimeObj (d : datetime).

Inductive exn :=
  | ValueError (msg : string)
  | APIDataError (msg : string).

(** [s.replace('Z', '+00:00')] *)
Fixpoint replace_Z (s : string) : string :=
  match s with
  | EmptyString => EmptyString
  | String c s' =>
      if Ascii.eqb c "Z" then "+00:00" +:+ replace_Z s' else String c (replace_Z s')
  end.

(** A Skyfield time; [ts.from_datetime] refuses a naive [datetime]. *)
Record skytime := SkyTime { utc_seconds : Z }.

Definition ts_from_datetime (d : datetime) : exn + skytime :=
  match tzinfo d with
  | None => inl (ValueError "naive datetime")
  | Some offset => inr (SkyTime (wall d - offset))
  end.

(** [wgs84.latlon(latitude, longitude, elevation_m=elevation)] *)
Record observer := Observer { obs_latitude : Q; obs_longitude : Q; obs_elevation : Q }.

(** What one body's apparent position yields: [altaz()] and [radec()]. *)
Record position := Position {
  alt_degrees : Q;
  az_degrees : Q;
  ra_hours : Q;
  dec_degrees : Q
}.

(** The library calls around the engine. A [None] is an exception of the
    call. *)
Class SkyLibrary := {
  (** [datetime.fromisoformat] *)
  fromisoformat : string -> option datetime;
  (** [(earth + observer).at(t).observe(planet).apparent()] with its
      [altaz()] and [radec()] *)
  observe : string -> observer -> skytime -> option position;
  (** the magnitude computed through [planetary_magnitude], after the
      Sun's own position has been observed *)
  skyfield_magnitude : string -> observer -> skytime -> option Q;
  (** [get_constellation] on right ascension and declination in radians;
      [math.pi] is folded into it *)
  constellation_at : Q -> Q -> option string;
  (** the apparent ecliptic longitudes of the Sun and of the Moon, in
      degrees, and the Moon's distance in kilometres: the value, or the
      exception the observation raises, as it does for an instant the
      ephemeris does not cover *)
  sun_longitude : skytime -> exn + Q;
  moon_longitude : skytime -> exn + Q;
  moon_distance_km : skytime -> exn + Q;
  (** [d.strftime("%Y-%m-%d")], [math.atan] and [math.pi] *)
  strftime_ymd : datetime -> string;
  math_atan : Q -> Q;
  math_pi : Q
}.

(** The targets of the loaded ephemeris file, and the catalogue
    [PLANETS] built from it: nine bodies always, then Pluto and the four
    families of moons, a family entering only when every member
    resolved. *)
Definition group_ok (kernel : gset string) (targets : list string) : bool :=
  forallb (fun t => bool_decide (t ∈ kernel)) targets.

Definition PLANETS (kernel : gset string) : list string :=
  ["Sun"; "Mercury"; "Venus"; "Mars"; "Jupiter"; "Saturn"; "Uranus"; "Neptune"; "Moon"]
  ++ (if group_ok kernel ["pluto barycenter"] then ["Pluto"] else [])
  ++ (if group_ok kernel ["io"; "europa"; "ganymede"; "callisto"]
      then ["Io"; "Europa"; "Ganymede"; "Callisto"] else [])
  ++ (if group_ok kernel ["titan"; "enceladus"; "mimas"; "dione"; "rhea"; "iapetus"]
      then ["Titan"; "Enceladus"; "Mimas"; "Dione"; "Rhea"; "Iapetus"] else [])
  ++ (if group_ok kernel ["miranda"; "ariel"; "umbriel"; "titania"; "oberon"]
      then ["Miranda"; "Ariel"; "Umbriel"; "Titania"; "Oberon"] else [])
  ++ (if group_ok kernel ["triton"; "nereid"] then ["Triton"; "Nereid"] else []).

(** [int(x)]: truncation towards zero. *)
Definition py_int (x : Q) : Z := if Qltb x 0 then Qceiling x else Qfloor x.

Record ra_dict := RA {
  ra_hour_part : Z; ra_minute_part : Z; ra_seconds : Q; ra_negative : bool }.
Record dec_dict := Dec {
  dec_degree_part : Z; dec_arcminute_part : Z; dec_arcseconds : Q; dec_negative : bool }.

Definition _format_ra_dec (ra_hours dec_degrees : Q) : ra_dict * dec_dict :=
  let ra_negative := Qltb ra_hours 0 in
  let ra_hours := Qabs ra_hours in
  let ra_hour_part := py_int ra_hours in
  let ra_minute_part := py_int ((ra_hours - inject_Z ra_hour_part) * 60) in
  let ra_second_part :=
    ((ra_hours - inject_Z ra_hour_part) * 60 - inject_Z ra_minute_part) * 60 in
  let dec_negative := Qltb dec_degrees 0 in
  let dec_degrees_abs := Qabs dec_degrees in
  let dec_degree_part := py_int dec_degrees_abs in
  let dec_arcminute_part := py_int ((dec_degrees_abs - inject_Z dec_degree_part) * 60) in
  let dec_arcsecond_part :=
    ((dec_degrees_abs - inject_Z dec_degree_part) * 60 - inject_Z dec_arcminute_part) * 60 in
  (RA ra_hour_part ra_minute_part (round2 ra_second_part) ra_negative,
   Dec dec_degree_part dec_arcminute_part (round2 dec_arcsecond_part) dec_negative).

(** One entry of the returned list. *)
Record planet_data := PlanetData {
  name : string;
  altitude : Q;
  azimuth : Q;
  magnitude : Q;
  constellation : string;
  rightAscension : option ra_dict;
  declination : option dec_dict
}.

(** The table of approximate magnitudes and its [.get(name, 0)]. *)
Definition fallback_magnitudes : list (string * Q) :=
  [ ("Mercury", -0.5); ("Venus", -4.2); ("Mars", 1.2); ("Jupiter", -2.3);
    ("Saturn", 0.8); ("Uranus", 5.7); ("Neptune", 7.9) ].

Fixpoint magnitudes_get (table : list (string * Q)) (key : string) (default : Q) : Q :=
  match table with
  | [] => default
  | (k, v) :: table' => if String.eqb k key then v else magnitudes_get table' key default
  end.

Section Engine.
Context `{SkyLibrary}.

(** The resolution of the [time] argument against the current UTC
    time [now_utc]. *)
Definition resolve_time (time : option time_arg) (now_utc : datetime) : datetime :=
  match time with
  | Some (TimeStr s) =>
      match fromisoformat (replace_Z s) with
      | Some time_obj =>
          match tzinfo time_obj with
          | None => replace_tzinfo time_obj utc
          | Some _ => time_obj
          end
      | None => now_utc
      end
  | Some (TimeObj d) =>
      match tzinfo d with
      | Some _ => d
      | None => replace_tzinfo d utc
      end
  | None => now_utc
  end.

Definition body_magnitude (name : string) (obs : observer) (t : skytime) : Q :=
  if String.eqb name "Moon" then -12.5
  else if String.eqb name "Sun" then -26.7
  else match skyfield_magnitude name obs t with
       | Some m => m
       | None => magnitudes_get fallback_magnitudes name 0
       end.

(** The body of the loop for one catalogue entry: [None] when the
    position cannot be computed, and the entry is skipped. *)
Definition body_record (name : string) (obs : observer) (t : skytime)
    (show_coords : bool) : option planet_data :=
  apparent_position ← observe name obs t;
  let altitude := alt_degrees apparent_position in
  let azimuth := az_degrees apparent_position in
  let magnitude := body_magnitude name obs t in
  let ra_hours := ra_hours apparent_position in
  let dec_degrees := dec_degrees apparent_position in
  let constellation :=
    match constellation_at (ra_hours * 15) dec_degrees with
    | Some c => c
    | None => "Unknown"
    end in
  let coords :=
    if show_coords then
      let '(ra_formatted, dec_formatted) := _format_ra_dec ra_hours dec_degrees in
      (Some ra_formatted, Some dec_formatted)
    else (None, None) in
  Some (PlanetData name (round2 altitude) (round2 azimuth) (round2 magnitude)
          constellation coords.1 coords.2).

(** The undecorated [get_visible_planets]. The targets of the
    ephemeris file and the clock are explicit; [use_offline_mode] is
    accepted and ignored. *)
Definition get_visible_planets (kernel : gset string) (clock : Z)
    (latitude longitude elevation : option Q) (time : option time_arg)
    (show_coords above_horizon use_offline_mode : bool) : exn + list planet_data :=
  let latitude := match latitude with None => 40.7128 | Some x => x end in
  let longitude := match longitude with None => -74.0060 | Some x => x end in
  let elevation := match elevation with None => 0 | Some x => x end in
  let time_obj := resolve_time time (datetime_now_utc clock) in
  let obs := Observer latitude longitude elevation in
  match ts_from_datetime time_obj with
  | inl (ValueError msg) | inl (APIDataError msg) =>
      inl (APIDataError ("Error getting planet data: " +:+ msg))
  | inr t =>
      let planets_data :=
        foldl (fun planets_data name =>
                 match body_record name obs t show_coords with
                 | Some planet_data => planets_data ++ [planet_data]
                 | None => planets_data
                 end) [] (PLANETS kernel) in
      let planets_data :=
        if above_horizon
        then List.filter (fun p => Qltb 0 (altitude p)) planets_data
        else planets_data in
      inr planets_data
  end.

(** The name of the phase, from the phase in percent. *)
Definition phase_name_of (phase_percent : Q) : string :=
  if Qltb phase_percent 1 then "New Moon"
  else if Qltb phase_percent 25 then "Waxing Crescent"
  else if Qltb phase_percent 49 then "First Quarter"
  else if Qltb phase_percent 51 then "First Quarter"
  else if Qltb phase_percent 75 then "Waxing Gibbous"
  else if Qltb phase_percent 99 then "Full Moon"
  else if Qltb phase_percent 100 then "Waning Gibbous"
  else "Last Quarter".

(** The phase in percent, from the two ecliptic longitudes. *)
Definition phase_percent_of (slon mlon : Q) : Q :=
  let phase_angle := py_mod (mlon - slon) 360 in
  let phase_angle := if Qltb 180 phase_angle then 360 - phase_angle else phase_angle in
  phase_angle / 180 * 100.

Record moon_phase := MoonPhase {
  date : string;
  phase_percent : Q;
  phase_name : string;
  distance_km : Z;
  angular_diameter_degrees : Q
}.

(** [round(x, 4)] *)
Definition round4 (x : Q) : Q := Qred (inject_Z (round_half_even (x * 10000)) / 10000).

(** The first lines of [get_moon_phase]: the time, made aware. *)
Definition aware_time_obj (time_obj : option datetime) (clock : Z) : datetime :=
  match time_obj with
  | None => datetime_now_utc clock
  | Some d => match tzinfo d with None => replace_tzinfo d utc | Some _ => d end
  end.

(** [get_moon_phase(time_obj=None)]. Nothing in it catches an
    exception: one raised by an observation is the caller's. *)
Definition get_moon_phase (time_obj : option datetime) (clock : Z)
    : exn + moon_phase :=
  let time_obj := aware_time_obj time_obj clock in
  match ts_from_datetime time_obj with
  | inl e => inl e
  | inr t =>
      match sun_longitude t with
      | inl e => inl e
      | inr slon =>
          match moon_longitude t with
          | inl e => inl e
          | inr mlon =>
              let phase_percent := phase_percent_of slon mlon in
              let phase_name := phase_name_of phase_percent in
              match moon_distance_km t with
              | inl e => inl e
              | inr distance =>
                  let angular_diameter_degrees :=
                    2 * math_atan (1737.4 / distance) * 180 / math_pi in
                  inr (MoonPhase (strftime_ymd time_obj) (round1 phase_percent) phase_name
                         (round_half_even distance) (round4 angular_diameter_degrees))
              end
          end
      end
  end.
End Engine.

(** A library for examples: it reads one timestamp text, puts the Sun
    thirty degrees below the horizon and the Moon and Venus above it, and
    knows nothing else. *)
Definition demo_fromisoformat (s : string) : option datetime :=
  if String.eqb s "2025-01-01T00:00:00+00:00" then Some (DateTime 1735689600 (Some 0%Z))
  else None.

Definition demo_observe (name : string) (obs : observer) (t : skytime) : option position :=
  if String.eqb name "Sun" then Some (Position (-30) 270 18.75 (-23))
  else if String.eqb name "Moon" then Some (Position (-5.004) 120.5 7.5 21.25)
  else if String.eqb name "Venus" then Some (Position 25.126 230 21.5 (-17))
  else None.

Definition demo_library (moon_lon : Q) : SkyLibrary :=
  {| fromisoformat := demo_fromisoformat;
     observe := demo_observe;
     skyfield_magnitude := fun _ _ _ => None;
     constellation_at := fun _ _ => None;
     sun_longitude := fun _ => inr 280;
     moon_longitude := fun _ => inr moon_lon;
     moon_distance_km := fun _ => inr 384400;
     strftime_ymd := fun _ => "2025-01-01";
     math_atan := fun x => x;
     math_pi := 3.14159 |}.

(** The same library with an ephemeris that ends, as the file
    de421.bsp does on 2053-10-09: an observation at a later instant
    raises. *)
Definition ephemeris_end : Z := 2643580800%Z.

Definition out_of_range : exn := ValueError "ephemeris segment only covers dates 1899-07-29 through 2053-10-09".

Definition bounded_library : SkyLibrary :=
  {| fromisoformat := demo_fromisoformat;
     observe := fun name obs t =>
       if (utc_seconds t <=? ephemeris_end)%Z then demo_observe name obs t else None;
     skyfield_magnitude := fun _ _ _ => None;
     constellation_at := fun _ _ => None;
     sun_longitude := fun t =>
       if (utc_seconds t <=? ephemeris_end)%Z then inr 280 else inl out_of_range;
     moon_longitude := fun t =>
       if (utc_seconds t <=? ephemeris_end)%Z then inr 10 else inl out_of_range;
     moon_distance_km := fun t =>
       if (utc_seconds t <=? ephemeris_end)%Z then inr 384400 else inl out_of_range;
     strftime_ymd := fun _ => "2100-01-01";
     math_atan := fun x => x;
     math_pi := 3.14159 |}.

(** 2100-01-01 00:00 UTC, after the end of that ephemeris. *)
Definition year_2100 : datetime := DateTime 4102444800 (Some utc).

Definition demo_clock : Z := 1762200000%Z.

(** The observer and the instant a query is answered for. *)
Definition query_observer (latitude longitude elevation : option Q) : observer :=
  Observer (default 40.7128 latitude) (default (-74.0060) longitude) (default 0 elevation).

(** The phase names of the specification with the First Quarter band
    closed at both ends, 49 and 51. *)
Definition first_quarter_band_closed : Prop :=
  forall p : Q, 49 <= p <= 51 -> phase_name_of p = "First Quarter".

End PlanetsApi.

(** ** The decorated [get_visible_planets]

    [@cache_result] sits on [get_visible_planets]: the function callers
    reach is the wrapper around the body above. *)

Module Decorated.
Import PyNum Cache PlanetsApi.

(** The parameters of [get_visible_planets], bound. *)
Record call_args := CallArgs {
  arg_latitude : option Q;
  arg_longitude : option Q;
  arg_elevation : option Q;
  arg_time : option time_arg;
  arg_show_coords : bool;
  arg_above_horizon : bool;
  arg_use_offline_mode : bool
}.

(** The value of a comparison on a number of the library, as in
    [ra_hours < 0]: a [numpy.bool_], an object [json.dump] does not
    encode. *)
Definition numpy_bool (b : bool) : pyval := PObject (if b then 1%nat else 0%nat).

(** A returned record as the Python dict it is. *)
Definition ra_to_py (ra : ra_dict) : pyval :=
  PDict [("hours", PInt (ra_hour_part ra)); ("minutes", PInt (ra_minute_part ra));
         ("seconds", PFloat (ra_seconds ra)); ("negative", numpy_bool (ra_negative ra))].

Definition dec_to_py (dec : dec_dict) : pyval :=
  PDict [("degrees", PInt (dec_degree_part dec)); ("arcminutes", PInt (dec_arcminute_part dec));
         ("arcseconds", PFloat (dec_arcseconds dec)); ("negative", numpy_bool (dec_negative dec))].

Definition to_py (p : planet_data) : pyval :=
  PDict ([("name", PStr (name p)); ("altitude", PFloat (altitude p));
          ("azimuth", PFloat (azimuth p)); ("magnitude", PFloat (magnitude p));
          ("constellation", PStr (constellation p))]
         ++ match rightAscension p with
            | Some ra => [("rightAscension", ra_to_py ra)]
            | None => []
            end
         ++ match declination p with
            | Some dec => [("declination", dec_to_py dec)]
            | None => []
            end).

Section DecoratedCall.
Context `{SkyLibrary}.

(** How a call's positional and keyword arguments bind to the
    parameters, the text the cache key is made from, the digest, and the
    time a computation takes. *)
Variable Args : Type.
Variable bind : Args -> call_args.
Variable args_text : Args -> string.
Variable md5_hexdigest : string -> string.
Variable duration : Args -> Q.

(** The body, as the computation the wrapper runs; the clock it reads is
    the wrapper's, in whole seconds. *)
Definition body (kernel : gset string) : computation Args :=
  fun args t =>
    let a := bind args in
    (match get_visible_planets kernel (Qfloor t)
             (arg_latitude a) (arg_longitude a) (arg_elevation a) (arg_time a)
             (arg_show_coords a) (arg_above_horizon a) (arg_use_offline_mode a) with
     | inl (ValueError msg) | inl (APIDataError msg) => inl (Failure msg)
     | inr planets_data => inr (PList (to_py <$> planets_data))
     end, duration args).

Definition cached_get_visible_planets (kernel : gset string) (args : Args) (w : world)
    : (Cache.exn + pyval) * world :=
  wrapper Args args_text md5_hexdigest planets_api "get_visible_planets"
    (body kernel) args w.
End DecoratedCall.

End Decorated.

(** ** planets_api.py: lookup by name and twilight times *)

Module PlanetsApiMore.
Import PyNum PlanetsApi.

Section ByName.
Context `{SkyLibrary}.

(** [str.lower] *)
Variable str_lower : string -> string.

(** [get_planet_by_name]: it asks for the whole list ([above_horizon]
    false, [use_offline_mode] left at its default) and returns the first
    record whose name matches, whatever the case of the letters; [None]
    when no record matches. The list is that of the function body. *)
Definition get_planet_by_name (kernel : gset string) (clock : Z) (planet_name : string)
    (latitude longitude elevation : option Q) (time : option time_arg)
    (show_coords use_offline_mode : bool) : exn + option planet_data :=
  match get_visible_planets kernel clock latitude longitude elevation time
          show_coords false false with
  | inl e => inl e
  | inr planets_data =>
      inr (List.find (fun planet =>
                        String.eqb (str_lower (name planet)) (str_lower planet_name))
             planets_data)
  end.
End ByName.

(** [datetime(year, month, day, tzinfo=utc)]: [None] is the [ValueError]
    for a date the calendar does not have. *)
Definition days_in_month (y m : Z) : Z :=
  if (m =? 2)%Z && NeoApi.is_leap y then 29%Z
  else nth (Z.to_nat m) [0; 31; 28; 31; 30; 31; 30; 31; 31; 30; 31; 30; 31]%Z 0%Z.

Definition utc_midnight (y m d : Z) : option datetime :=
  if ((1 <=? y) && (y <=? 9999) && (1 <=? m) && (m <=? 12)
      && (1 <=? d) && (d <=? days_in_month y m))%Z
  then Some (DateTime ((NeoApi.toordinal (NeoApi.Date y m d) - 719163) * 86400) (Some utc))
  else None.

(** What [get_twilight_times] needs from outside: the calendar fields
    of a [datetime], the search of the almanac between two instants for
    an observer (the instants and integer codes of the changes between
    dark, the three twilights and day, or the text of the exception it
    raised), the clock format of an instant, and the text of the
    [ValueError] of a date out of range. *)
Class TwilightLibrary := {
  calendar_of : datetime -> NeoApi.date;
  find_discrete : observer -> skytime -> skytime -> string + list (skytime * Z);
  strftime_hms : skytime -> string;
  out_of_range_text : string
}.

(** The dict [get_twilight_times] returns. *)
Record twilight := Twilight {
  tw_type : string;
  dawn : option string;
  dusk : option string;
  tw_error : option string
}.

Section Twilight.
Context `{TwilightLibrary}.

Definition depression_angle_of (twilight_type : string) : Q :=
  if String.eqb twilight_type "civil" then 6
  else if String.eqb twilight_type "nautical" then 12
  else if String.eqb twilight_type "astronomical" then 18
  else 6.

(** One turn of the loop over [zip(times, events)]. *)
Definition record_event (depression_angle : Q) (result : twilight)
    (entry : skytime * Z) : twilight :=
  let '(time, event) := entry in
  if Qeq_bool (inject_Z event) (1 - depression_angle / 90) then
    Twilight (tw_type result) (Some (strftime_hms time)) (dusk result) (tw_error result)
  else if Qeq_bool (inject_Z event) (1 + depression_angle / 90) then
    Twilight (tw_type result) (dawn result) (Some (strftime_hms time)) (tw_error result)
  else result.

Definition get_twilight_times (latitude longitude : Q) (date_obj : option datetime)
    (twilight_type : string) (clock : Z) : twilight :=
  let date_obj :=
    match date_obj with
    | None => datetime_now_utc clock
    | Some d => match tzinfo d with None => replace_tzinfo d utc | Some _ => d end
    end in
  let obs := Observer latitude longitude 0 in
  let depression_angle := depression_angle_of twilight_type in
  let failed (text : string) := Twilight twilight_type None None (Some text) in
  let day := calendar_of date_obj in
  match utc_midnight (NeoApi.year day) (NeoApi.month day) (NeoApi.day day) with
  | None => failed out_of_range_text
  | Some d0 =>
      match utc_midnight (NeoApi.year day) (NeoApi.month day) (NeoApi.day day + 1) with
      | None => failed out_of_range_text
      | Some d1 =>
          match ts_from_datetime d0, ts_from_datetime d1 with
          | inr t0, inr t1 =>
              match find_discrete obs t0 t1 with
              | inl text => failed text
              | inr changes =>
                  foldl (record_event depression_angle)
                    (Twilight twilight_type None None None) changes
              end
          | inl (ValueError text), _ | inl (APIDataError text), _
          | _, inl (ValueError text) | _, inl (APIDataError text) => failed text
          end
      end
  end.
End Twilight.

End PlanetsApiMore.

(** Stand-ins for examples: ASCII lower-casing, and a twilight library
    whose almanac reports a change to civil twilight and a change to
    day. *)
Module PlanetsApiDemo.
Import PyNum PlanetsApi PlanetsApiMore.

Definition ascii_lower (c : ascii) : ascii :=
  let n := nat_of_ascii c in
  if (65 <=? n)%nat && (n <=? 90)%nat then ascii_of_nat (n + 32) else c.

Fixpoint demo_lower (s : string) : string :=
  match s with
  | EmptyString => EmptyString
  | String c s' => String (ascii_lower c) (demo_lower s')
  end.

Definition demo_twilight_library (today : NeoApi.date) : TwilightLibrary :=
  {| calendar_of := fun _ => today;
     find_discrete := fun _ t0 _ =>
       inr [(SkyTime (utc_seconds t0 + 21600), 3%Z); (SkyTime (utc_seconds t0 + 23400), 4%Z)];
     strftime_hms := fun _ => "06:00:00";
     out_of_range_text := "day is out of range for month" |}.

End PlanetsApiDemo.

(** ** astronomy_utils.py: the key [min] picks *)

Module AstronomyUtilsMore.
Import PyNum AstronomyUtils.

(** The value of [closest_direction] for a normalised azimuth [n]. *)
Definition closest_key (n : Q) : Z :=
  min_from (fun x : Z => Qabs (inject_Z x - n)) 0%Z [45; 90; 135; 180; 225; 270; 315; 360]%Z.

(** The extinction penalty of [is_planet_visible]: a fifth of a
    magnitude for every degree below 10. *)
Definition extinction (altitude : Q) : Q :=
  if Qltb altitude 10 then (10 - altitude) * 0.2 else 0.

End AstronomyUtilsMore.

(** ** neo_api.py: the feed, its processing and its cache *)

Module NeoFeed.
Import PyNum Cache.

(** The exceptions of this part. *)
Inductive error :=
  | AttributeError
  | TypeError
  | KeyError
  | IndexError
  | ValueError
  | RequestError (text : string).

#[export] Instance error_ret : MRet (sum error) := fun A x => inr x.
#[export] Instance error_bind : MBind (sum error) :=
  fun A B f m => match m with inl e => inl e | inr x => f x end.

(** What Python does with values of any type. A [PDict] stands for a
    dict, so its list is taken without repeated keys. *)

(** [v.get(key, default)]: only a dict has [get]. *)
Definition get_or (v : pyval) (key : string) (default : pyval) : error + pyval :=
  match v with
  | PDict d => inr (py_get d key default)
  | _ => inl AttributeError
  end.

(** [v.items()] *)
Definition items (v : pyval) : error + list (string * pyval) :=
  match v with
  | PDict d => inr d
  | _ => inl AttributeError
  end.

(** [for x in v]: the elements of a list, the keys of a dict, the
    characters of a string. *)
Definition iterate (v : pyval) : error + list pyval :=
  match v with
  | PList l | PTuple l => inr l
  | PDict d => inr (PStr <$> d.*1)
  | PStr s => inr ((fun c => PStr (String c "")) <$> list_ascii_of_string s)
  | _ => inl TypeError
  end.

(** [bool(v)] *)
Definition truthy (v : pyval) : bool :=
  match v with
  | PNone => false
  | PBool b => b
  | PInt n => negb (n =? 0)%Z
  | PFloat q => negb (Qeq_bool q 0)
  | PStr s => negb (String.eqb s "")
  | PList l | PTuple l => match l with [] => false | _ => true end
  | PDict d => match d with [] => false | _ => true end
  | PObject _ => true
  end.

Fixpoint occurs_in (key s : string) : bool :=
  String.prefix key s ||
  match s with
  | EmptyString => false
  | String _ s' => occurs_in key s'
  end.

(** [key in v] for a string [key] *)
Definition contains (v : pyval) (key : string) : error + bool :=
  match v with
  | PDict d => inr (existsb (String.eqb key) d.*1)
  | PList l | PTuple l =>
      inr (existsb (fun x => match x with PStr s => String.eqb s key | _ => false end) l)
  | PStr s => inr (occurs_in key s)
  | _ => inl TypeError
  end.

(** [v[key]] for a string [key] *)
Definition subscript (v : pyval) (key : string) : error + pyval :=
  match v with
  | PDict d =>
      match List.find (fun entry => String.eqb entry.1 key) d with
      | Some entry => inr entry.2
      | None => inl KeyError
      end
  | _ => inl TypeError
  end.

(** [v[0]] *)
Definition first_item (v : pyval) : error + pyval :=
  match v with
  | PList l | PTuple l => match l with x :: _ => inr x | [] => inl IndexError end
  | PStr s => match s with String c _ => inr (PStr (String c "")) | EmptyString => inl IndexError end
  | PDict _ => inl KeyError
  | _ => inl TypeError
  end.

Definition as_number (v : pyval) : option Q :=
  match v with
  | PInt n => Some (inject_Z n)
  | PFloat q => Some q
  | PBool b => Some (if b then 1 else 0)
  | _ => None
  end.

(** [(a + b) / 2]: a float when both are numbers; anything else ends in
    a [TypeError], at the sum or at the division. *)
Definition mean (a b : pyval) : error + pyval :=
  match as_number a, as_number b with
  | Some x, Some y => inr (PFloat ((x + y) / 2))
  | _, _ => inl TypeError
  end.

Section Processing.
(** [float(s)] of a string: [None] is its [ValueError]. *)
Variable float_of_text : string -> option Q.

(** [float(v)] *)
Definition py_float (v : pyval) : error + pyval :=
  match v with
  | PStr s =>
      match float_of_text s with
      | Some q => inr (PFloat q)
      | None => inl ValueError
      end
  | _ =>
      match as_number v with
      | Some q => inr (PFloat q)
      | None => inl TypeError
      end
  end.

(** The body of the inner loop of [process_neo_data]: the record made
    of one NEO listed under [date]. *)
Definition process_neo (date : string) (neo : pyval) : error + gmap string pyval :=
  id ← get_or neo "id" PNone;
  name ← get_or neo "name" PNone;
  nasa_jpl_url ← get_or neo "nasa_jpl_url" PNone;
  absolute_magnitude_h ← get_or neo "absolute_magnitude_h" PNone;
  hazardous ← get_or neo "is_potentially_hazardous_asteroid" (PBool false);
  let neo_data : gmap string pyval :=
    <["date" := PStr date]> (<["is_potentially_hazardous" := hazardous]>
    (<["absolute_magnitude_h" := absolute_magnitude_h]> (<["nasa_jpl_url" := nasa_jpl_url]>
    (<["name" := name]> (<["id" := id]> ∅))))) in
  estimated_diameter ← get_or neo "estimated_diameter" (PDict []);
  has_km ← contains estimated_diameter "kilometers";
  neo_data ←
    (if has_km : bool then
       km_data ← subscript estimated_diameter "kilometers";
       diameter_min ← get_or km_data "estimated_diameter_min" PNone;
       diameter_max ← get_or km_data "estimated_diameter_max" PNone;
       diameter_avg ← mean diameter_min diameter_max;
       mret (<["diameter_avg_km" := diameter_avg]> (<["diameter_max_km" := diameter_max]>
             (<["diameter_min_km" := diameter_min]> neo_data)))
     else mret neo_data);
  close_approach_data ← get_or neo "close_approach_data" (PList []);
  if truthy close_approach_data then
    approach ← first_item close_approach_data;
    close_approach_date ← get_or approach "close_approach_date" PNone;
    close_approach_date_full ← get_or approach "close_approach_date_full" PNone;
    relative_velocity ← get_or approach "relative_velocity" (PDict []);
    kilometers_per_hour ← get_or relative_velocity "kilometers_per_hour" (PInt 0);
    velocity ← py_float kilometers_per_hour;
    miss_distance ← get_or approach "miss_distance" (PDict []);
    kilometers ← get_or miss_distance "kilometers" (PInt 0);
    miss_km ← py_float kilometers;
    lunar ← get_or miss_distance "lunar" (PInt 0);
    miss_lunar ← py_float lunar;
    astronomical ← get_or miss_distance "astronomical" (PInt 0);
    miss_astronomical ← py_float astronomical;
    orbiting_body ← get_or approach "orbiting_body" PNone;
    mret (<["orbiting_body" := orbiting_body]>
          (<["miss_distance_astronomical" := miss_astronomical]>
          (<["miss_distance_lunar" := miss_lunar]> (<["miss_distance_km" := miss_km]>
          (<["velocity_km_per_hour" := velocity]>
          (<["close_approach_date_full" := close_approach_date_full]>
          (<["close_approach_date" := close_approach_date]> neo_data)))))))
  else mret neo_data.

(** The inner loop, and the loop over the dates. *)
Fixpoint process_each (date : string) (neos : list pyval) : error + list (gmap string pyval) :=
  match neos with
  | [] => mret []
  | neo :: neos' =>
      neo_data ← process_neo date neo;
      rest ← process_each date neos';
      mret (neo_data :: rest)
  end.

Fixpoint process_dates (dates : list (string * pyval)) : error + list (gmap string pyval) :=
  match dates with
  | [] => mret []
  | (date, neos) :: dates' =>
      listed ← iterate neos;
      records ← process_each date listed;
      rest ← process_dates dates';
      mret (records ++ rest)
  end.

Definition process_neo_data (neo_response : pyval) : error + list (gmap string pyval) :=
  near_earth_objects ← get_or neo_response "near_earth_objects" (PDict []);
  dates ← items near_earth_objects;
  process_dates dates.

(** The NEOs of a response in the order the loops meet them, each with
    the date it is listed under. *)
Fixpoint listing (dates : list (string * pyval)) : error + list (string * pyval) :=
  match dates with
  | [] => mret []
  | (date, neos) :: dates' =>
      listed ← iterate neos;
      rest ← listing dates';
      mret (((fun neo => (date, neo)) <$> listed) ++ rest)
  end.

Definition listed_neos (neo_response : pyval) : error + list (string * pyval) :=
  near_earth_objects ← get_or neo_response "near_earth_objects" (PDict []);
  dates ← items near_earth_objects;
  listing dates.

(** What a request stores in [NEO_CACHE] and returns: the processed
    feed, or the raw document of one object. *)
Inductive payload :=
  | Feed (records : list (gmap string pyval))
  | Raw (data : pyval).

(** The clock, [NEO_CACHE] and the number of requests sent. *)
Record neo_state := NeoState {
  neo_now : Q;
  NEO_CACHE : gmap string (Q * payload);
  requests : nat
}.

Definition BASE_URL : string := "https://api.nasa.gov/neo/rest/v1".
Definition CACHE_DURATION : Q := 24 * 60 * 60.

(** [requests.get(url, params=params, timeout=10)], [raise_for_status()]
    and [response.json()], sent at a clock reading: the document or the
    exception, and the time it took. *)
Variable http_get_json : string -> list (string * string) -> Q -> (error + pyval) * Q.

(** The check at the head of both functions: the data of an entry
    younger than [CACHE_DURATION]. *)
Definition cached (cache_key : string) (st : neo_state) : option payload :=
  match NEO_CACHE st !! cache_key with
  | Some (cache_time, cached_data) =>
      if Qltb (neo_now st - cache_time) CACHE_DURATION then Some cached_data else None
  | None => None
  end.

Definition request (url : string) (params : list (string * string)) (st : neo_state)
    : (error + pyval) * neo_state :=
  let '(response, elapsed) := http_get_json url params (neo_now st) in
  (response, NeoState (neo_now st + elapsed) (NEO_CACHE st) (S (requests st))).

Definition store (cache_key : string) (data : payload) (st : neo_state) : neo_state :=
  NeoState (neo_now st) (<[cache_key := (neo_now st, data)]> (NEO_CACHE st)) (requests st).

(** The keys of the two functions in [NEO_CACHE]. *)
Definition feed_cache_key (start_date : string) (end_date : option string)
    (api_key : string) : string :=
  start_date +:+ "_" +:+ (match end_date with Some e => e | None => "None" end)
    +:+ "_" +:+ api_key.

Definition id_cache_key (asteroid_id api_key : string) : string :=
  "id_" +:+ asteroid_id +:+ "_" +:+ api_key.

(** [get_neo_feed(start_date, end_date=None, api_key="DEMO_KEY")] *)
Definition get_neo_feed (start_date : string) (end_date : option string) (api_key : string)
    (st : neo_state) : (error + payload) * neo_state :=
  let cache_key := feed_cache_key start_date end_date api_key in
  match cached cache_key st with
  | Some cached_data => (inr cached_data, st)
  | None =>
      let url := BASE_URL +:+ "/feed" in
      let params :=
        [("start_date", start_date); ("api_key", api_key)]
        ++ match end_date with
           | Some e => if String.eqb e "" then [] else [("end_date", e)]
           | None => []
           end in
      let '(response, st1) := request url params st in
      match response with
      | inl e => (inl e, st1)
      | inr data =>
          match process_neo_data data with
          | inl e => (inl e, st1)
          | inr processed_data =>
              (inr (Feed processed_data), store cache_key (Feed processed_data) st1)
          end
      end
  end.

(** [get_neo_by_id(asteroid_id, api_key="DEMO_KEY")] *)
Definition get_neo_by_id (asteroid_id : string) (api_key : string) (st : neo_state)
    : (error + payload) * neo_state :=
  let cache_key := id_cache_key asteroid_id api_key in
  match cached cache_key st with
  | Some cached_data => (inr cached_data, st)
  | None =>
      let url := BASE_URL +:+ "/neo/" +:+ asteroid_id in
      let '(response, st1) := request url [("api_key", api_key)] st in
      match response with
      | inl e => (inl e, st1)
      | inr data => (inr (Raw data), store cache_key (Raw data) st1)
      end
  end.
End Processing.

(** A processed record as [get_neo_visibility] reads it: strings,
    numbers and booleans as they are; [None] and any nested value are
    no strings, and [strptime] answers both with a [TypeError]. *)
Definition as_neo_value (v : pyval) : NeoApi.neo_value :=
  match v with
  | PStr s => NeoApi.VStr s
  | PInt n => NeoApi.VNum (inject_Z n)
  | PFloat q => NeoApi.VNum q
  | PBool b => NeoApi.VBool b
  | _ => NeoApi.VNone
  end.

Definition as_neo_record (neo_data : gmap string pyval) : NeoApi.neo_record :=
  as_neo_value <$> neo_data.

(** Stand-ins for examples: a feed of two days, a NEO without approach
    data among them, and a server that answers every request with it. *)
Definition demo_float (s : string) : option Q :=
  if String.eqb s "48520.5" then Some 48520.5
  else if String.eqb s "7000000" then Some 7000000
  else if String.eqb s "18.2" then Some 18.2
  else if String.eqb s "0.0468" then Some 0.0468
  else None.

Definition demo_neo (id : string) (with_approach : bool) : pyval :=
  PDict [ ("id", PStr id); ("name", PStr ("(" +:+ id +:+ ")"));
          ("nasa_jpl_url", PStr "https://ssd.jpl.nasa.gov"); ("absolute_magnitude_h", PFloat 21.3);
          ("is_potentially_hazardous_asteroid", PBool false);
          ("estimated_diameter",
           PDict [("kilometers", PDict [("estimated_diameter_min", PFloat 0.1);
                                        ("estimated_diameter_max", PFloat 0.3)])]);
          ("close_approach_data",
           PList (if with_approach
                  then [PDict [("close_approach_date", PStr "2025-02-10");
                               ("close_approach_date_full", PStr "2025-Feb-10 12:00");
                               ("relative_velocity", PDict [("kilometers_per_hour", PStr "48520.5")]);
                               ("miss_distance", PDict [("kilometers", PStr "7000000");
                                                        ("lunar", PStr "18.2");
                                                        ("astronomical", PStr "0.0468")]);
                               ("orbiting_body", PStr "Earth")]]
                  else [])) ].

Definition demo_feed : pyval :=
  PDict [("element_count", PInt 3);
         ("near_earth_objects",
          PDict [("2025-02-10", PList [demo_neo "1001" true; demo_neo "1002" false]);
                 ("2025-02-11", PList [demo_neo "1003" true])])].

Definition demo_server : string -> list (string * string) -> Q -> (error + pyval) * Q :=
  fun _ _ _ => (inr demo_feed, 2).

Definition demo_outage : string -> list (string * string) -> Q -> (error + pyval) * Q :=
  fun _ _ _ => (inl (RequestError "503 Server Error"), 10).

Definition demo_records : list (gmap string pyval) :=
  match process_neo_data demo_float demo_feed with inr records => records | inl _ => [] end.

Definition demo_pairs : list (string * pyval) :=
  [("2025-02-10", demo_neo "1001" true); ("2025-02-10", demo_neo "1002" false);
   ("2025-02-11", demo_neo "1003" true)].

End NeoFeed.

(** ** app.py: the sky map, the table and the position sentence *)

Module App.
Import PyNum.

Definition PLANET_COLORS : list (string * string) :=
  [ ("Mercury", "#c0c0c0"); ("Venus", "#f9d71c"); ("Earth", "#1e90ff"); ("Mars", "#ff4500");
    ("Jupiter", "#ffa500"); ("Saturn", "#f0e68c"); ("Uranus", "#40e0d0");
    ("Neptune", "#0000cd"); ("Moon", "#f8f8ff"); ("Sun", "#ffff00");
    ("Pluto", "#a0522d");
    ("Io", "#ffcc00"); ("Europa", "#ffffff"); ("Ganymede", "#c0c0c0"); ("Callisto", "#8b4513");
    ("Titan", "#ffd700"); ("Enceladus", "#e0ffff"); ("Mimas", "#f5f5f5"); ("Dione", "#d3d3d3");
    ("Rhea", "#c0c0c0"); ("Iapetus", "#f5deb3");
    ("Miranda", "#b0e0e6"); ("Ariel", "#add8e6"); ("Umbriel", "#778899");
    ("Titania", "#b0c4de"); ("Oberon", "#a9a9a9");
    ("Triton", "#afeeee"); ("Nereid", "#87ceeb") ].

(** [table.get(key, default)] on a dict literal. *)
Fixpoint table_get {A} (table : list (string * A)) (key : string) (default : A) : A :=
  match table with
  | [] => default
  | (k, v) :: table' => if String.eqb k key then v else table_get table' key default
  end.

(** [name in [...]] *)
Definition is_in (name : string) (names : list string) : bool :=
  existsb (String.eqb name) names.

(** The lists of names the source writes out in each of its chains. *)
Definition major_planets : list string :=
  ["Mercury"; "Venus"; "Mars"; "Jupiter"; "Saturn"; "Uranus"; "Neptune"].
Definition jupiter_moons : list string := ["Io"; "Europa"; "Ganymede"; "Callisto"].
Definition saturn_moons : list string :=
  ["Titan"; "Enceladus"; "Mimas"; "Dione"; "Rhea"; "Iapetus"].
Definition uranus_moons : list string := ["Miranda"; "Ariel"; "Umbriel"; "Titania"; "Oberon"].
Definition neptune_moons : list string := ["Triton"; "Nereid"].

(** A body as the application reads it: a dict whose values, where a
    key is present, are a string for the name and the constellation
    and numbers for the rest. [None] is a key that is absent (for the
    altitude and the azimuth also a key that holds [None]). *)
Record body := Body {
  name : option string;
  altitude : option Q;
  azimuth : option Q;
  magnitude : option Q;
  constellation : option string
}.

(** [body.get('name', 'Unknown')] *)
Definition name_of (b : body) : string :=
  match name b with Some n => n | None => "Unknown" end.

(** The dicts [get_visible_planets] returns, read as bodies. *)
Definition of_planet_data (p : PlanetsApi.planet_data) : body :=
  Body (Some (PlanetsApi.name p)) (Some (PlanetsApi.altitude p)) (Some (PlanetsApi.azimuth p))
       (Some (PlanetsApi.magnitude p)) (Some (PlanetsApi.constellation p)).

(** The four lists of [create_sky_map]. *)
Inductive category := Planets | Moons | DwarfPlanets | OtherBodies.

Definition category_of (name : string) : category :=
  if is_in name major_planets then Planets
  else if String.eqb name "Sun" then Planets
  else if String.eqb name "Moon" then Moons
  else if String.eqb name "Pluto" then DwarfPlanets
  else if is_in name jupiter_moons then Moons
  else if is_in name saturn_moons then Moons
  else if is_in name uranus_moons then Moons
  else if is_in name neptune_moons then Moons
  else OtherBodies.

Record categorized := Categorized {
  planets : list body;
  moons : list body;
  dwarf_planets : list body;
  other_bodies : list body
}.

Definition categorize (planets_data : list body) : categorized :=
  foldl (fun lists body =>
           match category_of (name_of body) with
           | Planets =>
               Categorized (planets lists ++ [body]) (moons lists) (dwarf_planets lists)
                           (other_bodies lists)
           | Moons =>
               Categorized (planets lists) (moons lists ++ [body]) (dwarf_planets lists)
                           (other_bodies lists)
           | DwarfPlanets =>
               Categorized (planets lists) (moons lists) (dwarf_planets lists ++ [body])
                           (other_bodies lists)
           | OtherBodies =>
               Categorized (planets lists) (moons lists) (dwarf_planets lists)
                           (other_bodies lists ++ [body])
           end)
        (Categorized [] [] [] []) planets_data.

(** [max(a, b)] *)
Definition py_max (a b : Q) : Q := if Qltb a b then b else a.

(** The size of the marker in [add_body_to_chart]. *)
Definition marker_size (name : string) (magnitude : Q) : Q :=
  let size := py_max 8 (15 - magnitude) in
  if String.eqb name "Sun" then 18
  else if String.eqb name "Moon" then 16
  else if is_in name major_planets then py_max 10 size
  else if String.eqb name "Pluto" then py_max 7 size
  else if is_in name jupiter_moons then py_max 6 size
  else if is_in name saturn_moons then py_max 5 size
  else if is_in name uranus_moons then py_max 4 size
  else if is_in name neptune_moons then py_max 4 size
  else size.

(** The symbol when none is passed, as in every call of the source. *)
Definition marker_symbol (name : string) : string :=
  if String.eqb name "Sun" then "circle"
  else if String.eqb name "Moon" then "circle"
  else if is_in name major_planets then "circle"
  else if String.eqb name "Pluto" then "diamond"
  else if is_in name jupiter_moons then "circle-open"
  else if is_in name saturn_moons then "circle-open"
  else if is_in name uranus_moons then "circle-open-dot"
  else if is_in name neptune_moons then "circle-open-dot"
  else "x".

(** [get_body_type] of [create_sky_map], which [get_body_type_for_df]
    repeats. *)
Definition get_body_type (name : string) : string :=
  if String.eqb name "Sun" then "Star"
  else if String.eqb name "Moon" then "Moon (Earth)"
  else if is_in name major_planets then "Planet"
  else if String.eqb name "Pluto" then "Dwarf Planet"
  else if is_in name jupiter_moons then "Moon (Jupiter)"
  else if is_in name saturn_moons then "Moon (Saturn)"
  else if is_in name uranus_moons then "Moon (Uranus)"
  else if is_in name neptune_moons then "Moon (Neptune)"
  else "Other".

Definition get_body_type_for_df (name : string) : string :=
  if String.eqb name "Sun" then "Star"
  else if String.eqb name "Moon" then "Moon (Earth)"
  else if is_in name major_planets then "Planet"
  else if String.eqb name "Pluto" then "Dwarf Planet"
  else if is_in name jupiter_moons then "Moon (Jupiter)"
  else if is_in name saturn_moons then "Moon (Saturn)"
  else if is_in name uranus_moons then "Moon (Uranus)"
  else if is_in name neptune_moons then "Moon (Neptune)"
  else "Other".

(** One marker of the sky map: the polar position, the marker, the
    label, the type shown on hover and the [customdata]. *)
Record trace := Trace {
  r : Q;
  theta : option Q;
  size : Q;
  color : string;
  symbol : string;
  text : string;
  hover_type : string;
  customdata : Q * option Q * Q
}.

(** [add_body_to_chart(body)]: [None] when it returns without adding
    anything. *)
Definition add_body_to_chart (b : body) : option trace :=
  let name := name_of b in
  let magnitude := match magnitude b with Some m => m | None => 0 end in
  match altitude b with
  | None => None
  | Some altitude =>
      if Qltb altitude 0 then None
      else
        let zenith_distance := 90 - altitude in
        Some (Trace zenith_distance (azimuth b) (marker_size name magnitude)
                    (table_get PLANET_COLORS name "#808080") (marker_symbol name) name
                    (get_body_type name) (altitude, azimuth b, magnitude))
  end.

(** [create_sky_map(planets_data)]: the markers its four last loops add
    to the figure, in their order. The circles, the four compass
    labels and the layout, which do not depend on the data, are left to
    the plotting library. *)
Definition create_sky_map (planets_data : list body) : list trace :=
  let lists := categorize planets_data in
  omap add_body_to_chart (planets lists)
  ++ omap add_body_to_chart (dwarf_planets lists)
  ++ omap add_body_to_chart (moons lists)
  ++ omap add_body_to_chart (other_bodies lists).

(** [f"{x:.2f}"] *)
Definition format_2f (x : Q) : string :=
  let n := round_half_even (Qabs x * 100) in
  (if Qltb x 0 then "-" else "") +:+ str_Z (n / 100) +:+ "."
    +:+ str_Z ((n / 10) mod 10) +:+ str_Z (n mod 10).

(** One row of the table. *)
Record row := Row {
  col_Name : string;
  col_Type : string;
  col_Altitude : string;
  col_Azimuth : string;
  col_Direction : string;
  col_Magnitude : string;
  col_Constellation : string;
  col_Visible : string;
  col_Data_Source : string
}.

(** The body of the loop of [format_planet_data_as_df]: [None] when
    [get_azimuth_direction] raises. The two characters after the
    altitude and the azimuth are those of the source file. *)
Definition data_entry (planet : body) : option row :=
  let name := name_of planet in
  let visible := match altitude planet with Some a => Qltb 0 a | None => false end in
  direction ← match azimuth planet with
              | Some z => AstronomyUtils.get_azimuth_direction z
              | None => Some ""
              end;
  let body_type := get_body_type_for_df name in
  Some (Row name body_type
            (match altitude planet with Some a => format_1f a +:+ "¬∞" | None => "N/A" end)
            (match azimuth planet with Some z => format_1f z +:+ "¬∞" | None => "N/A" end)
            direction
            (match magnitude planet with Some m => format_2f m | None => "N/A" end)
            (match constellation planet with Some c => c | None => "" end)
            (if visible then "Yes" else "No")
            "Skyfield").

(** [get_planet_position_info(planet_data, language='en')]: [None] when
    the description raises, as it does without an azimuth. *)
Definition get_planet_position_info (planet_data : body) (language : string) : option string :=
  let name := name_of planet_data in
  let below := match altitude planet_data with Some a => Qltb a 0 | None => true end in
  if below then Some (name +:+ " is currently below the horizon and not visible.")
  else
    altitude ← altitude planet_data;
    azimuth ← azimuth planet_data;
    position_desc ← AstronomyUtils.get_sky_position_description altitude azimuth language;
    Some (name +:+ " is currently at " +:+ position_desc +:+ ".").

End App.

(** ** solar_system_3d.py: the coordinates of the 3D view *)

Module SolarSystem3D.
Import PyNum PlanetsApi.

Definition SUN_SIZE : Q := 20.

Definition PLANET_SIZE_SCALE : list (string * Q) :=
  [ ("Mercury", 3.8); ("Venus", 9.5); ("Earth", 10.0); ("Mars", 5.3); ("Jupiter", 112.0);
    ("Saturn", 94.5); ("Uranus", 40.0); ("Neptune", 38.8); ("Pluto", 1.8); ("Moon", 2.7);
    ("Sun", 109.0) ].

Definition SIZE_MULTIPLIER : Q := 0.5.
Definition MOON_SIZE_MULTIPLIER : Q := 0.8.

(** [s.endswith(suffix)] *)
Fixpoint endswith (s suffix : string) : bool :=
  String.eqb s suffix ||
  match s with
  | EmptyString => false
  | String _ s' => endswith s' suffix
  end.

(** One value of the returned dict. *)
Record entry := Entry {
  x : Q;
  y : Q;
  z : Q;
  name : string;
  color : string;
  size : Q;
  type : string
}.

Definition body_type_of (name : string) : string :=
  if App.is_in name ["Mercury"; "Venus"; "Earth"; "Mars"; "Jupiter"; "Saturn"; "Uranus"; "Neptune"]
  then "planet"
  else if String.eqb name "Pluto" then "dwarf_planet"
  else if String.eqb name "Moon" then "moon"
  else if App.is_in name App.jupiter_moons then "jupiter_moon"
  else if App.is_in name App.saturn_moons then "saturn_moon"
  else if App.is_in name App.uranus_moons then "uranus_moon"
  else if App.is_in name App.neptune_moons then "neptune_moon"
  else "planet".

Definition visual_size (name body_type : string) : Q :=
  let base_size := App.table_get PLANET_SIZE_SCALE name 5.0 in
  if String.eqb body_type "planet" then base_size * SIZE_MULTIPLIER
  else if String.eqb body_type "dwarf_planet" then 3 * SIZE_MULTIPLIER
  else if endswith body_type "_moon" then 2 * MOON_SIZE_MULTIPLIER
  else 3 * SIZE_MULTIPLIER.

Definition sun_entry : entry :=
  Entry 0 0 0 "Sun" (App.table_get App.PLANET_COLORS "Sun" "#ffff00") SUN_SIZE "star".

Section Coordinates.
(** [planet.at(t).position.au] for the catalogue entry of a name, its
    three components; [None] is an exception, which the loop logs. *)
Variable position_au : string -> skytime -> option (Q * Q * Q).

(** [get_planets_3d_coordinates(time=None)], with the targets of the
    ephemeris file and the clock explicit. *)
Definition get_planets_3d_coordinates (kernel : gset string) (clock : Z)
    (time : option datetime) : exn + gmap string entry :=
  let time :=
    match time with
    | None => datetime_now_utc clock
    | Some d => match tzinfo d with None => replace_tzinfo d utc | Some _ => d end
    end in
  match ts_from_datetime time with
  | inl e => inl e
  | inr t =>
      let planets_3d : gmap string entry := {[ "Sun" := sun_entry ]} in
      inr (foldl (fun (planets_3d : gmap string entry) name =>
                    if String.eqb name "Sun" then planets_3d
                    else
                      match position_au name t with
                      | None => planets_3d
                      | Some (px, py, pz) =>
                          let body_type := body_type_of name in
                          <[name := Entry px py pz name
                                      (App.table_get App.PLANET_COLORS name "#808080")
                                      (visual_size name body_type) body_type]> planets_3d
                      end)
                 planets_3d (PLANETS kernel))
  end.
End Coordinates.

End SolarSystem3D.

(** * Properties *)

(** ** Facts about the numeric helpers *)

Module PyNumFacts.
Import PyNum.

Lemma Qltb_lt x y : Qltb x y = true <-> x < y.
Proof.
  unfold Qltb. rewrite negb_true_iff. split.
  - intros E. apply Qnot_le_lt. intros Hle. apply Qle_bool_iff in Hle. congruence.
  - intros Hlt. destruct (Qle_bool y x) eqn:E; [|reflexivity].
    apply Qle_bool_iff in E. lra.
Qed.

Lemma Qltb_ge x y : Qltb x y = false <-> y <= x.
Proof. unfold Qltb. rewrite negb_false_iff. apply Qle_bool_iff. Qed.

(** Case analysis on every comparison of the goal, with the inequality
    it decides put among the hypotheses. *)
Ltac qltb_cases :=
  repeat match goal with
    | |- context [Qltb ?a ?b] =>
        let E := fresh "E" in
        destruct (Qltb a b) eqn:E;
        [apply Qltb_lt in E | apply Qltb_ge in E]
    | H : context [Qltb ?a ?b] |- _ =>
        let E := fresh "E" in
        destruct (Qltb a b) eqn:E;
        [apply Qltb_lt in E | apply Qltb_ge in E]
    end.

Lemma py_mod_range a b : 0 < b -> 0 <= py_mod a b /\ py_mod a b < b.
Proof.
  intros Hb. unfold py_mod.
  pose proof (Qfloor_le (a / b)) as Hlo.
  pose proof (Qlt_floor (a / b)) as Hhi.
  rewrite inject_Z_plus in Hhi. change (inject_Z 1) with 1 in Hhi.
  assert (Ha : a == b * (a / b)) by (field; lra).
  set (f := inject_Z (Qfloor (a / b))) in *.
  set (q := a / b) in *.
  split.
  - assert (b * f <= b * q) by (apply Qmult_le_l; lra). lra.
  - assert (b * q < b * (f + 1)) by (apply Qmult_lt_l; lra). lra.
Qed.

Lemma min_from_le {A} (key : A -> Q) (l : list A) (best : A) :
  key (min_from key best l) <= key best /\
  forall x, In x l -> key (min_from key best l) <= key x.
Proof.
  revert best. induction l as [|y l IH]; intros best; simpl.
  - split; [lra | tauto].
  - destruct (IH (if Qltb (key y) (key best) then y else best)) as [H1 H2].
    destruct (Qltb (key y) (key best)) eqn:E.
    + apply Qltb_lt in E. split; [lra|].
      intros x [->|Hx]; [exact H1 | apply H2, Hx].
    + apply Qltb_ge in E. split; [exact H1|].
      intros x [->|Hx]; [lra | apply H2, Hx].
Qed.

Lemma min_from_In {A} (key : A -> Q) (l : list A) (best : A) :
  In (min_from key best l) (best :: l).
Proof.
  revert best. induction l as [|y l IH]; intros best; simpl.
  - left; reflexivity.
  - destruct (IH (if Qltb (key y) (key best) then y else best)) as [E|HIn].
    + destruct (Qltb (key y) (key best)); rewrite <- E; tauto.
    + right; right; exact HIn.
Qed.

End PyNumFacts.

(** ** astronomy_utils.py: visibility, directions and the position phrase *)

Module AstronomyUtilsProps.
Import PyNum PyNumFacts AstronomyUtils.

(** C6. [is_planet_visible] is monotone: with the two thresholds fixed,
    a body that is visible stays visible when its altitude grows and its
    magnitude does not (a smaller magnitude is a brighter body). *)
Theorem C6_is_planet_visible_monotone
    (altitude altitude' : Q) (magnitude magnitude' : option Q)
    (min_altitude : Q) (max_magnitude : option Q) :
  is_planet_visible altitude magnitude min_altitude max_magnitude = true ->
  altitude <= altitude' ->
  brighter_or_equal magnitude' magnitude ->
  is_planet_visible altitude' magnitude' min_altitude max_magnitude = true.
Proof.
  unfold is_planet_visible, brighter_or_equal.
  intros Hvis Halt Hmag.
  destruct magnitude as [m|], magnitude' as [m'|]; try contradiction;
    destruct max_magnitude as [mx|]; simpl in *;
    qltb_cases; simpl in *; try reflexivity; try discriminate; lra.
Qed.

Lemma C6_is_planet_visible_monotone_witness :
  is_planet_visible 5 (Some 1.5) 0 (Some 3) = true /\
  is_planet_visible 12 (Some 0.5) 0 (Some 3) = true.
Proof.
  split; [reflexivity|].
  apply (C6_is_planet_visible_monotone 5 12 (Some 1.5) (Some 0.5) 0 (Some 3)).
  - reflexivity.
  - unfold Qle; simpl; lia.
  - unfold brighter_or_equal, Qle; simpl; lia.
Defined.

(** The distance test of [get_azimuth_direction] never fires: one of the
    nine keys lies within 22.5 degrees of every normalised azimuth. *)
Lemma closest_direction_near (a : Q) :
  0 <= a < 360 ->
  exists k, In k (dict_keys AZIMUTH_DIRECTIONS) /\ Qabs (inject_Z k - a) <= 22.5.
Proof.
  intros [Hlo Hhi].
  assert (Hcase :
    a <= 22.5 \/ (22.5 <= a <= 67.5) \/ (67.5 <= a <= 112.5) \/
    (112.5 <= a <= 157.5) \/ (157.5 <= a <= 202.5) \/ (202.5 <= a <= 247.5) \/
    (247.5 <= a <= 292.5) \/ (292.5 <= a <= 337.5) \/ 337.5 <= a).
  { destruct (Qlt_le_dec a 22.5); [left; lra|].
    destruct (Qlt_le_dec a 67.5); [right; left; lra|].
    destruct (Qlt_le_dec a 112.5); [do 2 right; left; lra|].
    destruct (Qlt_le_dec a 157.5); [do 3 right; left; lra|].
    destruct (Qlt_le_dec a 202.5); [do 4 right; left; lra|].
    destruct (Qlt_le_dec a 247.5); [do 5 right; left; lra|].
    destruct (Qlt_le_dec a 292.5); [do 6 right; left; lra|].
    destruct (Qlt_le_dec a 337.5); [do 7 right; left; lra|].
    do 8 right; lra. }
  assert (Hin : forall k, In k [0; 45; 90; 135; 180; 225; 270; 315; 360]%Z ->
                          In k (dict_keys AZIMUTH_DIRECTIONS)) by (intros k Hk; exact Hk).
  destruct Hcase as [C|[C|[C|[C|[C|[C|[C|[C|C]]]]]]]];
    [exists 0%Z | exists 45%Z | exists 90%Z | exists 135%Z | exists 180%Z
    | exists 225%Z | exists 270%Z | exists 315%Z | exists 360%Z];
    (split; [apply Hin; simpl; tauto
            | apply Qabs_Qle_condition; unfold inject_Z; split; lra]).
Qed.

(** For every azimuth the function returns, and what it returns is the
    single label of a key within 22.5 degrees: the branch that builds a
    hyphenated pair is never taken. *)
Lemma get_azimuth_direction_single_label (azimuth : Q) :
  exists k label,
    get_azimuth_direction azimuth = Some label /\
    dict_get AZIMUTH_DIRECTIONS k = Some label /\
    Qabs (py_mod azimuth 360 - inject_Z k) <= 22.5 /\
    has_hyphen label = false.
Proof.
  unfold get_azimuth_direction.
  destruct (py_mod_range azimuth 360) as [Hlo Hhi]; [lra|].
  set (a := py_mod azimuth 360) in *.
  set (dist := fun x : Z => Qabs (inject_Z x - a)).
  change (py_min dist (dict_keys AZIMUTH_DIRECTIONS))
    with (Some (min_from dist 0%Z [45; 90; 135; 180; 225; 270; 315; 360]%Z)).
  pose proof (min_from_In dist [45; 90; 135; 180; 225; 270; 315; 360]%Z 0%Z) as HIn.
  destruct (min_from_le dist [45; 90; 135; 180; 225; 270; 315; 360]%Z 0%Z) as [Hbest Hall].
  set (c := min_from dist 0%Z [45; 90; 135; 180; 225; 270; 315; 360]%Z) in *.
  assert (Hc : dist c <= 22.5).
  { destruct (closest_direction_near a (conj Hlo Hhi)) as (k & Hk & Hd).
    change (dict_keys AZIMUTH_DIRECTIONS)
      with [0; 45; 90; 135; 180; 225; 270; 315; 360]%Z in Hk.
    fold (dist k) in Hd.
    destruct Hk as [<-|Hk]; [lra|].
    specialize (Hall k Hk). lra. }
  assert (Hc' : Qabs (a - inject_Z c) <= 22.5).
  { rewrite Qabs_Qminus. exact Hc. }
  apply Qltb_ge in Hc' as Hnot.
  clearbody c. clear Hbest Hall Hc. subst dist. clearbody a.
  unfold mbind, option_bind. rewrite Hnot.
  exists c.
  destruct HIn as [E|[E|[E|[E|[E|[E|[E|[E|[E|[]]]]]]]]]]; subst c;
    eexists; (split; [reflexivity | split; [reflexivity | split; [exact Hc' | reflexivity]]]).
Qed.

Lemma hyphenated_has_hyphen (a b : string) : has_hyphen (a +:+ "-" +:+ b) = true.
Proof.
  induction a as [|c a IH]; simpl.
  - reflexivity.
  - rewrite IH. apply orb_true_r.
Qed.

(** C2, as the code has it. [get_azimuth_direction] returns "North" for
    azimuth 0 and "East" for azimuth 90; 45 is itself one of the keys of
    the table, so azimuth 45 returns the single label "Northeast". *)
Theorem C2_azimuth_direction_principal_points :
  get_azimuth_direction 0 = Some "North" /\
  get_azimuth_direction 90 = Some "East" /\
  get_azimuth_direction 45 = Some "Northeast".
Proof. repeat split; vm_compute; reflexivity. Qed.

(** C2, as stated, fails at azimuth 45: the result is not a hyphenated
    pair of two labels, whatever the two labels are. *)
Lemma C2_azimuth_45_is_not_composite :
  get_azimuth_direction 45 = Some "Northeast" /\
  get_azimuth_direction 45 <> Some ("North" +:+ "-" +:+ "East") /\
  forall a b : string, get_azimuth_direction 45 <> Some (a +:+ "-" +:+ b).
Proof.
  assert (E : get_azimuth_direction 45 = Some "Northeast") by (vm_compute; reflexivity).
  assert (Hno : forall a b : string, get_azimuth_direction 45 <> Some (a +:+ "-" +:+ b)).
  { intros a b Heq. rewrite E in Heq. injection Heq as Heq.
    pose proof (hyphenated_has_hyphen a b) as Hh. rewrite <- Heq in Hh.
    discriminate Hh. }
  split; [exact E | split; [apply Hno | exact Hno]].
Qed.

Lemma get_altitude_description_band (altitude : Q) :
  code_band altitude (get_altitude_description altitude).
Proof.
  unfold code_band, get_altitude_description.
  qltb_cases; repeat split; intros; try reflexivity; lra.
Qed.

(** C9, as the code has it. For every altitude and azimuth (and every
    language code) [get_sky_position_description] returns
    "looking {direction}, {band} ({altitude:.1f}°)", the direction being
    that of [get_azimuth_direction] and the band "below the horizon"
    below 0, "low" from 0 up to 15, "at medium height" from 15 up to 45,
    "high" from 45 up to 75, each bound included below and excluded
    above, and "almost directly overhead" from 75 on, 75 included. *)
Theorem C9_sky_position_description (altitude azimuth : Q) (language : string) :
  exists direction band,
    get_azimuth_direction azimuth = Some direction /\
    code_band altitude band /\
    get_sky_position_description altitude azimuth language
      = Some (spec_phrase direction band altitude).
Proof.
  destruct (get_azimuth_direction_single_label azimuth) as (k & label & Hdir & _).
  exists label, (get_altitude_description altitude).
  split; [exact Hdir|]. split; [apply get_altitude_description_band|].
  unfold get_sky_position_description, spec_phrase. rewrite Hdir. simpl.
  destruct (String.eqb language "en"); reflexivity.
Qed.

(** C9, as stated, fails at altitude 75: the specification keeps 75 in
    the band "high" and starts "almost directly overhead" above 75,
    while the code answers "almost directly overhead" at 75. *)
Lemma C9_altitude_75_is_overhead :
  get_sky_position_description 75 180 "en"
    = Some "looking South, almost directly overhead (75.0°)" /\
  ~ (exists direction band,
       get_azimuth_direction 180 = Some direction /\
       spec_band 75 band /\
       get_sky_position_description 75 180 "en"
         = Some (spec_phrase direction band 75)).
Proof.
  split; [vm_compute; reflexivity|].
  intros (direction & band & Hdir & Hband & Hdesc).
  assert (Hd : get_azimuth_direction 180 = Some "South") by (vm_compute; reflexivity).
  rewrite Hd in Hdir. injection Hdir as <-.
  destruct Hband as (_ & _ & _ & Hhigh & _).
  rewrite Hhigh in Hdesc by (split; unfold Qle; simpl; lia).
  vm_compute in Hdesc. discriminate Hdesc.
Qed.

End AstronomyUtilsProps.

(** ** neo_api.py: the visibility heuristic *)

Module NeoApiProps.
Import PyNum PyNumFacts NeoApi.
Local Open Scope Z_scope.

Section Heuristic.
Context {G : Type} `{RandomSource G}.
Variable strptime : string -> option date.

(** A draw from a list of three or five directions returns one of its
    elements. *)
Lemma random_choice_possible (latitude : Q) (g : G) :
  exists direction g',
    random_choice (possible_directions latitude) g = (inr direction, g') /\
    In direction (possible_directions latitude).
Proof.
  unfold random_choice.
  set (seq := possible_directions latitude).
  assert (Hlen : 0 < Z.of_nat (length seq)).
  { subst seq. unfold possible_directions.
    destruct (Qltb 0 latitude), (Qltb 45 latitude), (Qltb latitude (-45)); simpl; lia. }
  pose proof (randbelow_range (Z.of_nat (length seq)) g Hlen) as Hrange.
  destruct (randbelow (Z.of_nat (length seq)) g) as [i g'] eqn:Edraw. simpl in Hrange.
  assert (Hlt : (Z.to_nat i < length seq)%nat) by lia.
  destruct (lookup_lt_is_Some_2 seq (Z.to_nat i) Hlt) as [direction Hdir].
  destruct seq as [|d0 seq'] eqn:Eseq; [simpl in Hlen; lia|].
  rewrite Hdir. exists direction, g'. split; [reflexivity|].
  apply list_elem_of_In. eapply list_elem_of_lookup_2. exact Hdir.
Qed.

(** Every direction that can be drawn is one of the eight compass
    points, and the chain of comparisons gives it its canonical
    azimuth. *)
Lemma possible_direction_canonical (latitude : Q) (direction : string) :
  In direction (possible_directions latitude) ->
  canonical_azimuth_of direction = Some (direction_to_azimuth direction).
Proof.
  unfold possible_directions.
  destruct (Qltb 0 latitude), (Qltb 45 latitude), (Qltb latitude (-45)); simpl;
    intuition (subst; reflexivity).
Qed.

(** C3. For a NEO record whose close-approach date parses: when the
    date is more than 7 days from today the verdict is visible=false
    with a reason that cites the gap in days, and the generator is left
    alone; otherwise, and in particular when the date is today, the
    verdict is visible=true and the azimuth is the canonical azimuth of
    the returned compass direction. *)
Theorem C3_neo_visibility_window
    (neo_data : neo_record) (latitude longitude : Q) (today approach_date : date)
    (s : string) (g : G) :
  neo_data !! "close_approach_date" = Some (VStr s) ->
  strptime s = Some approach_date ->
  let date_diff := Z.abs (days_between approach_date today) in
  (7 < date_diff ->
     exists reason,
       get_neo_visibility strptime neo_data latitude longitude today g
         = (inr (NotVisible reason), g) /\
       visible (NotVisible reason) = false /\
       cites_day_gap reason date_diff) /\
  (date_diff <= 7 ->
     exists direction elevation azimuth note g',
       get_neo_visibility strptime neo_data latitude longitude today g
         = (inr (Visible direction elevation azimuth note), g') /\
       visible (Visible direction elevation azimuth note) = true /\
       canonical_azimuth_of direction = Some azimuth) /\
  (approach_date = today -> date_diff <= 7).
Proof.
  intros Hkey Hparse date_diff. unfold get_neo_visibility.
  rewrite Hkey, Hparse. fold date_diff.
  split; [|split].
  - intros Hfar. apply Z.ltb_lt in Hfar. rewrite Hfar.
    eexists. split; [reflexivity|]. split; reflexivity.
  - intros Hnear. apply Z.ltb_ge in Hnear. rewrite Hnear.
    destruct (random_choice_possible latitude g) as (direction & g1 & Hdraw & Hin).
    rewrite Hdraw.
    destruct (random_randint 20 60 g1) as [elevation g2].
    exists direction, elevation, (direction_to_azimuth direction), NOTE, g2.
    split; [reflexivity|]. split; [reflexivity|].
    eapply possible_direction_canonical. exact Hin.
  - intros ->. subst date_diff. unfold days_between. lia.
Qed.
End Heuristic.

Lemma C3_neo_visibility_window_witness :
  let neo_data : neo_record := {[ "close_approach_date" := VStr "2025-02-10" ]} in
  let today := Date 2025 1 31 in
  neo_data !! "close_approach_date" = Some (VStr "2025-02-10") /\
  strict_ymd "2025-02-10" = Some (Date 2025 2 10) /\
  Z.abs (days_between (Date 2025 2 10) today) = 10 /\
  get_neo_visibility strict_ymd neo_data 40.7128%Q (-74.0060)%Q today 7
    = (inr (NotVisible "Not visible: approach date is 10 days away from today"), 7).
Proof.
  intros neo_data today.
  assert (Hkey : neo_data !! "close_approach_date" = Some (VStr "2025-02-10"))
    by reflexivity.
  assert (Hparse : strict_ymd "2025-02-10" = Some (Date 2025 2 10)) by reflexivity.
  split; [exact Hkey|]. split; [exact Hparse|]. split; [reflexivity|].
  destruct (C3_neo_visibility_window strict_ymd neo_data 40.7128%Q (-74.0060)%Q
              today (Date 2025 2 10) "2025-02-10" 7 Hkey Hparse)
    as [Hfar _].
  destruct Hfar as (reason & Hcall & _ & Hreason); [vm_compute; reflexivity|].
  rewrite Hcall. rewrite Hreason. reflexivity.
Defined.

End NeoApiProps.

(** ** planets_api.py: the body list and the Moon's phase *)

Module PlanetsApiProps.
Import PyNum PyNumFacts PlanetsApi.

Section EngineProps.
Context `{SkyLibrary}.

(** The loop that appends one record per body that can be observed
    collects exactly the records of those bodies, in catalogue order. *)
Lemma loop_collects {A B} (f : A -> option B) (l : list A) (acc : list B) :
  foldl (fun acc x => match f x with Some y => acc ++ [y] | None => acc end) acc l
  = acc ++ omap f l.
Proof.
  revert acc. induction l as [|x l IH]; intros acc; simpl.
  - rewrite app_nil_r. reflexivity.
  - rewrite IH. destruct (f x) as [y|]; [|reflexivity].
    rewrite <- app_assoc. reflexivity.
Qed.

(** The time a query resolves to is always timezone-aware. *)
Lemma resolve_time_aware (time : option time_arg) (clock : Z) :
  exists offset, tzinfo (resolve_time time (datetime_now_utc clock)) = Some offset.
Proof.
  unfold resolve_time.
  destruct time as [[s|d]|].
  - destruct (fromisoformat (replace_Z s)) as [time_obj|]; [|eexists; reflexivity].
    destruct (tzinfo time_obj) eqn:E; eexists; [exact E | reflexivity].
  - destruct (tzinfo d) eqn:E; eexists; [exact E | reflexivity].
  - eexists; reflexivity.
Qed.

(** The shape of every answer: the records of the observable bodies of
    the catalogue, filtered by altitude when asked. *)
Lemma get_visible_planets_shape (kernel : gset string) (clock : Z)
    (latitude longitude elevation : option Q) (time : option time_arg)
    (show_coords above_horizon use_offline_mode : bool) :
  exists t,
    ts_from_datetime (resolve_time time (datetime_now_utc clock)) = inr t /\
    get_visible_planets kernel clock latitude longitude elevation time
      show_coords above_horizon use_offline_mode
    = inr (let all :=
             omap (fun name =>
                     body_record name (query_observer latitude longitude elevation)
                       t show_coords) (PLANETS kernel) in
           if above_horizon then List.filter (fun p => Qltb 0 (altitude p)) all
           else all).
Proof.
  destruct (resolve_time_aware time clock) as [offset Htz].
  unfold get_visible_planets, ts_from_datetime. rewrite Htz.
  eexists. split; [reflexivity|].
  rewrite loop_collects, app_nil_l.
  unfold query_observer, default.
  destruct latitude, longitude, elevation; reflexivity.
Qed.



Lemma body_record_fields (body : string) (obs : observer) (t : skytime)
    (show_coords : bool) (p : planet_data) :
  body_record body obs t show_coords = Some p ->
  PlanetsApi.name p = body /\
  magnitude p = round2 (body_magnitude body obs t) /\
  exists pos, observe body obs t = Some pos /\ altitude p = round2 (alt_degrees pos).
Proof.
  unfold body_record. destruct (observe body obs t) as [pos|]; [|discriminate].
  unfold mbind, option_bind. intros [= <-].
  split; [reflexivity|]. split; [reflexivity|].
  exists pos. split; reflexivity.
Qed.

(** C7. In every list [get_visible_planets] returns, a record named
    "Sun" has magnitude -26.7 and a record named "Moon" has magnitude
    -12.5; and with [above_horizon=False] the Sun and the Moon are in
    the list whenever their position can be computed, whatever their
    altitude. *)
Theorem C7_sun_and_moon_records (kernel : gset string) (clock : Z)
    (latitude longitude elevation : option Q) (time : option time_arg)
    (show_coords above_horizon use_offline_mode : bool) (records : list planet_data) :
  get_visible_planets kernel clock latitude longitude elevation time
    show_coords above_horizon use_offline_mode = inr records ->
  (forall p, In p records -> PlanetsApi.name p = "Sun" -> magnitude p == -26.7) /\
  (forall p, In p records -> PlanetsApi.name p = "Moon" -> magnitude p == -12.5) /\
  (above_horizon = false ->
   forall body t pos,
     In body ["Sun"; "Moon"] ->
     ts_from_datetime (resolve_time time (datetime_now_utc clock)) = inr t ->
     observe body (query_observer latitude longitude elevation) t = Some pos ->
     exists p, In p records /\ PlanetsApi.name p = body /\
               altitude p = round2 (alt_degrees pos)).
Proof.
  intros Hcall.
  destruct (get_visible_planets_shape kernel clock latitude longitude elevation
              time show_coords above_horizon use_offline_mode) as (t & Ht & E).
  rewrite Hcall in E. cbv zeta in E.
  set (obs := query_observer latitude longitude elevation) in *.
  remember (omap (fun body => body_record body obs t show_coords) (PLANETS kernel))
    as all eqn:Hall.
  assert (Hrecords :
            records = if above_horizon
                      then List.filter (fun p => Qltb 0 (altitude p)) all else all)
    by congruence.
  clear E Hcall.
  assert (Hmem : forall p, In p all <->
                   exists body, In body (PLANETS kernel) /\
                                body_record body obs t show_coords = Some p).
  { intros p. rewrite Hall, <- list_elem_of_In, list_elem_of_omap.
    split; intros (body & Hb & Hr); exists body; split; try exact Hr;
      apply list_elem_of_In; exact Hb. }
  assert (Hsub : forall p, In p records ->
                   exists body, body_record body obs t show_coords = Some p).
  { intros p Hp. rewrite Hrecords in Hp.
    assert (Hp' : In p all).
    { destruct above_horizon; [apply filter_In in Hp; tauto | exact Hp]. }
    apply Hmem in Hp'. destruct Hp' as (body & _ & Hbody). exists body. exact Hbody. }
  split; [|split].
  - intros p Hp Hname. destruct (Hsub p Hp) as (body & Hbody).
    apply body_record_fields in Hbody as (Hn & Hm & _).
    rewrite Hm. rewrite Hname in Hn. subst body. vm_compute. reflexivity.
  - intros p Hp Hname. destruct (Hsub p Hp) as (body & Hbody).
    apply body_record_fields in Hbody as (Hn & Hm & _).
    rewrite Hm. rewrite Hname in Hn. subst body. vm_compute. reflexivity.
  - intros -> body t' pos Hbody Ht' Hobs.
    rewrite Ht in Ht'. injection Ht' as <-.
    destruct (body_record body obs t show_coords) as [p|] eqn:Hrec.
    + exists p. rewrite Hrecords.
      apply body_record_fields in Hrec as Hf. destruct Hf as (Hn & _ & pos' & Hobs' & Halt).
      rewrite Hobs in Hobs'. injection Hobs' as <-.
      split; [|split; [exact Hn | exact Halt]].
      apply Hmem. exists body. split; [|exact Hrec].
      unfold PLANETS. apply in_or_app. left.
      destruct Hbody as [<-|[<-|[]]]; simpl; tauto.
    + unfold body_record in Hrec. rewrite Hobs in Hrec. discriminate Hrec.
Qed.

(** The time [get_moon_phase] works with is timezone-aware, so it has
    its instant; from there the answer depends on the three
    observations only. *)
Lemma get_moon_phase_shape (time_obj : option datetime) (clock : Z) :
  exists t,
    ts_from_datetime (aware_time_obj time_obj clock) = inr t /\
    get_moon_phase time_obj clock
    = match sun_longitude t with
      | inl e => inl e
      | inr slon =>
          match moon_longitude t with
          | inl e => inl e
          | inr mlon =>
              match moon_distance_km t with
              | inl e => inl e
              | inr distance =>
                  inr (MoonPhase (strftime_ymd (aware_time_obj time_obj clock))
                         (round1 (phase_percent_of slon mlon))
                         (phase_name_of (phase_percent_of slon mlon))
                         (round_half_even distance)
                         (round4 (2 * math_atan (1737.4 / distance) * 180 / math_pi)))
              end
          end
      end.
Proof.
  unfold get_moon_phase. cbv zeta.
  set (d := aware_time_obj time_obj clock).
  assert (Haware : exists offset, tzinfo d = Some offset).
  { subst d. unfold aware_time_obj. destruct time_obj as [d|]; [|eexists; reflexivity].
    destruct (tzinfo d) eqn:E; eexists; [exact E | reflexivity]. }
  destruct Haware as [offset Htz].
  unfold ts_from_datetime. rewrite Htz.
  eexists. split; reflexivity.
Qed.
End EngineProps.

(** The names the phase percentage selects. *)
Lemma phase_name_of_bands (p : Q) :
  (p < 1 -> phase_name_of p = "New Moon") /\
  (25 <= p < 51 -> phase_name_of p = "First Quarter") /\
  (51 <= p < 75 -> phase_name_of p = "Waxing Gibbous") /\
  (100 <= p -> phase_name_of p = "Last Quarter").
Proof.
  unfold phase_name_of.
  qltb_cases; repeat split; intros; try reflexivity; lra.
Qed.

(** C8, as the code has it. At the instant of its time, whenever the
    three observations succeed, [get_moon_phase] returns, and it names
    the phase from the unrounded percentage [p] of the two longitudes
    observed: "New Moon" when [p] is 0, "First Quarter" when [p] is 50
    and on the whole band from 49 included to 51 excluded, "Waxing
    Gibbous" when [p] is 51, "Last Quarter" when [p] is 100. *)
Theorem C8_moon_phase_names `{SkyLibrary} (time_obj : option datetime) (clock : Z) :
  exists t,
    ts_from_datetime (aware_time_obj time_obj clock) = inr t /\
    forall slon mlon distance,
      sun_longitude t = inr slon ->
      moon_longitude t = inr mlon ->
      moon_distance_km t = inr distance ->
      let p := phase_percent_of slon mlon in
      exists m,
        get_moon_phase time_obj clock = inr m /\
        phase_percent m = round1 p /\
        phase_name m = phase_name_of p /\
        (p == 0 -> phase_name m = "New Moon") /\
        (p == 50 -> phase_name m = "First Quarter") /\
        (49 <= p < 51 -> phase_name m = "First Quarter") /\
        (p == 51 -> phase_name m = "Waxing Gibbous") /\
        (p == 100 -> phase_name m = "Last Quarter").
Proof.
  destruct (get_moon_phase_shape time_obj clock) as (t & Ht & Hcall).
  exists t. split; [exact Ht|].
  intros slon mlon distance Hs Hm Hd p.
  rewrite Hs, Hm, Hd in Hcall. fold p in Hcall.
  eexists. split; [exact Hcall|]. cbn [phase_percent phase_name].
  split; [reflexivity|]. split; [reflexivity|].
  destruct (phase_name_of_bands p) as (Hnew & Hfirst & Hgibbous & Hlast).
  split; [|split; [|split; [|split]]]; intros Hp;
    [apply Hnew | apply Hfirst | apply Hfirst | apply Hgibbous | apply Hlast]; lra.
Qed.

Lemma C8_moon_phase_names_witness :
  exists m,
    @get_moon_phase (demo_library 10) None demo_clock = inr m /\
    phase_percent_of 280 10 == 50 /\
    phase_name m = "First Quarter".
Proof.
  destruct (@C8_moon_phase_names (demo_library 10) None demo_clock) as (t & _ & Hphase).
  destruct (Hphase 280 10 384400 eq_refl eq_refl eq_refl)
    as (m & Hcall & _ & _ & _ & Hhalf & _).
  exists m. split; [exact Hcall|].
  assert (Hp : phase_percent_of 280 10 == 50) by (vm_compute; reflexivity).
  split; [exact Hp|]. apply Hhalf. exact Hp.
Defined.

(** C8, as stated, fails at the upper end of the band: at 51 percent the
    answer is "Waxing Gibbous", so the First Quarter band is not closed
    at 51. *)
Lemma C8_phase_51_is_waxing_gibbous :
  (exists m,
     @get_moon_phase (demo_library 11.8) None demo_clock = inr m /\
     phase_percent_of 280 11.8 == 51 /\
     phase_percent m == 51 /\
     phase_name m = "Waxing Gibbous") /\
  phase_name_of 51 = "Waxing Gibbous" /\
  ~ first_quarter_band_closed.
Proof.
  split; [|split].
  - eexists. split; [vm_compute; reflexivity|].
    split; [vm_compute; reflexivity|]. split; [vm_compute; reflexivity|]. reflexivity.
  - vm_compute; reflexivity.
  - intros Hclosed. specialize (Hclosed 51).
    assert (Hname : phase_name_of 51 = "Waxing Gibbous") by (vm_compute; reflexivity).
    rewrite Hname in Hclosed.
    assert (Hin : 49 <= 51 <= 51) by (split; unfold Qle; simpl; lia).
    specialize (Hclosed Hin). discriminate Hclosed.
Qed.



Lemma C7_sun_and_moon_records_witness :
  exists records,
    @get_visible_planets (demo_library 10) ∅ demo_clock None None None None
       false false false = inr records /\
    exists p, In p records /\ PlanetsApi.name p = "Sun" /\
              altitude p == -30 /\ magnitude p == -26.7.
Proof.
  destruct (@get_visible_planets_shape (demo_library 10) ∅ demo_clock None None None None
              false false false) as (t & _ & Hcall).
  eexists. split; [exact Hcall|].
  destruct (@C7_sun_and_moon_records (demo_library 10) ∅ demo_clock None None None None
              false false false _ Hcall) as (Hsun & _ & Hpresent).
  destruct (Hpresent eq_refl "Sun" (SkyTime demo_clock) (Position (-30) 270 18.75 (-23)))
    as (p & Hin & Hname & Halt).
  - simpl. tauto.
  - reflexivity.
  - reflexivity.
  - exists p. split; [exact Hin|]. split; [exact Hname|]. split.
    + rewrite Halt. vm_compute. reflexivity.
    + apply Hsun; assumption.
Defined.

(** C7, as stated, fails in its second half: at an instant the
    ephemeris does not cover every observation raises, each body is
    skipped with a warning, and the unfiltered list comes back empty,
    without the Sun and without the Moon; at an instant it covers the
    same call lists both. *)
Lemma C7_sun_and_moon_absent_outside_ephemeris :
  @get_visible_planets bounded_library ∅ demo_clock None None None
     (Some (TimeObj year_2100)) false false false = inr [] /\
  (forall records,
     @get_visible_planets bounded_library ∅ demo_clock None None None
        (Some (TimeObj year_2100)) false false false = inr records ->
     ~ exists p, In p records /\ (PlanetsApi.name p = "Sun" \/ PlanetsApi.name p = "Moon")) /\
  (exists records,
     @get_visible_planets bounded_library ∅ demo_clock None None None
        None false false false = inr records /\
     PlanetsApi.name <$> records = ["Sun"; "Venus"; "Moon"]).
Proof.
  assert (Hempty : @get_visible_planets bounded_library ∅ demo_clock None None None
                     (Some (TimeObj year_2100)) false false false = inr [])
    by (vm_compute; reflexivity).
  split; [exact Hempty|]. split.
  - intros records Hcall. rewrite Hempty in Hcall. injection Hcall as <-.
    intros (p & [] & _).
  - eexists. split; [vm_compute; reflexivity|]. reflexivity.
Qed.

End PlanetsApiProps.

(** ** The result cache *)

Module CacheProps.
Import PyNum PyNumFacts Cache.

Lemma planets_api_has_hashlib : global_name planets_api "hashlib" = inr tt.
Proof. vm_compute. reflexivity. Qed.

Lemma planets_api_has_time : global_name planets_api "time" = inr tt.
Proof. vm_compute. reflexivity. Qed.

Lemma astronomy_utils_lacks_hashlib :
  global_name astronomy_utils "hashlib" = inl (NameError "hashlib").
Proof. vm_compute. reflexivity. Qed.

Lemma astronomy_utils_lacks_time :
  global_name astronomy_utils "time" = inl (NameError "time").
Proof. vm_compute. reflexivity. Qed.

Section WrapperProps.
Variable Args : Type.
Variable args_text : Args -> string.
Variable md5_hexdigest : string -> string.

Abbreviation wrapper := (wrapper Args args_text md5_hexdigest).
Abbreviation key_of func_name args := (func_name +:+ "_" +:+ md5_hexdigest (args_text args)).

Lemma planets_api_key (func_name : string) (args : Args) :
  _generate_cache_key Args args_text md5_hexdigest planets_api func_name args
  = inr (key_of func_name args).
Proof. unfold _generate_cache_key. rewrite planets_api_has_hashlib. reflexivity. Qed.

(** In [planets_api] a wrapped call either returns the payload of a
    fresh entry, leaving the world alone, or runs the computation once
    and ends as the computation does: no failure of reading or writing
    the cache reaches the caller, whatever the files and permissions
    are. *)
Lemma planets_api_failures_bypassed (func_name : string) (func : computation Args)
    (args : Args) (w : world) :
  let path := cache_path_of planets_api (key_of func_name args) in
  let '(out, w') := wrapper planets_api func_name func args w in
  match cached_payload planets_api w path with
  | Some v => out = inr v /\ w' = w
  | None => out = (func args (now w)).1 /\ calls w' = S (calls w)
  end.
Proof.
  intros path. unfold Cache.wrapper.
  change (negb (CACHE_ENABLED planets_api)) with false. cbv iota.
  rewrite planets_api_key. fold path.
  destruct (cached_payload planets_api w path) as [v|]; [split; reflexivity|].
  unfold run. destruct (func args (now w)) as [[e|result] elapsed]; cbn [fst].
  - split; reflexivity.
  - split; [reflexivity|].
    unfold write_entry, time_time. rewrite planets_api_has_time.
    destruct (bool_decide _); [reflexivity|].
    destruct (json_roundtrip _); reflexivity.
Qed.

(** C5, at the failing input. In [astronomy_utils] nothing binds the
    name [hashlib], so the key generation of every wrapped call raises
    [NameError], outside of any [try]: the exception reaches the
    caller and the wrapped computation does not run. *)
Theorem C5_astronomy_utils_key_generation_raises (func_name : string)
    (func : computation Args) (args : Args) (w : world) :
  wrapper astronomy_utils func_name func args w = (inl (NameError "hashlib"), w).
Proof.
  unfold Cache.wrapper.
  change (negb (CACHE_ENABLED astronomy_utils)) with false. cbv iota.
  unfold _generate_cache_key. rewrite astronomy_utils_lacks_hashlib. reflexivity.
Qed.

(** In [astronomy_utils] the name [time] is unbound as well: were a key
    ever made, the write would stop at [time.time()], after the file has
    been truncated, and no entry would ever be stored. *)
Lemma astronomy_utils_never_stores (w : world) (path : string) (result : pyval) :
  path ∉ unwritable w ->
  write_entry astronomy_utils w path result = set_file path Garbled w.
Proof.
  intros Hw. unfold write_entry, time_time.
  rewrite bool_decide_eq_false_2 by exact Hw.
  rewrite astronomy_utils_lacks_time. reflexivity.
Qed.

(** What a successful write leaves behind, and what the next lookup
    makes of it. *)
Lemma write_entry_ok (w : world) (path : string) (result : pyval) :
  path ∉ unwritable w ->
  json_roundtrip result = Some result ->
  write_entry planets_api w path result
  = set_file path (Document (PDict [("result", result); ("_cache_time", PFloat (now w))])) w.
Proof.
  intros Hw Hjson. unfold write_entry, time_time.
  rewrite planets_api_has_time.
  rewrite bool_decide_eq_false_2 by exact Hw.
  cbn [json_roundtrip]. rewrite Hjson. reflexivity.
Qed.

Lemma cached_payload_fresh (w : world) (path : string) (result : pyval) (written t2 : Q) :
  path ∉ unreadable w ->
  files w !! path
    = Some (Document (PDict [("result", result); ("_cache_time", PFloat written)])) ->
  t2 - written <= CACHE_DURATION planets_api ->
  cached_payload planets_api (set_now t2 w) path = Some result.
Proof.
  intros Hr Hfile Hfresh. unfold cached_payload, os_path_exists, read_entry, time_time.
  cbn [files unreadable now set_now].
  rewrite Hfile. rewrite bool_decide_eq_true_2 by (eexists; reflexivity).
  rewrite bool_decide_eq_false_2 by exact Hr.
  rewrite planets_api_has_time.
  cbn [py_get String.eqb Ascii.eqb Bool.eqb float_sub].
  apply Qle_bool_iff in Hfresh. rewrite Hfresh. reflexivity.
Qed.

(** A call that misses runs the computation and, when the result can
    be stored, leaves an entry stamped with the time after the run. *)
Lemma first_call_stores (func_name : string) (func : computation Args)
    (args : Args) (w : world) (result : pyval) (elapsed : Q) :
  let path := cache_path_of planets_api (key_of func_name args) in
  cached_payload planets_api w path = None ->
  func args (now w) = (inr result, elapsed) ->
  json_roundtrip result = Some result ->
  path ∉ unwritable w ->
  exists w1,
    wrapper planets_api func_name func args w = (inr result, w1) /\
    calls w1 = S (calls w) /\
    unreadable w1 = unreadable w /\
    files w1 !! path
      = Some (Document (PDict [("result", result);
                               ("_cache_time", PFloat (now w + elapsed))])).
Proof.
  intros path Hmiss Hfunc Hjson Hw.
  unfold Cache.wrapper.
  change (negb (CACHE_ENABLED planets_api)) with false. cbv iota.
  rewrite planets_api_key. fold path. rewrite Hmiss.
  unfold run. rewrite Hfunc.
  rewrite write_entry_ok by assumption.
  eexists. split; [reflexivity|]. split; [reflexivity|]. split; [reflexivity|].
  unfold set_file. cbn [files now]. apply lookup_insert_eq.
Qed.

(** A call that finds a fresh entry returns its payload and changes
    nothing. *)
Lemma call_hits (func_name : string) (func : computation Args)
    (args : Args) (w : world) (v : pyval) :
  cached_payload planets_api w (cache_path_of planets_api (key_of func_name args)) = Some v ->
  wrapper planets_api func_name func args w = (inr v, w).
Proof.
  intros Hhit. unfold Cache.wrapper.
  change (negb (CACHE_ENABLED planets_api)) with false. cbv iota.
  rewrite planets_api_key, Hhit. reflexivity.
Qed.

(** C1, as the code has it. In [planets_api], when the first call finds
    no fresh entry for its arguments, the computation returns a value
    that survives the JSON round trip unchanged, and the cache file can
    be written and read, a second call with the same arguments at most
    300 seconds after the first runs nothing: the computation has run
    exactly once over the two calls and both return the same value. *)
Theorem C1_cache_round_trip (func_name : string) (func : computation Args)
    (args : Args) (w : world) (result : pyval) (elapsed t2 : Q) :
  let path := cache_path_of planets_api (key_of func_name args) in
  cached_payload planets_api w path = None ->
  func args (now w) = (inr result, elapsed) ->
  0 <= elapsed ->
  json_roundtrip result = Some result ->
  path ∉ unwritable w ->
  path ∉ unreadable w ->
  t2 - now w <= CACHE_DURATION planets_api ->
  exists w1 w2,
    wrapper planets_api func_name func args w = (inr result, w1) /\
    wrapper planets_api func_name func args (set_now t2 w1) = (inr result, w2) /\
    calls w1 = S (calls w) /\
    calls w2 = S (calls w) /\
    round_trip Args args_text md5_hexdigest planets_api func_name func args w t2.
Proof.
  intros path Hmiss Hfunc Helapsed Hjson Hw Hr Httl.
  destruct (first_call_stores func_name func args w result elapsed
              Hmiss Hfunc Hjson Hw) as (w1 & Hfirst & Hcalls & Hperm & Hfile).
  fold path in Hfile.
  assert (Hhit : cached_payload planets_api (set_now t2 w1) path = Some result).
  { apply (cached_payload_fresh w1 path result (now w + elapsed) t2).
    - rewrite Hperm. exact Hr.
    - exact Hfile.
    - change (CACHE_DURATION planets_api) with 300 in *. lra. }
  pose proof (call_hits func_name func args (set_now t2 w1) result Hhit) as Hsecond.
  exists w1, (set_now t2 w1).
  split; [exact Hfirst|]. split; [exact Hsecond|].
  split; [exact Hcalls|]. split; [exact Hcalls|].
  exists result, w1, (set_now t2 w1).
  split; [exact Hfirst|]. split; [exact Hsecond | exact Hcalls].
Qed.

Lemma round_trip_two_calls (m : py_module) (func_name : string)
    (func : computation Args) (args : Args) (w : world) (t2 : Q) :
  round_trip Args args_text md5_hexdigest m func_name func args w t2 ->
  exists r, two_calls Args args_text md5_hexdigest m func_name func args w t2
            = (inr r, inr r, 1%nat).
Proof.
  intros (r & w1 & w2 & H1 & H2 & Hcalls). exists r.
  unfold two_calls. rewrite H1, H2, Hcalls.
  replace (S (calls w) - calls w)%nat with 1%nat by lia. reflexivity.
Qed.
End WrapperProps.

Lemma C1_cache_round_trip_witness :
  let path := ".cache/get_visible_planets_()[].json" in
  cached_payload planets_api empty_world path = None /\
  returns_list "()[]" (now empty_world) = (inr demo_list, 2) /\
  json_roundtrip demo_list = Some demo_list /\
  1200 - now empty_world <= CACHE_DURATION planets_api /\
  round_trip string id demo_digest planets_api "get_visible_planets" returns_list
    "()[]" empty_world 1200.
Proof.
  intros path.
  assert (Hmiss : cached_payload planets_api empty_world path = None)
    by (vm_compute; reflexivity).
  assert (Httl : 1200 - now empty_world <= CACHE_DURATION planets_api)
    by (unfold Qle; simpl; lia).
  split; [exact Hmiss|]. split; [reflexivity|]. split; [reflexivity|].
  split; [exact Httl|].
  destruct (C1_cache_round_trip string id demo_digest "get_visible_planets" returns_list
              "()[]" empty_world demo_list 2 1200)
    as (w1 & w2 & _ & _ & _ & _ & Hround).
  - exact Hmiss.
  - reflexivity.
  - unfold Qle; simpl; lia.
  - reflexivity.
  - apply not_elem_of_empty.
  - apply not_elem_of_empty.
  - exact Httl.
  - exact Hround.
Defined.

(** C1, as stated, fails. With an entry for the arguments already in the
    cache and still fresh, two calls 100 seconds apart run the
    computation zero times, not once; with a computation that raises,
    nothing is stored and the two calls run it twice and return nothing;
    with a computation that returns a tuple, the first call returns the
    tuple and the second the list JSON made of it. *)
Lemma C1_round_trip_fails :
  1100 - now warm_world <= CACHE_DURATION planets_api /\
  two_calls string id demo_digest planets_api "get_visible_planets" returns_list
    "()[]" warm_world 1100
  = (inr demo_list, inr demo_list, 0%nat) /\
  ~ round_trip string id demo_digest planets_api "get_visible_planets" returns_list
      "()[]" warm_world 1100 /\
  two_calls string id demo_digest planets_api "get_visible_planets" always_raises
    "()[]" empty_world 1100
  = (inl (Failure "Error getting planet data"),
     inl (Failure "Error getting planet data"), 2%nat) /\
  ~ round_trip string id demo_digest planets_api "get_visible_planets" always_raises
      "()[]" empty_world 1100 /\
  two_calls string id demo_digest planets_api "get_visible_planets" returns_tuple
    "()[]" empty_world 1100
  = (inr (PTuple [PInt 1; PInt 2]), inr (PList [PInt 1; PInt 2]), 1%nat) /\
  ~ round_trip string id demo_digest planets_api "get_visible_planets" returns_tuple
      "()[]" empty_world 1100.
Proof.
  assert (Hwarm : two_calls string id demo_digest planets_api "get_visible_planets"
                    returns_list "()[]" warm_world 1100
                  = (inr demo_list, inr demo_list, 0%nat)) by (vm_compute; reflexivity).
  assert (Hraise : two_calls string id demo_digest planets_api "get_visible_planets"
                     always_raises "()[]" empty_world 1100
                   = (inl (Failure "Error getting planet data"),
                      inl (Failure "Error getting planet data"), 2%nat))
    by (vm_compute; reflexivity).
  assert (Htuple : two_calls string id demo_digest planets_api "get_visible_planets"
                     returns_tuple "()[]" empty_world 1100
                   = (inr (PTuple [PInt 1; PInt 2]), inr (PList [PInt 1; PInt 2]), 1%nat))
    by (vm_compute; reflexivity).
  split; [unfold Qle; simpl; lia|].
  split; [exact Hwarm|]. split.
  { intros Hround. apply round_trip_two_calls in Hround as [r Hr].
    rewrite Hwarm in Hr. discriminate Hr. }
  split; [exact Hraise|]. split.
  { intros Hround. apply round_trip_two_calls in Hround as [r Hr].
    rewrite Hraise in Hr. discriminate Hr. }
  split; [exact Htuple|].
  intros Hround. apply round_trip_two_calls in Hround as [r Hr].
  rewrite Htuple in Hr. congruence.
Qed.

(** C5, in the other module. The same decorator in [planets_api], where
    [hashlib] and [time] are imported, keeps its promise on the demo
    computation even when the cache file can be neither read nor
    written. *)
Lemma planets_api_survives_locked_cache :
  let locked := World 1000 ∅ {[ ".cache/get_visible_planets_()[].json" ]}
                  {[ ".cache/get_visible_planets_()[].json" ]} 0 in
  two_calls string id demo_digest planets_api "get_visible_planets" returns_list
    "()[]" locked 1100
  = (inr demo_list, inr demo_list, 2%nat).
Proof. vm_compute. reflexivity. Qed.

End CacheProps.

(** ** The decorated [get_visible_planets] and its cache *)

Module DecoratedProps.
Import PyNum PyNumFacts Cache PlanetsApi Decorated.

Lemma json_roundtrip_list (l : list pyval) :
  Forall (fun x => json_roundtrip x = Some x) l ->
  json_roundtrip (PList l) = Some (PList l).
Proof.
  intros Hall.
  assert (Hgo : (fix go (l : list pyval) : option (list pyval) :=
                   match l with
                   | [] => Some []
                   | x :: l' => x' ← json_roundtrip x; l'' ← go l'; Some (x' :: l'')
                   end) l = Some l).
  { induction Hall as [|x l Hx _ IH]; [reflexivity|].
    rewrite Hx. unfold mbind at 1, option_bind at 1. rewrite IH. reflexivity. }
  cbn [json_roundtrip]. rewrite Hgo. reflexivity.
Qed.

(** A record without celestial coordinates is a dict of strings and
    numbers: JSON gives it back as it was. A record with them holds the
    two [negative] flags, which [json.dump] refuses. *)
Lemma to_py_stable (p : planet_data) :
  rightAscension p = None -> declination p = None ->
  json_roundtrip (to_py p) = Some (to_py p).
Proof. destruct p as [n a z m c ra dec]. simpl. intros -> ->. reflexivity. Qed.

Lemma to_py_with_coordinates (p : planet_data) (ra : ra_dict) :
  rightAscension p = Some ra -> json_roundtrip (to_py p) = None.
Proof. destruct p as [n a z m c ra' [dec|]]; simpl; intros ->; reflexivity. Qed.

Section DecoratedCallProps.
Context `{SkyLibrary}.
Variable Args : Type.
Variable bind : Args -> call_args.
Variable args_text : Args -> string.
Variable md5_hexdigest : string -> string.
Variable duration : Args -> Q.

Lemma body_record_coordinates (name : string) (obs : observer) (t : skytime)
    (show_coords : bool) (p : planet_data) :
  body_record name obs t show_coords = Some p ->
  if show_coords then is_Some (rightAscension p)
  else rightAscension p = None /\ declination p = None.
Proof.
  unfold body_record. destruct (observe name obs t) as [pos|]; [|discriminate].
  unfold mbind, option_bind. destruct show_coords.
  - destruct (_format_ra_dec (ra_hours pos) (dec_degrees pos)) as [ra dec].
    intros [= <-]. eexists; reflexivity.
  - intros [= <-]. split; reflexivity.
Qed.

(** The records of an answer are records of the loop. *)
Lemma answer_records (kernel : gset string) (clock : Z) (a : call_args)
    (planets_data : list planet_data) (p : planet_data) :
  get_visible_planets kernel clock (arg_latitude a) (arg_longitude a) (arg_elevation a)
    (arg_time a) (arg_show_coords a) (arg_above_horizon a) (arg_use_offline_mode a)
  = inr planets_data ->
  p ∈ planets_data ->
  exists name obs t, body_record name obs t (arg_show_coords a) = Some p.
Proof.
  intros Hcall Hp.
  destruct (PlanetsApiProps.get_visible_planets_shape kernel clock
              (arg_latitude a) (arg_longitude a) (arg_elevation a) (arg_time a)
              (arg_show_coords a) (arg_above_horizon a) (arg_use_offline_mode a))
    as (t & _ & E).
  rewrite Hcall in E. cbv zeta in E.
  set (obs := query_observer (arg_latitude a) (arg_longitude a) (arg_elevation a)) in *.
  remember (omap (fun name => body_record name obs t (arg_show_coords a)) (PLANETS kernel))
    as all eqn:Hall.
  assert (Hrecords :
            planets_data = if arg_above_horizon a
                           then List.filter (fun p => Qltb 0 (altitude p)) all else all)
    by congruence.
  clear E Hcall.
  assert (Hin : p ∈ all).
  { rewrite Hrecords in Hp. destruct (arg_above_horizon a); [|exact Hp].
    apply list_elem_of_In in Hp. apply filter_In in Hp as [Hp _].
    apply list_elem_of_In. exact Hp. }
  rewrite Hall in Hin. apply list_elem_of_omap in Hin as (name & _ & Hrec).
  eexists _, _, _. exact Hrec.
Qed.

(** The body never raises; without celestial coordinates what it
    returns can be stored. *)
Lemma body_returns (kernel : gset string) (args : Args) (t : Q) :
  exists result,
    body Args bind duration kernel args t = (inr result, duration args) /\
    (arg_show_coords (bind args) = false -> json_roundtrip result = Some result).
Proof.
  unfold body.
  destruct (PlanetsApiProps.get_visible_planets_shape kernel (Qfloor t)
              (arg_latitude (bind args)) (arg_longitude (bind args))
              (arg_elevation (bind args)) (arg_time (bind args))
              (arg_show_coords (bind args)) (arg_above_horizon (bind args))
              (arg_use_offline_mode (bind args))) as (t' & _ & E).
  pose proof (answer_records kernel (Qfloor t) (bind args)) as Hrecords.
  rewrite E in Hrecords |- *. eexists. split; [reflexivity|].
  intros Hshow.
  apply json_roundtrip_list, Forall_fmap, Forall_forall.
  intros p Hp. destruct (Hrecords _ p eq_refl Hp) as (name & obs & t0 & Hrec).
  apply body_record_coordinates in Hrec. rewrite Hshow in Hrec.
  destruct Hrec as [Hra Hdec]. apply to_py_stable; assumption.
Qed.

(** With celestial coordinates an answer that lists a body cannot be
    stored: the call is answered, the cache file is left unusable, and
    the next call computes again. *)
Lemma body_with_coordinates_is_not_stored (kernel : gset string) (args : Args) (t : Q)
    (first : pyval) (rest : list pyval) :
  arg_show_coords (bind args) = true ->
  body Args bind duration kernel args t = (inr (PList (first :: rest)), duration args) ->
  json_roundtrip (PList (first :: rest)) = None.
Proof.
  unfold body. intros Hshow Hbody.
  destruct (get_visible_planets kernel (Qfloor t) (arg_latitude (bind args))
              (arg_longitude (bind args)) (arg_elevation (bind args))
              (arg_time (bind args)) (arg_show_coords (bind args))
              (arg_above_horizon (bind args)) (arg_use_offline_mode (bind args)))
    as [[msg|msg]|planets_data] eqn:Ecall; try discriminate Hbody.
  injection Hbody as Hlist.
  destruct planets_data as [|p planets_data]; [discriminate Hlist|].
  injection Hlist as <- _.
  destruct (answer_records kernel (Qfloor t) (bind args) _ p Ecall) as (name & obs & t0 & Hrec);
    [left|].
  apply body_record_coordinates in Hrec. rewrite Hshow in Hrec.
  destruct Hrec as [ra Hra].
  cbn [json_roundtrip]. rewrite (to_py_with_coordinates p ra Hra). reflexivity.
Qed.

(** For the one function the repository decorates, called without
    celestial coordinates, the conditions on the computation hold by
    themselves: from a cold or stale cache that can be written and
    read, two calls at most 300 seconds apart compute once and return
    the same list. *)
Lemma cached_get_visible_planets_round_trip (kernel : gset string) (args : Args)
    (w : world) (t2 : Q) :
  let path := cache_path_of planets_api
                ("get_visible_planets" +:+ "_" +:+ md5_hexdigest (args_text args)) in
  arg_show_coords (bind args) = false ->
  cached_payload planets_api w path = None ->
  0 <= duration args ->
  path ∉ unwritable w ->
  path ∉ unreadable w ->
  t2 - now w <= CACHE_DURATION planets_api ->
  exists result w1 w2,
    cached_get_visible_planets Args bind args_text md5_hexdigest duration kernel args w
      = (inr result, w1) /\
    cached_get_visible_planets Args bind args_text md5_hexdigest duration kernel args
      (set_now t2 w1) = (inr result, w2) /\
    calls w2 = S (calls w).
Proof.
  intros path Hshow Hmiss Hdur Hw Hr Httl.
  destruct (body_returns kernel args (now w)) as (result & Hbody & Hjson).
  specialize (Hjson Hshow).
  destruct (CacheProps.first_call_stores Args args_text md5_hexdigest
              "get_visible_planets" (body Args bind duration kernel) args w result
              (duration args) Hmiss Hbody Hjson Hw)
    as (w1 & Hfirst & Hcalls & Hperm & Hfile).
  fold path in Hfile.
  assert (Hhit : cached_payload planets_api (set_now t2 w1) path = Some result).
  { apply (CacheProps.cached_payload_fresh w1 path result (now w + duration args) t2).
    - rewrite Hperm. exact Hr.
    - exact Hfile.
    - change (CACHE_DURATION planets_api) with 300 in *. lra. }
  exists result, w1, (set_now t2 w1).
  split; [exact Hfirst|]. split; [|exact Hcalls].
  apply CacheProps.call_hits. exact Hhit.
Qed.
End DecoratedCallProps.

End DecoratedProps.

(** ** More facts about the numeric helpers *)

Module PyNumMore.
Import PyNum PyNumFacts.

Lemma Qfloor_unique (x : Q) (k : Z) :
  inject_Z k <= x -> x < inject_Z (k + 1) -> Qfloor x = k.
Proof.
  intros Hlo Hhi.
  assert (H1 : (k <= Qfloor x)%Z).
  { rewrite <- (Qfloor_Z k). apply Qfloor_resp_le. exact Hlo. }
  assert (H2 : (Qfloor x < k + 1)%Z).
  { rewrite Zlt_Qlt. eapply Qle_lt_trans; [apply Qfloor_le | exact Hhi]. }
  lia.
Qed.

(** The remainder is the one value of [0, b) that differs from [a] by a
    whole number of [b]. *)
Lemma py_mod_unique (a b r : Q) (k : Z) :
  0 < b -> a == r + b * inject_Z k -> 0 <= r < b -> py_mod a b == r.
Proof.
  intros Hb Ha [Hr0 Hr1]. unfold py_mod.
  assert (Hq : a / b == r / b + inject_Z k) by (rewrite Ha; field; lra).
  assert (Hf : Qfloor (a / b) = k).
  { apply Qfloor_unique; rewrite Hq.
    - assert (0 <= r / b) by (apply Qle_shift_div_l; lra). lra.
    - rewrite inject_Z_plus. change (inject_Z 1) with 1.
      assert (r / b < 1) by (apply Qlt_shift_div_r; lra). lra. }
  rewrite Hf, Ha. ring.
Qed.

Lemma py_mod_period (a b : Q) (k : Z) :
  0 < b -> py_mod (a + b * inject_Z k) b == py_mod a b.
Proof.
  intros Hb.
  apply (py_mod_unique _ b _ (Qfloor (a / b) + k)); [exact Hb | | apply py_mod_range, Hb].
  unfold py_mod. rewrite inject_Z_plus. ring.
Qed.

(** Rounding to the nearest integer moves a number by at most a half,
    upwards no further than the next integer. *)
Lemma round_half_even_near (x : Q) :
  Qabs (inject_Z (round_half_even x) - x) <= 1 # 2.
Proof.
  unfold round_half_even.
  pose proof (Qfloor_le x) as Hlo. pose proof (Qlt_floor x) as Hhi.
  rewrite inject_Z_plus in Hhi. change (inject_Z 1) with 1 in Hhi.
  apply Qabs_Qle_condition.
  destruct (Qcompare_spec (x - inject_Z (Qfloor x)) (1 # 2)) as [E|E|E].
  - destruct (Z.even (Qfloor x)); [|rewrite inject_Z_plus; change (inject_Z 1) with 1];
      split; lra.
  - split; lra.
  - rewrite inject_Z_plus. change (inject_Z 1) with 1. split; lra.
Qed.

Lemma round_half_even_between (x : Q) :
  (Qfloor x <= round_half_even x <= Qfloor x + 1)%Z.
Proof.
  unfold round_half_even.
  destruct (Qcompare (x - inject_Z (Qfloor x)) (1 # 2)); [destruct (Z.even (Qfloor x))| |]; lia.
Qed.

Lemma round_half_even_whole (x : Q) (n : Z) : x == inject_Z n -> round_half_even x = n.
Proof.
  intros Hx. unfold round_half_even.
  assert (Hf : Qfloor x = n) by (rewrite Hx; apply Qfloor_Z).
  rewrite Hf.
  destruct (Qcompare_spec (x - inject_Z n) (1 # 2)) as [E|E|E]; [lra | reflexivity | lra].
Qed.

Lemma round2_near (x : Q) : Qabs (round2 x - x) <= 1 # 200.
Proof.
  unfold round2. rewrite Qred_correct.
  pose proof (round_half_even_near (x * 100)) as Hn.
  apply Qabs_Qle_condition in Hn. apply Qabs_Qle_condition.
  set (n := inject_Z (round_half_even (x * 100))) in *.
  assert (Hd : n / 100 == n * (1 # 100)) by (field; lra).
  rewrite Hd. split; lra.
Qed.

(** A value already rounded to hundredths is left alone. *)
Lemma round2_idempotent (x : Q) : round2 (round2 x) = round2 x.
Proof.
  unfold round2 at 1.
  assert (Hw : round_half_even (round2 x * 100) = round_half_even (x * 100)).
  { apply round_half_even_whole. unfold round2. rewrite Qred_correct. field. }
  rewrite Hw. reflexivity.
Qed.

End PyNumMore.

(** ** planets_api.py: more about the body list *)

Module PlanetsApiExtra.
Import PyNum PyNumFacts PyNumMore PlanetsApi PlanetsApiMore.

Lemma PLANETS_NoDup (kernel : gset string) : NoDup (PLANETS kernel).
Proof.
  unfold PLANETS.
  destruct (group_ok kernel ["pluto barycenter"]),
           (group_ok kernel ["io"; "europa"; "ganymede"; "callisto"]),
           (group_ok kernel ["titan"; "enceladus"; "mimas"; "dione"; "rhea"; "iapetus"]),
           (group_ok kernel ["miranda"; "ariel"; "umbriel"; "titania"; "oberon"]),
           (group_ok kernel ["triton"; "nereid"]);
    apply (bool_decide_unpack _); vm_compute; exact I.
Qed.

Lemma names_of_omap {A} (f : string -> option A) (label : A -> string) (l : list string) :
  (forall x y, f x = Some y -> label y = x) ->
  (label <$> omap f l) `sublist_of` l.
Proof.
  intros Hlabel. induction l as [|x l IH]; simpl; [constructor|].
  destruct (f x) as [y|] eqn:E; simpl.
  - rewrite (Hlabel x y E). constructor. exact IH.
  - constructor. exact IH.
Qed.

Lemma names_of_filter {A} (keep : A -> bool) (label : A -> string) (l : list A) :
  (label <$> List.filter keep l) `sublist_of` (label <$> l).
Proof.
  induction l as [|x l IH]; simpl; [constructor|].
  destruct (keep x); simpl; constructor; exact IH.
Qed.

Section BodyList.
Context `{SkyLibrary}.

Lemma body_record_position (body : string) (obs : observer) (t : skytime)
    (show_coords : bool) (p : planet_data) :
  body_record body obs t show_coords = Some p ->
  exists pos,
    observe body obs t = Some pos /\
    altitude p = round2 (alt_degrees pos) /\
    azimuth p = round2 (az_degrees pos) /\
    magnitude p = round2 (body_magnitude body obs t) /\
    (rightAscension p = None <-> show_coords = false) /\
    (declination p = None <-> show_coords = false).
Proof.
  unfold body_record. destruct (observe body obs t) as [pos|]; [|discriminate].
  unfold mbind, option_bind. intros [= <-]. exists pos.
  split; [reflexivity|]. split; [reflexivity|]. split; [reflexivity|].
  split; [reflexivity|]. cbn [rightAscension declination].
  destruct show_coords;
    [destruct (_format_ra_dec (ra_hours pos) (dec_degrees pos))|]; cbn [fst snd];
    split; split; congruence.
Qed.


(** Every answer lists each body at most once and in the order of the
    catalogue: its names are a sub-list of [PLANETS]. *)
Theorem records_follow_the_catalogue (kernel : gset string) (clock : Z)
    (latitude longitude elevation : option Q) (time : option time_arg)
    (show_coords above_horizon use_offline_mode : bool) :
  exists records,
    get_visible_planets kernel clock latitude longitude elevation time
      show_coords above_horizon use_offline_mode = inr records /\
    (PlanetsApi.name <$> records) `sublist_of` PLANETS kernel /\
    NoDup (PlanetsApi.name <$> records) /\
    (length records <= 27)%nat.
Proof.
  destruct (PlanetsApiProps.get_visible_planets_shape kernel clock latitude longitude
              elevation time show_coords above_horizon use_offline_mode) as (t & _ & E).
  cbv zeta in E. eexists. split; [exact E|].
  set (obs := query_observer latitude longitude elevation).
  set (f := fun body => body_record body obs t show_coords).
  assert (Hall : (PlanetsApi.name <$> omap f (PLANETS kernel)) `sublist_of` PLANETS kernel).
  { apply names_of_omap. intros x y Hxy.
    apply PlanetsApiProps.body_record_fields in Hxy. tauto. }
  assert (Hsub : (PlanetsApi.name <$>
                    (if above_horizon
                     then List.filter (fun p => Qltb 0 (altitude p)) (omap f (PLANETS kernel))
                     else omap f (PLANETS kernel))) `sublist_of` PLANETS kernel).
  { destruct above_horizon; [|exact Hall].
    etransitivity; [apply names_of_filter | exact Hall]. }
  split; [exact Hsub|]. split.
  - eapply sublist_NoDup; [apply PLANETS_NoDup | exact Hsub].
  - apply sublist_length in Hsub. rewrite length_fmap in Hsub.
    etransitivity; [exact Hsub|].
    unfold PLANETS. rewrite !length_app.
    destruct (group_ok kernel ["pluto barycenter"]),
             (group_ok kernel ["io"; "europa"; "ganymede"; "callisto"]),
             (group_ok kernel ["titan"; "enceladus"; "mimas"; "dione"; "rhea"; "iapetus"]),
             (group_ok kernel ["miranda"; "ariel"; "umbriel"; "titania"; "oberon"]),
             (group_ok kernel ["triton"; "nereid"]); simpl; lia.
Qed.

(** Every record carries the position of its own body rounded to
    hundredths: altitude and azimuth are within 0.005 of the computed
    ones, all three numbers are whole hundredths (rounding them again
    changes nothing), and the coordinate dicts are there exactly when
    [show_coords] asks for them. *)
Theorem records_are_rounded_positions (kernel : gset string) (clock : Z)
    (latitude longitude elevation : option Q) (time : option time_arg)
    (show_coords above_horizon use_offline_mode : bool) :
  exists records t,
    get_visible_planets kernel clock latitude longitude elevation time
      show_coords above_horizon use_offline_mode = inr records /\
    forall p, In p records ->
      exists pos,
        observe (PlanetsApi.name p) (query_observer latitude longitude elevation) t
          = Some pos /\
        Qabs (altitude p - alt_degrees pos) <= 0.005 /\
        Qabs (azimuth p - az_degrees pos) <= 0.005 /\
        round2 (altitude p) = altitude p /\
        round2 (azimuth p) = azimuth p /\
        round2 (magnitude p) = magnitude p /\
        (rightAscension p = None <-> show_coords = false) /\
        (declination p = None <-> show_coords = false).
Proof.
  destruct (PlanetsApiProps.get_visible_planets_shape kernel clock latitude longitude
              elevation time show_coords above_horizon use_offline_mode) as (t & _ & E).
  cbv zeta in E. eexists _, t. split; [exact E|].
  intros p Hp.
  assert (Hall : In p (omap (fun body =>
                               body_record body (query_observer latitude longitude elevation)
                                 t show_coords) (PLANETS kernel))).
  { destruct above_horizon; [apply filter_In in Hp; tauto | exact Hp]. }
  apply list_elem_of_In, list_elem_of_omap in Hall. destruct Hall as (body & _ & Hrec).
  apply PlanetsApiProps.body_record_fields in Hrec as Hname. destruct Hname as (Hname & _).
  apply body_record_position in Hrec as (pos & Hobs & Halt & Haz & Hmag & Hra & Hdec).
  exists pos. rewrite Hname. split; [exact Hobs|].
  rewrite Halt, Haz, Hmag, !round2_idempotent.
  assert (Hhalf : (1 # 200) <= 0.005) by (unfold Qle; simpl; lia).
  split; [eapply Qle_trans; [apply round2_near | exact Hhalf]|].
  split; [eapply Qle_trans; [apply round2_near | exact Hhalf]|].
  repeat (split; [reflexivity|]). split; [exact Hra | exact Hdec].
Qed.

(** A [datetime] without a timezone is read as UTC: the body list and
    the Moon's phase are those of the same clock reading with
    [tzinfo=utc]. *)
Theorem naive_datetime_is_utc (kernel : gset string) (clock : Z)
    (latitude longitude elevation : option Q) (seconds : Z)
    (show_coords above_horizon use_offline_mode : bool) :
  get_visible_planets kernel clock latitude longitude elevation
    (Some (TimeObj (DateTime seconds None))) show_coords above_horizon use_offline_mode
  = get_visible_planets kernel clock latitude longitude elevation
      (Some (TimeObj (DateTime seconds (Some utc)))) show_coords above_horizon
      use_offline_mode /\
  get_moon_phase (Some (DateTime seconds None)) clock
  = get_moon_phase (Some (DateTime seconds (Some utc))) clock.
Proof. split; reflexivity. Qed.
End BodyList.

End PlanetsApiExtra.

(** ** planets_api.py: coordinates, lookup by name, phase and twilight *)

Module PlanetsApiExtra2.
Import PyNum PyNumFacts PyNumMore PlanetsApi PlanetsApiMore PlanetsApiDemo.


Lemma round_half_even_le (x : Q) (n : Z) : x <= inject_Z n -> (round_half_even x <= n)%Z.
Proof.
  intros Hx. destruct (Qlt_le_dec x (inject_Z n)) as [Hlt|Hge].
  - pose proof (round_half_even_between x) as Hb.
    assert ((Qfloor x < n)%Z).
    { rewrite Zlt_Qlt. eapply Qle_lt_trans; [apply Qfloor_le | exact Hlt]. }
    lia.
  - rewrite (round_half_even_whole x n); [lia | lra].
Qed.

Lemma round_half_even_ge (x : Q) (n : Z) : inject_Z n <= x -> (n <= round_half_even x)%Z.
Proof.
  intros Hx. pose proof (round_half_even_between x) as Hb.
  assert ((n <= Qfloor x)%Z).
  { rewrite <- (Qfloor_Z n). apply Qfloor_resp_le. exact Hx. }
  lia.
Qed.

(** Splitting a non-negative number into whole units, sixtieths and
    the rest in units of 1/3600, as [_format_ra_dec] does twice. *)
Lemma sexagesimal_split (x : Q) :
  0 <= x ->
  let whole := py_int x in
  let minutes := py_int ((x - inject_Z whole) * 60) in
  let rest := ((x - inject_Z whole) * 60 - inject_Z minutes) * 60 in
  (0 <= whole)%Z /\ (0 <= minutes <= 59)%Z /\ 0 <= rest /\ rest < 60 /\
  x == inject_Z whole + inject_Z minutes / 60 + rest / 3600.
Proof.
  intros Hx. unfold py_int.
  assert (E0 : Qltb x 0 = false) by (apply Qltb_ge; exact Hx). rewrite E0.
  pose proof (Qfloor_le x) as Hlo. pose proof (Qlt_floor x) as Hhi.
  rewrite inject_Z_plus in Hhi. change (inject_Z 1) with 1 in Hhi.
  set (f := (x - inject_Z (Qfloor x)) * 60).
  assert (Hf : 0 <= f < 60) by (subst f; split; lra).
  assert (E1 : Qltb f 0 = false) by (apply Qltb_ge; lra). rewrite E1.
  pose proof (Qfloor_le f) as Hlo'. pose proof (Qlt_floor f) as Hhi'.
  rewrite inject_Z_plus in Hhi'. change (inject_Z 1) with 1 in Hhi'.
  cbv zeta.
  split.
  { rewrite <- (Qfloor_Z 0). apply Qfloor_resp_le. exact Hx. }
  split.
  { split.
    - rewrite <- (Qfloor_Z 0). apply Qfloor_resp_le. change (inject_Z 0) with 0. lra.
    - assert ((Qfloor f < 60)%Z); [|lia].
      rewrite Zlt_Qlt. change (inject_Z 60) with 60. lra. }
  split; [lra|]. split; [lra|].
  subst f. field.
Qed.

Lemma round2_seconds (s : Q) : 0 <= s -> s < 60 -> 0 <= round2 s <= 60.
Proof.
  intros H0 H60. unfold round2. rewrite Qred_correct.
  assert (Hlo : (0 <= round_half_even (s * 100))%Z).
  { apply round_half_even_ge. change (inject_Z 0) with 0. lra. }
  assert (Hhi : (round_half_even (s * 100) <= 6000)%Z).
  { apply round_half_even_le. change (inject_Z 6000) with 6000. lra. }
  rewrite Zle_Qle in Hlo, Hhi.
  change (inject_Z 0) with 0 in Hlo. change (inject_Z 6000) with 6000 in Hhi.
  set (n := inject_Z (round_half_even (s * 100))) in *.
  assert (Hd : n / 100 == n * (1 # 100)) by (field; lra).
  rewrite Hd. split; lra.
Qed.

(** [_format_ra_dec] keeps the sign in the flag and splits the absolute
    value: whole part, minutes from 0 to 59, seconds from 0 to 60 (a
    rest of 59.995 or more is written as 60.0), and the three parts put
    together give the absolute value back within 0.005 seconds. *)
Theorem format_ra_dec_parts (ra_hours dec_degrees : Q) :
  let ra := (_format_ra_dec ra_hours dec_degrees).1 in
  let dec := (_format_ra_dec ra_hours dec_degrees).2 in
  (ra_negative ra = true <-> ra_hours < 0) /\
  (dec_negative dec = true <-> dec_degrees < 0) /\
  (0 <= ra_hour_part ra)%Z /\ (0 <= ra_minute_part ra <= 59)%Z /\
  0 <= ra_seconds ra <= 60 /\
  (0 <= dec_degree_part dec)%Z /\ (0 <= dec_arcminute_part dec <= 59)%Z /\
  0 <= dec_arcseconds dec <= 60 /\
  Qabs (inject_Z (ra_hour_part ra) + inject_Z (ra_minute_part ra) / 60
        + ra_seconds ra / 3600 - Qabs ra_hours) <= 1 # 720000 /\
  Qabs (inject_Z (dec_degree_part dec) + inject_Z (dec_arcminute_part dec) / 60
        + dec_arcseconds dec / 3600 - Qabs dec_degrees) <= 1 # 720000.
Proof.
  unfold _format_ra_dec. cbn [fst snd ra_negative dec_negative ra_hour_part ra_minute_part
                              ra_seconds dec_degree_part dec_arcminute_part dec_arcseconds].
  destruct (sexagesimal_split (Qabs ra_hours) (Qabs_nonneg ra_hours))
    as (Hh & Hm & Hs0 & Hs1 & Hsum).
  destruct (sexagesimal_split (Qabs dec_degrees) (Qabs_nonneg dec_degrees))
    as (Hh' & Hm' & Hs0' & Hs1' & Hsum').
  cbv zeta in Hh, Hm, Hs0, Hs1, Hsum, Hh', Hm', Hs0', Hs1', Hsum'.
  set (h := py_int (Qabs ra_hours)) in *.
  set (m := py_int ((Qabs ra_hours - inject_Z h) * 60)) in *.
  set (s := ((Qabs ra_hours - inject_Z h) * 60 - inject_Z m) * 60) in *.
  set (h' := py_int (Qabs dec_degrees)) in *.
  set (m' := py_int ((Qabs dec_degrees - inject_Z h') * 60)) in *.
  set (s' := ((Qabs dec_degrees - inject_Z h') * 60 - inject_Z m') * 60) in *.
  pose proof (round2_near s) as Hr. pose proof (round2_near s') as Hr'.
  apply Qabs_Qle_condition in Hr, Hr'.
  split; [apply Qltb_lt|]. split; [apply Qltb_lt|].
  split; [exact Hh|]. split; [exact Hm|]. split; [apply round2_seconds; assumption|].
  split; [exact Hh'|]. split; [exact Hm'|]. split; [apply round2_seconds; assumption|].
  split; apply Qabs_Qle_condition.
  - assert (Hd : round2 s / 3600 == round2 s * (1 # 3600)) by (field; lra).
    assert (Hd0 : s / 3600 == s * (1 # 3600)) by (field; lra).
    rewrite Hd. rewrite Hd0 in Hsum. split; lra.
  - assert (Hd : round2 s' / 3600 == round2 s' * (1 # 3600)) by (field; lra).
    assert (Hd0 : s' / 3600 == s' * (1 # 3600)) by (field; lra).
    rewrite Hd. rewrite Hd0 in Hsum'. split; lra.
Qed.

Lemma replace_Z_append (a b : string) :
  replace_Z (a +:+ b) = replace_Z a +:+ replace_Z b.
Proof.
  induction a as [|c a IH]; [reflexivity|]. simpl.
  destruct (Ascii.eqb c "Z"); rewrite IH; reflexivity.
Qed.

(** Every [Z] of a time string is read as [+00:00], and nothing else is
    touched: a string and the string with its [Z]s already replaced get
    the same answer, so ["...T12:00:00Z"] is ["...T12:00:00+00:00"]. *)
Theorem time_string_Z_means_utc `{SkyLibrary} (kernel : gset string) (clock : Z)
    (latitude longitude elevation : option Q) (s : string)
    (show_coords above_horizon use_offline_mode : bool) :
  replace_Z (replace_Z s) = replace_Z s /\
  (forall base, replace_Z (base +:+ "Z") = replace_Z base +:+ "+00:00") /\
  get_visible_planets kernel clock latitude longitude elevation (Some (TimeStr s))
    show_coords above_horizon use_offline_mode
  = get_visible_planets kernel clock latitude longitude elevation
      (Some (TimeStr (replace_Z s))) show_coords above_horizon use_offline_mode.
Proof.
  assert (Hidem : replace_Z (replace_Z s) = replace_Z s).
  { induction s as [|c s IH]; [reflexivity|]. simpl.
    destruct (Ascii.eqb c "Z") eqn:E.
    - rewrite replace_Z_append, IH. reflexivity.
    - simpl. rewrite E, IH. reflexivity. }
  split; [exact Hidem|]. split.
  - intros base. rewrite replace_Z_append. reflexivity.
  - unfold get_visible_planets, resolve_time. rewrite Hidem. reflexivity.
Qed.

Section ByNameProps.
Context `{SkyLibrary}.
Variable str_lower : string -> string.

(** [get_planet_by_name] searches the list that ignores the horizon:
    what it returns is a record of that list whose name matches in
    lower case; it returns [None] only when no record matches; and a
    catalogue body whose position can be computed is found whatever its
    altitude. *)
Theorem get_planet_by_name_ignores_horizon (kernel : gset string) (clock : Z)
    (planet_name : string) (latitude longitude elevation : option Q)
    (time : option time_arg) (show_coords use_offline_mode : bool) :
  exists all found t,
    get_visible_planets kernel clock latitude longitude elevation time
      show_coords false false = inr all /\
    ts_from_datetime (resolve_time time (datetime_now_utc clock)) = inr t /\
    get_planet_by_name str_lower kernel clock planet_name latitude longitude elevation
      time show_coords use_offline_mode = inr found /\
    (forall p, found = Some p ->
       In p all /\ str_lower (PlanetsApi.name p) = str_lower planet_name) /\
    (found = None ->
       forall p, In p all -> str_lower (PlanetsApi.name p) <> str_lower planet_name) /\
    (forall body pos,
       In body (PLANETS kernel) ->
       str_lower body = str_lower planet_name ->
       observe body (query_observer latitude longitude elevation) t = Some pos ->
       found <> None).
Proof.
  destruct (PlanetsApiProps.get_visible_planets_shape kernel clock latitude longitude
              elevation time show_coords false false) as (t & Ht & E).
  cbv zeta in E. cbv iota in E.
  unfold get_planet_by_name. rewrite E.
  set (obs := query_observer latitude longitude elevation) in *.
  remember (omap (fun body => body_record body obs t show_coords) (PLANETS kernel))
    as all eqn:Hall.
  set (matches := fun planet : planet_data =>
                    String.eqb (str_lower (PlanetsApi.name planet)) (str_lower planet_name)).
  exists all, (List.find matches all), t.
  split; [reflexivity|]. split; [exact Ht|]. split; [reflexivity|].
  assert (Hnone : List.find matches all = None ->
                  forall p, In p all ->
                    str_lower (PlanetsApi.name p) <> str_lower planet_name).
  { intros Hfind p Hp Heq.
    pose proof (find_none matches all Hfind p Hp) as Hno.
    subst matches. cbv beta in Hno. apply String.eqb_neq in Hno. contradiction. }
  split; [|split; [exact Hnone|]].
  - intros p Hfind. apply find_some in Hfind as [Hin Hm].
    split; [exact Hin|]. subst matches. cbv beta in Hm. apply String.eqb_eq. exact Hm.
  - intros body pos Hbody Hlower Hobs Hfind.
    destruct (body_record body obs t show_coords) as [p|] eqn:Hrec.
    + apply PlanetsApiProps.body_record_fields in Hrec as Hf. destruct Hf as (Hn & _).
      apply (Hnone Hfind p).
      * rewrite Hall. apply list_elem_of_In, list_elem_of_omap.
        exists body. split; [apply list_elem_of_In; exact Hbody | exact Hrec].
      * rewrite Hn. exact Hlower.
    + unfold body_record in Hrec. rewrite Hobs in Hrec. discriminate Hrec.
Qed.
End ByNameProps.

Lemma phase_angle_fold (slon mlon : Q) :
  0 <= phase_percent_of slon mlon <= 100.
Proof.
  unfold phase_percent_of.
  destruct (py_mod_range (mlon - slon) 360) as [Hlo Hhi]; [lra|].
  set (a := py_mod (mlon - slon) 360) in *.
  destruct (Qltb 180 a) eqn:E; [apply Qltb_lt in E | apply Qltb_ge in E].
  - assert (Hd : (360 - a) / 180 * 100 == (360 - a) * (5 # 9)) by (field; lra).
    rewrite Hd. split; lra.
  - assert (Hd : a / 180 * 100 == a * (5 # 9)) by (field; lra).
    rewrite Hd. split; lra.
Qed.

(** Whenever [get_moon_phase] returns, the phase it reports is the
    rounded percentage of the two longitudes observed at its instant;
    it lies between 0 and 100 percent, before and after rounding, and
    the name "Last Quarter" is given exactly when the unrounded
    percentage is 100, the Moon opposite the Sun. *)
Theorem moon_phase_percent_range `{SkyLibrary} (time_obj : option datetime) (clock : Z)
    (m : moon_phase) :
  get_moon_phase time_obj clock = inr m ->
  exists t slon mlon,
    ts_from_datetime (aware_time_obj time_obj clock) = inr t /\
    sun_longitude t = inr slon /\
    moon_longitude t = inr mlon /\
    let p := phase_percent_of slon mlon in
    0 <= p <= 100 /\
    phase_percent m = round1 p /\
    0 <= phase_percent m <= 100 /\
    (phase_name m = "Last Quarter" <-> p == 100).
Proof.
  intros Hcall.
  destruct (PlanetsApiProps.get_moon_phase_shape time_obj clock) as (t & Ht & Hshape).
  rewrite Hcall in Hshape.
  destruct (sun_longitude t) as [e|slon] eqn:Hs; [discriminate Hshape|].
  destruct (moon_longitude t) as [e|mlon] eqn:Hm; [discriminate Hshape|].
  destruct (moon_distance_km t) as [e|distance] eqn:Hd; [discriminate Hshape|].
  injection Hshape as ->.
  exists t, slon, mlon. split; [exact Ht|]. split; [exact Hs|]. split; [exact Hm|].
  intros p. cbn [phase_percent phase_name]. fold p.
  pose proof (phase_angle_fold slon mlon) as Hp. fold p in Hp.
  split; [exact Hp|]. split; [reflexivity|]. split.
  - unfold round1. rewrite Qred_correct.
    assert (Hlo : (0 <= round_half_even (p * 10))%Z).
    { apply round_half_even_ge. change (inject_Z 0) with 0. lra. }
    assert (Hhi : (round_half_even (p * 10) <= 1000)%Z).
    { apply round_half_even_le. change (inject_Z 1000) with 1000. lra. }
    rewrite Zle_Qle in Hlo, Hhi.
    change (inject_Z 0) with 0 in Hlo. change (inject_Z 1000) with 1000 in Hhi.
    set (n := inject_Z (round_half_even (p * 10))) in *.
    assert (Hd' : n / 10 == n * (1 # 10)) by (field; lra).
    rewrite Hd'. split; lra.
  - unfold phase_name_of.
    qltb_cases; split; intros Hx; try discriminate Hx; try reflexivity; lra.
Qed.

Lemma moon_phase_percent_range_witness :
  exists m,
    @get_moon_phase (demo_library 10) None demo_clock = inr m /\
    0 <= phase_percent m <= 100.
Proof.
  destruct (@get_moon_phase (demo_library 10) None demo_clock) as [e|m] eqn:Ecall;
    [vm_compute in Ecall; discriminate Ecall|].
  exists m. split; [reflexivity|].
  destruct (@moon_phase_percent_range (demo_library 10) None demo_clock m Ecall)
    as (t & slon & mlon & _ & _ & _ & _ & _ & Hrange & _).
  exact Hrange.
Defined.


Section TwilightProps.
Context `{TwilightLibrary}.

Lemma no_event_matches (twilight_type : string) (event : Z) :
  Qeq_bool (inject_Z event) (1 - depression_angle_of twilight_type / 90) = false /\
  Qeq_bool (inject_Z event) (1 + depression_angle_of twilight_type / 90) = false.
Proof.
  unfold depression_angle_of.
  destruct (String.eqb twilight_type "civil");
    [|destruct (String.eqb twilight_type "nautical");
      [|destruct (String.eqb twilight_type "astronomical")]];
    (split; (destruct (Qeq_bool _ _) eqn:E; [|reflexivity]);
     apply Qeq_bool_eq in E; unfold Qeq in E; simpl in E; lia).
Qed.

Lemma record_event_inert (twilight_type : string) (changes : list (skytime * Z))
    (result : twilight) :
  foldl (record_event (depression_angle_of twilight_type)) result changes = result.
Proof.
  revert result. induction changes as [|[time event] changes IH]; intros result;
    [reflexivity|].
  simpl. destruct (no_event_matches twilight_type event) as [E1 E2].
  rewrite E1, E2. apply IH.
Qed.

(** [get_twilight_times] never reports a time: the almanac's events are
    integer codes, compared with [1 - angle/90] and [1 + angle/90],
    which are no integers for the angles 6, 12 and 18; whatever the
    almanac finds, the answer has neither "dawn" nor "dusk". *)
Theorem twilight_times_are_never_reported (latitude longitude : Q)
    (date_obj : option datetime) (twilight_type : string) (clock : Z) :
  let result := get_twilight_times latitude longitude date_obj twilight_type clock in
  dawn result = None /\ dusk result = None /\ tw_type result = twilight_type.
Proof.
  cbv zeta. unfold get_twilight_times.
  destruct (utc_midnight _ _ _) as [d0|]; [|split; [|split]; reflexivity].
  destruct (utc_midnight _ _ _) as [d1|]; [|split; [|split]; reflexivity].
  destruct (ts_from_datetime d0) as [[text|text]|t0], (ts_from_datetime d1) as [[text'|text']|t1];
    try (split; [|split]; reflexivity).
  destruct (find_discrete _ t0 t1) as [text|changes]; [split; [|split]; reflexivity|].
  rewrite record_event_inert. split; [|split]; reflexivity.
Qed.

(** On the last day of a month [get_twilight_times] builds the end of
    the interval as day + 1 of the same month: the date does not exist,
    and the answer is the error entry, the almanac never asked. *)
Theorem twilight_fails_on_last_day_of_month (latitude longitude : Q)
    (date_obj : datetime) (offset : Z) (twilight_type : string) (clock : Z) :
  tzinfo date_obj = Some offset ->
  NeoApi.day (calendar_of date_obj)
    = days_in_month (NeoApi.year (calendar_of date_obj)) (NeoApi.month (calendar_of date_obj)) ->
  get_twilight_times latitude longitude (Some date_obj) twilight_type clock
  = Twilight twilight_type None None (Some out_of_range_text).
Proof.
  intros Htz Hlast. unfold get_twilight_times. rewrite Htz.
  set (day := calendar_of date_obj) in *.
  assert (Hnext : utc_midnight (NeoApi.year day) (NeoApi.month day) (NeoApi.day day + 1)
                  = None).
  { unfold utc_midnight. rewrite Hlast.
    assert (E : (days_in_month (NeoApi.year day) (NeoApi.month day) + 1
                 <=? days_in_month (NeoApi.year day) (NeoApi.month day))%Z = false)
      by (apply Z.leb_gt; lia).
    rewrite E, !andb_false_r. reflexivity. }
  rewrite Hnext. destruct (utc_midnight _ _ (NeoApi.day day)); reflexivity.
Qed.
End TwilightProps.

Lemma twilight_fails_on_last_day_of_month_witness :
  let L := demo_twilight_library (NeoApi.Date 2025 1 31) in
  NeoApi.day (@calendar_of L (DateTime 1738281600 (Some 0%Z))) = days_in_month 2025 1 /\
  @get_twilight_times L 40.7128 (-74.0060) (Some (DateTime 1738281600 (Some 0%Z)))
     "civil" 0
  = Twilight "civil" None None (Some "day is out of range for month").
Proof.
  intros L. split; [reflexivity|].
  apply (@twilight_fails_on_last_day_of_month L 40.7128 (-74.0060)
           (DateTime 1738281600 (Some 0%Z)) 0%Z "civil" 0%Z); reflexivity.
Defined.

End PlanetsApiExtra2.

(** ** The result cache: expiry, unusable entries and results that
    cannot be stored *)

Module CacheExtra.
Import PyNum PyNumFacts Cache.

Section WrapperExtra.
Variable Args : Type.
Variable args_text : Args -> string.
Variable md5_hexdigest : string -> string.

Abbreviation wrapper := (wrapper Args args_text md5_hexdigest).
Abbreviation path_of func_name args :=
  (cache_path_of planets_api (func_name +:+ "_" +:+ md5_hexdigest (args_text args))).

Lemma stale_entry_misses (w : world) (path : string) (old : pyval) (written : Q) :
  files w !! path
    = Some (Document (PDict [("result", old); ("_cache_time", PFloat written)])) ->
  CACHE_DURATION planets_api < now w - written ->
  cached_payload planets_api w path = None.
Proof.
  intros Hfile Hold. unfold cached_payload, read_entry, time_time.
  destruct (os_path_exists w path); [|reflexivity].
  destruct (bool_decide (path ∈ unreadable w)); [reflexivity|].
  rewrite Hfile, CacheProps.planets_api_has_time.
  cbn [py_get String.eqb Ascii.eqb Bool.eqb float_sub].
  destruct (Qle_bool (now w - written) (CACHE_DURATION planets_api)) eqn:E; [|reflexivity].
  apply Qle_bool_iff in E. lra.
Qed.

(** Expiry. A call that finds an entry written more than 300 seconds
    before runs the computation again and overwrites the entry with the
    new result, stamped with the time after the run. *)
Theorem expired_entry_is_recomputed (func_name : string) (func : computation Args)
    (args : Args) (w : world) (old result : pyval) (written elapsed : Q) :
  files w !! path_of func_name args
    = Some (Document (PDict [("result", old); ("_cache_time", PFloat written)])) ->
  CACHE_DURATION planets_api < now w - written ->
  func args (now w) = (inr result, elapsed) ->
  json_roundtrip result = Some result ->
  path_of func_name args ∉ unwritable w ->
  exists w1,
    wrapper planets_api func_name func args w = (inr result, w1) /\
    calls w1 = S (calls w) /\
    files w1 !! path_of func_name args
      = Some (Document (PDict [("result", result);
                               ("_cache_time", PFloat (now w + elapsed))])).
Proof.
  intros Hfile Hold Hfunc Hjson Hw.
  pose proof (stale_entry_misses w _ old written Hfile Hold) as Hmiss.
  destruct (CacheProps.first_call_stores Args args_text md5_hexdigest func_name func args
              w result elapsed Hmiss Hfunc Hjson Hw) as (w1 & Hcall & Hcalls & _ & Hnew).
  exists w1. split; [exact Hcall|]. split; [exact Hcalls | exact Hnew].
Qed.

(** With no usable entry (no file, a file that cannot be opened, or
    one [json.load] rejects) the decorated function does what the
    function itself does, returning or raising as it does, after one
    run, even when the file cannot be written either. *)
Theorem unusable_cache_is_bypassed (func_name : string) (func : computation Args)
    (args : Args) (w : world) :
  files w !! path_of func_name args = None \/
  path_of func_name args ∈ unreadable w \/
  files w !! path_of func_name args = Some Garbled ->
  exists w1,
    wrapper planets_api func_name func args w = ((func args (now w)).1, w1) /\
    calls w1 = S (calls w) /\
    now w1 == now w + (func args (now w)).2.
Proof.
  intros Hcase.
  assert (Hmiss : cached_payload planets_api w (path_of func_name args) = None).
  { unfold cached_payload, os_path_exists, read_entry.
    destruct Hcase as [Hnone|[Hlocked|Hgarbled]].
    - rewrite Hnone. rewrite bool_decide_eq_false_2; [reflexivity|].
      intros [x Hx]. discriminate Hx.
    - rewrite (bool_decide_eq_true_2 _ Hlocked).
      destruct (bool_decide _); reflexivity.
    - rewrite Hgarbled. destruct (bool_decide _); [|reflexivity].
      destruct (bool_decide _); reflexivity. }
  unfold Cache.wrapper.
  change (negb (CACHE_ENABLED planets_api)) with false. cbv iota.
  rewrite CacheProps.planets_api_key, Hmiss.
  unfold run. destruct (func args (now w)) as [[e|result] elapsed]; cbn [fst snd].
  - eexists. split; [reflexivity|]. split; [reflexivity|]. cbn [now]. reflexivity.
  - eexists. split; [reflexivity|].
    unfold write_entry, time_time. rewrite CacheProps.planets_api_has_time.
    destruct (bool_decide _); [split; reflexivity|].
    destruct (json_roundtrip _); split; reflexivity.
Qed.

(** A computation that raises is not remembered: the exception reaches
    the caller and the files of the cache are as they were. *)
Theorem failures_are_not_cached (func_name : string) (func : computation Args)
    (args : Args) (w : world) (e : exn) (elapsed : Q) :
  cached_payload planets_api w (path_of func_name args) = None ->
  func args (now w) = (inl e, elapsed) ->
  exists w1,
    wrapper planets_api func_name func args w = (inl e, w1) /\
    files w1 = files w /\
    calls w1 = S (calls w) /\
    forall t, cached_payload planets_api (set_now t w1) (path_of func_name args)
              = cached_payload planets_api (set_now t w) (path_of func_name args).
Proof.
  intros Hmiss Hfunc. unfold Cache.wrapper.
  change (negb (CACHE_ENABLED planets_api)) with false. cbv iota.
  rewrite CacheProps.planets_api_key, Hmiss. unfold run. rewrite Hfunc.
  eexists. split; [reflexivity|]. split; [reflexivity|]. split; [reflexivity|].
  intros t. reflexivity.
Qed.

(** A result [json] cannot encode is returned to the caller, but the
    attempt to store it leaves a truncated file: no later call, at any
    time, finds an entry there, so every call computes again. *)
Theorem unencodable_result_is_never_cached (func_name : string) (func : computation Args)
    (args : Args) (w : world) (result : pyval) (elapsed : Q) :
  cached_payload planets_api w (path_of func_name args) = None ->
  func args (now w) = (inr result, elapsed) ->
  json_roundtrip result = None ->
  path_of func_name args ∉ unwritable w ->
  exists w1,
    wrapper planets_api func_name func args w = (inr result, w1) /\
    files w1 !! path_of func_name args = Some Garbled /\
    forall t, cached_payload planets_api (set_now t w1) (path_of func_name args) = None.
Proof.
  intros Hmiss Hfunc Hjson Hw. unfold Cache.wrapper.
  change (negb (CACHE_ENABLED planets_api)) with false. cbv iota.
  rewrite CacheProps.planets_api_key, Hmiss. unfold run. rewrite Hfunc.
  unfold write_entry, time_time. rewrite CacheProps.planets_api_has_time.
  rewrite bool_decide_eq_false_2 by exact Hw.
  cbn [json_roundtrip]. rewrite Hjson. cbn [mbind option_bind fmap option_fmap option_map].
  eexists. split; [reflexivity|].
  assert (Hfile : forall t, files (set_now t (set_file (path_of func_name args) Garbled
                     (World (now w + elapsed) (files w) (unreadable w) (unwritable w)
                        (S (calls w))))) !! path_of func_name args = Some Garbled).
  { intros t. unfold set_now, set_file. cbn [files]. apply lookup_insert_eq. }
  split; [apply (Hfile 0)|].
  intros t. unfold cached_payload, read_entry. rewrite Hfile.
  destruct (os_path_exists _ _); [|reflexivity].
  destruct (bool_decide _); reflexivity.
Qed.
End WrapperExtra.

Lemma expired_entry_is_recomputed_witness :
  let path := ".cache/get_visible_planets_()[].json" in
  let w := set_now 1300 warm_world in
  files w !! path
    = Some (Document (PDict [("result", demo_list); ("_cache_time", PFloat 900)])) /\
  CACHE_DURATION planets_api < now w - 900 /\
  exists w1,
    Cache.wrapper string id demo_digest planets_api "get_visible_planets"
      (fun _ _ => (inr (PInt 7), 1)) "()[]" w = (inr (PInt 7), w1) /\
    calls w1 = 1%nat.
Proof.
  intros path w.
  assert (Hfile : files w !! path
                  = Some (Document (PDict [("result", demo_list);
                                           ("_cache_time", PFloat 900)])))
    by (vm_compute; reflexivity).
  assert (Hold : CACHE_DURATION planets_api < now w - 900) by (unfold Qlt; simpl; lia).
  split; [exact Hfile|]. split; [exact Hold|].
  destruct (expired_entry_is_recomputed string id demo_digest "get_visible_planets"
              (fun _ _ => (inr (PInt 7), 1)) "()[]" w demo_list (PInt 7) 900 1 Hfile Hold)
    as (w1 & Hcall & Hcalls & _); [reflexivity | reflexivity | apply not_elem_of_empty |].
  exists w1. split; [exact Hcall | exact Hcalls].
Defined.

Lemma unusable_cache_is_bypassed_witness :
  let locked := World 1000
                  {[ ".cache/get_visible_planets_()[].json" :=
                       Document (PDict [("result", PInt 0); ("_cache_time", PFloat 999)]) ]}
                  {[ ".cache/get_visible_planets_()[].json" ]}
                  {[ ".cache/get_visible_planets_()[].json" ]} 0 in
  ".cache/get_visible_planets_()[].json" ∈ unreadable locked /\
  exists w1,
    Cache.wrapper string id demo_digest planets_api "get_visible_planets" returns_list
      "()[]" locked = (inr demo_list, w1) /\
    calls w1 = 1%nat.
Proof.
  intros locked.
  assert (Hlocked : ".cache/get_visible_planets_()[].json" ∈ unreadable locked)
    by (vm_compute; reflexivity).
  split; [exact Hlocked|].
  destruct (unusable_cache_is_bypassed string id demo_digest "get_visible_planets"
              returns_list "()[]" locked) as (w1 & Hcall & Hcalls & _).
  { right; left. exact Hlocked. }
  exists w1. split; [exact Hcall | exact Hcalls].
Defined.

Lemma failures_are_not_cached_witness :
  cached_payload planets_api empty_world ".cache/get_visible_planets_()[].json" = None /\
  exists w1,
    Cache.wrapper string id demo_digest planets_api "get_visible_planets" always_raises
      "()[]" empty_world = (inl (Failure "Error getting planet data"), w1) /\
    files w1 = files empty_world.
Proof.
  assert (Hmiss : cached_payload planets_api empty_world
                    ".cache/get_visible_planets_()[].json" = None)
    by (vm_compute; reflexivity).
  split; [exact Hmiss|].
  destruct (failures_are_not_cached string id demo_digest "get_visible_planets"
              always_raises "()[]" empty_world (Failure "Error getting planet data") 1
              Hmiss eq_refl) as (w1 & Hcall & Hfiles & _).
  exists w1. split; [exact Hcall | exact Hfiles].
Defined.

Lemma unencodable_result_is_never_cached_witness :
  cached_payload planets_api empty_world ".cache/get_visible_planets_()[].json" = None /\
  json_roundtrip (PObject 0) = None /\
  exists w1,
    Cache.wrapper string id demo_digest planets_api "get_visible_planets"
      (fun _ _ => (inr (PObject 0), 1)) "()[]" empty_world = (inr (PObject 0), w1) /\
    cached_payload planets_api (set_now 1001 w1) ".cache/get_visible_planets_()[].json"
    = None.
Proof.
  assert (Hmiss : cached_payload planets_api empty_world
                    ".cache/get_visible_planets_()[].json" = None)
    by (vm_compute; reflexivity).
  split; [exact Hmiss|]. split; [reflexivity|].
  destruct (unencodable_result_is_never_cached string id demo_digest "get_visible_planets"
              (fun _ _ => (inr (PObject 0), 1)) "()[]" empty_world (PObject 0) 1
              Hmiss eq_refl eq_refl) as (w1 & Hcall & _ & Hnever).
  { apply not_elem_of_empty. }
  exists w1. split; [exact Hcall | apply (Hnever 1001)].
Defined.

End CacheExtra.

(** ** astronomy_utils.py: the sectors of the compass and the
    extinction rule *)

Module AstronomyUtilsExtra.
Import PyNum PyNumFacts PyNumMore AstronomyUtils AstronomyUtilsMore.

Lemma min_from_ext {A} (key key' : A -> Q) (l : list A) (best : A) :
  (forall x, key x == key' x) -> min_from key best l = min_from key' best l.
Proof.
  intros Hkey. revert best. induction l as [|x l IH]; intros best; [reflexivity|].
  simpl. assert (E : Qltb (key x) (key best) = Qltb (key' x) (key' best)).
  { unfold Qltb. f_equal. apply Qleb_comp; apply Hkey. }
  rewrite E. apply IH.
Qed.

Lemma closest_key_ext (n n' : Q) : n == n' -> closest_key n = closest_key n'.
Proof.
  intros Hn. unfold closest_key. apply min_from_ext.
  intros x. rewrite Hn. reflexivity.
Qed.

(** What [get_azimuth_direction] returns is the name of the closest
    key: the test against 22.5 never succeeds. *)
Lemma direction_of_closest_key (azimuth : Q) :
  get_azimuth_direction azimuth
  = dict_get AZIMUTH_DIRECTIONS (closest_key (py_mod azimuth 360)).
Proof.
  unfold get_azimuth_direction, closest_key.
  destruct (py_mod_range azimuth 360) as [Hlo Hhi]; [lra|].
  set (a := py_mod azimuth 360) in *.
  set (dist := fun x : Z => Qabs (inject_Z x - a)).
  change (py_min dist (dict_keys AZIMUTH_DIRECTIONS))
    with (Some (min_from dist 0%Z [45; 90; 135; 180; 225; 270; 315; 360]%Z)).
  destruct (min_from_le dist [45; 90; 135; 180; 225; 270; 315; 360]%Z 0%Z) as [Hbest Hall].
  set (c := min_from dist 0%Z [45; 90; 135; 180; 225; 270; 315; 360]%Z) in *.
  assert (Hc : dist c <= 22.5).
  { destruct (AstronomyUtilsProps.closest_direction_near a (conj Hlo Hhi)) as (k & Hk & Hd).
    change (dict_keys AZIMUTH_DIRECTIONS)
      with [0; 45; 90; 135; 180; 225; 270; 315; 360]%Z in Hk.
    fold (dist k) in Hd.
    destruct Hk as [<-|Hk]; [lra|].
    specialize (Hall k Hk). lra. }
  assert (Hnot : Qltb 22.5 (Qabs (a - inject_Z c)) = false).
  { apply Qltb_ge. rewrite Qabs_Qminus. exact Hc. }
  clearbody c. unfold mbind, option_bind. rewrite Hnot. reflexivity.
Qed.

(** [min] returns the first of the minimal elements: in an increasing
    list, every element before the result has a strictly larger key. *)
Lemma min_from_first (key : Z -> Q) (l : list Z) (best : Z) :
  StronglySorted Z.lt (best :: l) ->
  forall x, In x (best :: l) -> (x < min_from key best l)%Z ->
            key (min_from key best l) < key x.
Proof.
  revert best. induction l as [|y l IH]; intros best Hsorted x Hx Hlt.
  - simpl in *. destruct Hx as [->|[]]. lia.
  - apply StronglySorted_inv in Hsorted as [Hrest Hbest].
    apply StronglySorted_inv in Hrest as Hrest'. destruct Hrest' as [Hl Hy].
    apply Forall_cons_1 in Hbest as Hb. destruct Hb as [Hby Hbl].
    simpl in Hlt |- *.
    destruct (Qltb (key y) (key best)) eqn:E;
      [apply Qltb_lt in E | apply Qltb_ge in E].
    + destruct Hx as [->|Hx].
      * destruct (min_from_le key l y) as [Hle _]. lra.
      * apply IH; assumption.
    + assert (Hsorted' : StronglySorted Z.lt (best :: l)).
      { constructor; assumption. }
      destruct Hx as [->|[->|Hx]].
      * apply IH; [exact Hsorted' | left; reflexivity | exact Hlt].
      * assert (Hb : key (min_from key best l) < key best).
        { apply IH; [exact Hsorted' | left; reflexivity | lia]. }
        lra.
      * apply IH; [exact Hsorted' | right; exact Hx | exact Hlt].
Qed.

Lemma keys_increasing :
  StronglySorted Z.lt [0; 45; 90; 135; 180; 225; 270; 315; 360]%Z.
Proof. repeat (constructor; [|repeat (constructor; [reflexivity|]); constructor]). constructor. Qed.

Lemma closest_key_sector (n : Q) (k : Z) :
  In k [0; 45; 90; 135; 180; 225; 270; 315; 360]%Z ->
  inject_Z k - 22.5 < n <= inject_Z k + 22.5 ->
  closest_key n = k.
Proof.
  intros Hk [Hs1 Hs2].
  pose proof (min_from_In (fun x : Z => Qabs (inject_Z x - n))
                [45; 90; 135; 180; 225; 270; 315; 360]%Z 0%Z) as Hc.
  destruct (min_from_le (fun x : Z => Qabs (inject_Z x - n))
              [45; 90; 135; 180; 225; 270; 315; 360]%Z 0%Z) as [Hb Hall].
  pose proof (min_from_first (fun x : Z => Qabs (inject_Z x - n))
                [45; 90; 135; 180; 225; 270; 315; 360]%Z 0%Z
                keys_increasing k Hk) as Hfirst.
  cbv beta in Hc, Hb, Hall, Hfirst. unfold closest_key.
  set (c := min_from (fun x : Z => Qabs (inject_Z x - n)) 0%Z
              [45; 90; 135; 180; 225; 270; 315; 360]%Z) in *.
  assert (Hmin : Qabs (inject_Z c - n) <= Qabs (inject_Z k - n)).
  { destruct Hk as [<-|Hk]; [exact Hb | apply Hall; exact Hk]. }
  assert (Hkabs : Qabs (inject_Z k - n) <= 22.5).
  { apply Qabs_Qle_condition. split; lra. }
  assert (Hc1 : inject_Z c - n <= Qabs (inject_Z c - n)) by apply Qle_Qabs.
  assert (Hc2 : n - inject_Z c <= Qabs (inject_Z c - n)).
  { rewrite Qabs_Qminus. apply Qle_Qabs. }
  clearbody c. clear Hb Hall.
  generalize dependent (Qabs (inject_Z c - n)).
  generalize dependent (Qabs (inject_Z k - n)).
  intros dk Hkabs dc Hfirst Hmin Hc1 Hc2.
  simpl in Hk, Hc.
  destruct Hk as [<-|[<-|[<-|[<-|[<-|[<-|[<-|[<-|[<-|[]]]]]]]]]];
    destruct Hc as [<-|[<-|[<-|[<-|[<-|[<-|[<-|[<-|[<-|[]]]]]]]]]];
    unfold inject_Z in *;
    first [ reflexivity
          | exfalso; lra
          | exfalso; assert (dc < dk) by (apply Hfirst; reflexivity); lra ].
Qed.

(** The sectors of [get_azimuth_direction], for an azimuth that is
    not negative (the remainder of such an azimuth is exact in the code
    as it is here, and so are the comparisons of its distances to the
    keys). With [n] the azimuth reduced to 0..360, the name of the key
    [k] is returned on [k - 22.5 < n <= k + 22.5]: each of the eight
    points owns the 45 degrees around it, a boundary [k + 22.5] belongs
    to the point before it, and "North" has both ends of the circle. *)
Theorem azimuth_direction_sectors (azimuth : Q) (k : Z) (label : string) :
  0 <= azimuth ->
  dict_get AZIMUTH_DIRECTIONS k = Some label ->
  inject_Z k - 22.5 < py_mod azimuth 360 <= inject_Z k + 22.5 ->
  get_azimuth_direction azimuth = Some label.
Proof.
  intros _ Hlabel Hsector.
  rewrite direction_of_closest_key.
  rewrite (closest_key_sector (py_mod azimuth 360) k); [exact Hlabel | | exact Hsector].
  unfold AZIMUTH_DIRECTIONS, dict_get in Hlabel.
  repeat match type of Hlabel with
    | context [(?a =? k)%Z] =>
        let E := fresh "E" in
        destruct (a =? k)%Z eqn:E; [apply Z.eqb_eq in E; subst k; simpl; tauto|]
    end.
  discriminate Hlabel.
Qed.

Lemma azimuth_direction_sectors_witness :
  dict_get AZIMUTH_DIRECTIONS 315 = Some "Northwest" /\
  inject_Z 315 - 22.5 < py_mod 697.5 360 <= inject_Z 315 + 22.5 /\
  get_azimuth_direction 697.5 = Some "Northwest".
Proof.
  assert (Hsector : inject_Z 315 - 22.5 < py_mod 697.5 360 <= inject_Z 315 + 22.5).
  { split; [unfold Qlt | unfold Qle]; vm_compute; [reflexivity | discriminate]. }
  split; [reflexivity|]. split; [exact Hsector|].
  apply (azimuth_direction_sectors 697.5 315 "Northwest");
    [unfold Qle; simpl; lia | reflexivity | exact Hsector].
Defined.

(** Whole turns do not matter: an azimuth and the same azimuth plus or
    minus any number of times 360 get the same name. *)
Theorem azimuth_direction_is_periodic (azimuth : Q) (turns : Z) :
  get_azimuth_direction (azimuth + 360 * inject_Z turns) = get_azimuth_direction azimuth.
Proof.
  rewrite !direction_of_closest_key.
  rewrite (closest_key_ext (py_mod (azimuth + 360 * inject_Z turns) 360)
             (py_mod azimuth 360)); [reflexivity|].
  apply py_mod_period. lra.
Qed.

(** The rule of [is_planet_visible], in the parts that do not depend
    on how the extinction sum is rounded. A body below [min_altitude]
    is never visible; when the magnitude or the limit is omitted, the
    altitude alone decides; when both are given, from 10 degrees up no
    extinction is applied and the body is visible exactly when its
    magnitude does not exceed the limit, and below 10 degrees the
    extinction can only hide it: a body that is visible has a magnitude
    within the limit, and one whose magnitude exceeds the limit is not
    visible at any altitude. *)
Theorem is_planet_visible_rule (altitude min_altitude : Q)
    (magnitude max_magnitude : option Q) :
  (altitude < min_altitude ->
     is_planet_visible altitude magnitude min_altitude max_magnitude = false) /\
  (magnitude = None \/ max_magnitude = None ->
     (is_planet_visible altitude magnitude min_altitude max_magnitude = true
      <-> min_altitude <= altitude)) /\
  (forall m limit, magnitude = Some m -> max_magnitude = Some limit ->
     (10 <= altitude ->
        (is_planet_visible altitude magnitude min_altitude max_magnitude = true
         <-> min_altitude <= altitude /\ m <= limit)) /\
     (is_planet_visible altitude magnitude min_altitude max_magnitude = true ->
        min_altitude <= altitude /\ m <= limit) /\
     (limit < m ->
        is_planet_visible altitude magnitude min_altitude max_magnitude = false)).
Proof.
  unfold is_planet_visible.
  split; [|split].
  - intros Hlow. apply Qltb_lt in Hlow. rewrite Hlow. reflexivity.
  - intros [-> | ->]; [|destruct magnitude as [m|]]; simpl;
      qltb_cases; simpl; split; intros Hx; try reflexivity; try discriminate Hx; lra.
  - intros m limit -> ->. simpl. split; [|split].
    + intros Hhigh.
      qltb_cases; simpl; split; intros Hx; try reflexivity; try discriminate Hx;
        try (split; lra); try lra.
    + qltb_cases; simpl; intros Hx; try discriminate Hx; split; lra.
    + intros Hdim. qltb_cases; simpl; try reflexivity; lra.
Qed.

Lemma is_planet_visible_rule_witness :
  is_planet_visible 0 (Some 3.5) 0 (Some 3) = false /\
  is_planet_visible 12 (Some 1) 0 (Some 3) = true /\
  is_planet_visible 0 (Some 9) 0 None = true.
Proof.
  destruct (is_planet_visible_rule 0 0 (Some 3.5) (Some 3)) as (_ & _ & Hdim).
  destruct (is_planet_visible_rule 12 0 (Some 1) (Some 3)) as (_ & _ & Hboth).
  destruct (is_planet_visible_rule 0 0 (Some 9) None) as (_ & Hone & _).
  split; [|split].
  - apply (Hdim 3.5 3 eq_refl eq_refl). unfold Qlt; simpl; lia.
  - apply (Hboth 1 3 eq_refl eq_refl); [unfold Qle; simpl; lia|].
    split; unfold Qle; simpl; lia.
  - apply Hone; [right; reflexivity | unfold Qle; simpl; lia].
Defined.

End AstronomyUtilsExtra.

(** * neo_api.py: the visibility estimate, the feed and its cache *)

Module NeoExtra.
Import PyNum PyNumFacts NeoApi.

Section Bounds.
Context {G : Type} `{RandomSource G}.
Variable strptime : string -> option date.

Lemma random_randint_range (a b : Z) (g : G) :
  (a <= b)%Z -> (a <= (random_randint a b g).1 <= b)%Z.
Proof.
  intros Hab. unfold random_randint.
  pose proof (randbelow_range (b - a + 1) g ltac:(lia)) as Hrange.
  destruct (randbelow (b - a + 1) g) as [i g']. simpl in *. lia.
Qed.

(** Whatever the generator draws, a NEO reported visible is put
    20 to 60 degrees up, in a direction of the list chosen for the
    latitude: between east and west through south (azimuth 90 to 270)
    for a northern observer, between southeast and southwest above 45
    degrees north; on the northern side or due east or west for the
    others; and the azimuth is the one of the direction. *)
Theorem visible_neo_faces_the_equator
    (neo_data : neo_record) (latitude longitude : Q) (today : date) (g g' : G)
    (direction : string) (elevation azimuth : Z) (note : string) :
  get_neo_visibility strptime neo_data latitude longitude today g
    = (inr (Visible direction elevation azimuth note), g') ->
  (20 <= elevation <= 60)%Z /\
  In direction (possible_directions latitude) /\
  azimuth = direction_to_azimuth direction /\
  (0 < latitude -> (90 <= azimuth <= 270)%Z) /\
  (45 < latitude -> (135 <= azimuth <= 225)%Z) /\
  (latitude <= 0 -> In azimuth [0; 45; 315; 90; 270]%Z) /\
  (latitude < -45 -> In azimuth [0; 45; 315]%Z).
Proof.
  unfold get_neo_visibility. intros Hcall.
  destruct (neo_data !! "close_approach_date") as [[s| | |]|]; try discriminate.
  destruct (strptime s) as [approach_date|]; [|discriminate].
  destruct (7 <? _)%Z; [discriminate|].
  destruct (NeoApiProps.random_choice_possible latitude g) as (d & g1 & Hdraw & Hin).
  rewrite Hdraw in Hcall.
  pose proof (random_randint_range 20 60 g1 ltac:(lia)) as Helev.
  destruct (random_randint 20 60 g1) as [e g2]. simpl in Helev.
  assert (d = direction /\ e = elevation /\ direction_to_azimuth d = azimuth)
    as (-> & -> & <-) by (repeat split; congruence).
  split; [exact Helev|]. split; [exact Hin|]. split; [reflexivity|].
  unfold possible_directions in Hin.
  split; [|split; [|split]]; intros Hlat.
  - rewrite (proj2 (Qltb_lt 0 latitude) Hlat) in Hin.
    destruct (Qltb 45 latitude); simpl in Hin;
      repeat (destruct Hin as [<-|Hin]; [vm_compute; split; discriminate|]);
      destruct Hin.
  - assert (Hpos : 0 < latitude) by lra.
    rewrite (proj2 (Qltb_lt 0 latitude) Hpos), (proj2 (Qltb_lt 45 latitude) Hlat) in Hin.
    simpl in Hin.
    repeat (destruct Hin as [<-|Hin]; [vm_compute; split; discriminate|]);
      destruct Hin.
  - rewrite (proj2 (Qltb_ge 0 latitude) Hlat) in Hin.
    destruct (Qltb latitude (-45)); simpl in Hin;
      repeat (destruct Hin as [<-|Hin]; [vm_compute; tauto|]);
      destruct Hin.
  - assert (Hneg : latitude <= 0) by lra.
    rewrite (proj2 (Qltb_ge 0 latitude) Hneg), (proj2 (Qltb_lt latitude (-45)) Hlat) in Hin.
    simpl in Hin.
    repeat (destruct Hin as [<-|Hin]; [vm_compute; tauto|]);
      destruct Hin.
Qed.
End Bounds.

Lemma visible_neo_faces_the_equator_witness :
  let neo_data : neo_record := {[ "close_approach_date" := VStr "2025-02-10" ]} in
  get_neo_visibility strict_ymd neo_data 40.7128 (-74.0060) (Date 2025 2 8) 7%Z
    = (inr (Visible "Southwest" 28 225 NOTE), 9%Z) /\
  (90 <= 225 <= 270)%Z.
Proof.
  intros neo_data.
  assert (Hcall : get_neo_visibility strict_ymd neo_data 40.7128 (-74.0060) (Date 2025 2 8) 7%Z
                  = (inr (Visible "Southwest" 28 225 NOTE), 9%Z)) by (vm_compute; reflexivity).
  split; [exact Hcall|].
  destruct (visible_neo_faces_the_equator strict_ymd neo_data 40.7128 (-74.0060)
              (Date 2025 2 8) 7%Z 9%Z "Southwest" 28 225 NOTE Hcall)
    as (_ & _ & _ & Hnorth & _).
  apply Hnorth. unfold Qlt; simpl; lia.
Defined.

End NeoExtra.

Module NeoFeedExtra.
Import PyNum PyNumFacts Cache NeoFeed.

Lemma bind_inr {A B} (f : A -> error + B) (m : error + A) (y : B) :
  mbind f m = inr y -> exists x, m = inr x /\ f x = inr y.
Proof. destruct m as [e|x]; [discriminate|]. intros Hf. exists x. split; [reflexivity|exact Hf]. Qed.

Lemma get_or_inr (v : pyval) (key : string) (default x : pyval) :
  get_or v key default = inr x -> exists d, v = PDict d /\ x = py_get d key default.
Proof.
  destruct v; try discriminate. intros [= <-]. eexists. split; reflexivity.
Qed.

Ltac bind_step H x Hx :=
  apply bind_inr in H; destruct H as (x & Hx & H).

Section ProcessingProps.
Variable float_of_text : string -> option Q.

(** What a record made of one NEO holds: the date it was listed under,
    the identifier and the name of the NEO, and an approach date exactly
    when the NEO has approach data. *)
Lemma process_neo_record (date : string) (neo : pyval) (r : gmap string pyval) :
  process_neo float_of_text date neo = inr r ->
  exists d,
    neo = PDict d /\
    r !! "date" = Some (PStr date) /\
    r !! "id" = Some (py_get d "id" PNone) /\
    r !! "name" = Some (py_get d "name" PNone) /\
    (truthy (py_get d "close_approach_data" (PList [])) = false ->
       r !! "close_approach_date" = None) /\
    (truthy (py_get d "close_approach_data" (PList [])) = true ->
       is_Some (r !! "close_approach_date")).
Proof.
  unfold process_neo. intros Hr.
  bind_step Hr ident0 Hid. apply get_or_inr in Hid as (d & -> & ->).
  exists d. split; [reflexivity|].
  bind_step Hr name Hname. injection Hname as <-.
  bind_step Hr url Hurl. injection Hurl as <-.
  bind_step Hr mag Hmag. injection Hmag as <-.
  bind_step Hr haz Hhaz. injection Hhaz as <-.
  bind_step Hr ed Hed. injection Hed as <-.
  bind_step Hr has_km Hhas.
  bind_step Hr base Hbase.
  assert (Hfacts : base !! "date" = Some (PStr date) /\
                   base !! "id" = Some (py_get d "id" PNone) /\
                   base !! "name" = Some (py_get d "name" PNone) /\
                   base !! "close_approach_date" = None).
  { destruct has_km.
    - bind_step Hbase km Hkm. bind_step Hbase dmin Hmin. bind_step Hbase dmax Hmax.
      bind_step Hbase avg Havg. injection Hbase as <-.
      repeat split; reflexivity.
    - injection Hbase as <-. repeat split; reflexivity. }
  clear Hbase. destruct Hfacts as (Hdate & Hident & Hnm & Hnone).
  bind_step Hr cad Hcad. injection Hcad as <-.
  destruct (truthy (py_get d "close_approach_data" (PList []))).
  - bind_step Hr approach Happroach. bind_step Hr a1 H1. bind_step Hr a2 H2.
    bind_step Hr a3 H3. bind_step Hr a4 H4. bind_step Hr a5 H5. bind_step Hr a6 H6.
    bind_step Hr a7 H7. bind_step Hr a8 H8. bind_step Hr a9 H9. bind_step Hr a10 H10.
    bind_step Hr a11 H11. bind_step Hr a12 H12. bind_step Hr a13 H13.
    injection Hr as <-.
    split; [|split; [|split; [|split]]].
    + rewrite !lookup_insert_ne by discriminate. exact Hdate.
    + rewrite !lookup_insert_ne by discriminate. exact Hident.
    + rewrite !lookup_insert_ne by discriminate. exact Hnm.
    + discriminate.
    + intros _. rewrite !lookup_insert_ne by discriminate.
      rewrite lookup_insert. eexists; reflexivity.
  - injection Hr as <-.
    split; [exact Hdate|]. split; [exact Hident|]. split; [exact Hnm|].
    split; [intros _; exact Hnone|discriminate].
Qed.

Lemma process_each_records (date : string) (neos : list pyval)
    (records : list (gmap string pyval)) :
  process_each float_of_text date neos = inr records ->
  Forall2 (fun r neo => process_neo float_of_text date neo = inr r) records neos.
Proof.
  revert records. induction neos as [|neo neos IH]; simpl; intros records Hr.
  - injection Hr as <-. constructor.
  - bind_step Hr r Hr1. bind_step Hr rest Hrest. injection Hr as <-.
    constructor; [exact Hr1|]. apply IH. exact Hrest.
Qed.

Lemma process_dates_records (dates : list (string * pyval))
    (records : list (gmap string pyval)) :
  process_dates float_of_text dates = inr records ->
  exists pairs,
    listing dates = inr pairs /\
    Forall2 (fun r pair => process_neo float_of_text pair.1 pair.2 = inr r) records pairs.
Proof.
  revert records. induction dates as [|[date neos] dates IH]; simpl; intros records Hr.
  - injection Hr as <-. exists []. split; [reflexivity|constructor].
  - bind_step Hr listed Hlisted. bind_step Hr here Hhere. bind_step Hr rest Hrest.
    injection Hr as <-.
    destruct (IH rest Hrest) as (pairs & Hpairs & Hall).
    exists (((fun neo => (date, neo)) <$> listed) ++ pairs).
    rewrite Hlisted, Hpairs. split; [reflexivity|].
    apply Forall2_app; [|exact Hall].
    apply Forall2_fmap_r. apply process_each_records in Hhere.
    eapply Forall2_impl; [exact Hhere|]. intros r neo Hneo. exact Hneo.
Qed.

Lemma process_neo_data_records (neo_response : pyval)
    (records : list (gmap string pyval)) :
  process_neo_data float_of_text neo_response = inr records ->
  exists pairs,
    listed_neos neo_response = inr pairs /\
    Forall2 (fun r pair => process_neo float_of_text pair.1 pair.2 = inr r) records pairs.
Proof.
  unfold process_neo_data, listed_neos. intros Hr.
  bind_step Hr near Hnear. bind_step Hr dates Hdates.
  rewrite Hnear. cbn [mbind error_bind]. rewrite Hdates. cbn [mbind error_bind].
  apply process_dates_records. exact Hr.
Qed.

(** A feed that is processed gives one record for every NEO the
    response lists, in the order of the response (date by date, and
    within a date as listed); each record carries the date it was
    listed under and the identifier and name of its NEO. *)
Theorem one_record_per_listed_neo (neo_response : pyval)
    (records : list (gmap string pyval)) :
  process_neo_data float_of_text neo_response = inr records ->
  exists pairs,
    listed_neos neo_response = inr pairs /\
    length records = length pairs /\
    Forall2 (fun r pair =>
               r !! "date" = Some (PStr pair.1) /\
               exists d, pair.2 = PDict d /\
                         r !! "id" = Some (py_get d "id" PNone) /\
                         r !! "name" = Some (py_get d "name" PNone))
            records pairs.
Proof.
  intros Hr. destruct (process_neo_data_records _ _ Hr) as (pairs & Hlisted & Hall).
  exists pairs. split; [exact Hlisted|]. split; [eapply Forall2_length; exact Hall|].
  eapply Forall2_impl; [exact Hall|]. intros r [date neo] Hneo. simpl in *.
  destruct (process_neo_record _ _ _ Hneo) as (d & -> & Hdate & Hident & Hname & _).
  split; [exact Hdate|]. exists d. split; [reflexivity|]. split; assumption.
Qed.

(** A NEO that the response lists with no approach data (the key
    absent, or an empty list) gets a record without an approach date,
    and [get_neo_visibility], which the application calls on every
    record of the feed, raises a [KeyError] on that record whatever the
    place and the day. *)
Theorem neo_without_approach_breaks_visibility
    {G : Type} `{NeoApi.RandomSource G} (strptime : string -> option NeoApi.date)
    (neo_response : pyval) (records : list (gmap string pyval))
    (pairs : list (string * pyval)) (i : nat) (date : string)
    (d : list (string * pyval)) :
  process_neo_data float_of_text neo_response = inr records ->
  listed_neos neo_response = inr pairs ->
  pairs !! i = Some (date, PDict d) ->
  truthy (py_get d "close_approach_data" (PList [])) = false ->
  exists r,
    records !! i = Some r /\
    r !! "id" = Some (py_get d "id" PNone) /\
    forall (latitude longitude : Q) (today : NeoApi.date) (g : G),
      NeoApi.get_neo_visibility strptime (as_neo_record r) latitude longitude today g
        = (inl (NeoApi.KeyError "close_approach_date"), g).
Proof.
  intros Hr Hlisted Hi Hempty.
  destruct (process_neo_data_records _ _ Hr) as (pairs' & Hlisted' & Hall).
  assert (pairs' = pairs) as -> by congruence.
  destruct (Forall2_lookup_r _ _ _ _ _ Hall Hi) as (r & Hri & Hneo). simpl in Hneo.
  destruct (process_neo_record _ _ _ Hneo) as (d' & Hd & _ & Hident & _ & Hnone & _).
  injection Hd as <-.
  exists r. split; [exact Hri|]. split; [exact Hident|].
  assert (Hkey : as_neo_record r !! "close_approach_date" = None).
  { pose proof (lookup_fmap as_neo_value r "close_approach_date") as Hfmap.
    rewrite (Hnone Hempty) in Hfmap. exact Hfmap. }
  intros latitude longitude today g. unfold NeoApi.get_neo_visibility.
  rewrite Hkey. reflexivity.
Qed.

Lemma subscript_contains (v : pyval) (key : string) (x : pyval) :
  subscript v key = inr x -> contains v key = inr true.
Proof.
  destruct v as [| | | | | | |d|]; try discriminate. simpl.
  induction d as [|[k y] d IH]; simpl; [discriminate|].
  rewrite (String.eqb_sym key k).
  destruct (String.eqb k key); simpl; [reflexivity|]. exact IH.
Qed.

(** A NEO whose diameter in kilometres has no number for its minimum
    cannot be processed: the average raises a [TypeError]. *)
Lemma process_neo_needs_a_minimum (date : string) (neo ed km dmin : pyval) :
  get_or neo "estimated_diameter" (PDict []) = inr ed ->
  subscript ed "kilometers" = inr km ->
  get_or km "estimated_diameter_min" PNone = inr dmin ->
  as_number dmin = None ->
  process_neo float_of_text date neo = inl TypeError.
Proof.
  intros Hed Hkm Hmin Hnum.
  apply get_or_inr in Hed as (d & -> & ->).
  pose proof (subscript_contains _ _ _ Hkm) as Hhas.
  destruct (get_or_inr _ _ _ _ Hmin) as (k & -> & ->).
  unfold process_neo. cbn [get_or mbind error_bind].
  rewrite Hhas. cbn [mbind error_bind]. rewrite Hkm. cbn [get_or mbind error_bind].
  unfold mean. rewrite Hnum. reflexivity.
Qed.

Lemma process_each_fails (date : string) (neos : list pyval) (neo : pyval) (e : error) :
  In neo neos ->
  process_neo float_of_text date neo = inl e ->
  exists e', process_each float_of_text date neos = inl e'.
Proof.
  intros Hin Hneo. induction neos as [|first neos IH]; [destruct Hin|].
  simpl. destruct (process_neo float_of_text date first) as [e1|r] eqn:Efirst.
  - exists e1. reflexivity.
  - destruct Hin as [->|Hin]; [congruence|].
    destruct (IH Hin) as (e' & ->). exists e'. reflexivity.
Qed.

Lemma process_dates_fails (dates : list (string * pyval)) (pairs : list (string * pyval))
    (pair : string * pyval) (e : error) :
  listing dates = inr pairs ->
  In pair pairs ->
  process_neo float_of_text pair.1 pair.2 = inl e ->
  exists e', process_dates float_of_text dates = inl e'.
Proof.
  revert pairs. induction dates as [|[date neos] dates IH]; simpl; intros pairs Hl Hin Hneo.
  - injection Hl as <-. destruct Hin.
  - bind_step Hl listed Hlisted. bind_step Hl rest Hrest. injection Hl as <-.
    rewrite Hlisted. cbn [mbind error_bind].
    destruct (process_each float_of_text date listed) as [e1|here] eqn:Ehere.
    + exists e1. reflexivity.
    + cbn [mbind error_bind]. apply in_app_or in Hin as [Hin|Hin].
      * apply in_map_iff in Hin as (neo & <- & Hin). simpl in Hneo.
        destruct (process_each_fails _ _ _ _ Hin Hneo) as (e' & He'). congruence.
      * destruct (IH _ Hrest Hin Hneo) as (e' & ->). exists e'. reflexivity.
Qed.

(** One NEO is enough to lose the feed: when any NEO of the
    response has a diameter in kilometres without a number for its
    minimum (absent, null or a string), the whole call raises and no
    record is returned for any other NEO. *)
Theorem one_bad_diameter_fails_the_feed (neo_response : pyval)
    (pairs : list (string * pyval)) (date : string) (neo ed km dmin : pyval) :
  listed_neos neo_response = inr pairs ->
  In (date, neo) pairs ->
  get_or neo "estimated_diameter" (PDict []) = inr ed ->
  subscript ed "kilometers" = inr km ->
  get_or km "estimated_diameter_min" PNone = inr dmin ->
  as_number dmin = None ->
  exists e, process_neo_data float_of_text neo_response = inl e.
Proof.
  intros Hlisted Hin Hed Hkm Hmin Hnum.
  pose proof (process_neo_needs_a_minimum date _ _ _ _ Hed Hkm Hmin Hnum) as Hneo.
  unfold listed_neos in Hlisted. unfold process_neo_data.
  bind_step Hlisted near Hnear. bind_step Hlisted dates Hdates.
  rewrite Hnear. cbn [mbind error_bind]. rewrite Hdates. cbn [mbind error_bind].
  eapply process_dates_fails; [exact Hlisted|exact Hin|exact Hneo].
Qed.
End ProcessingProps.

Lemma demo_feed_processed : process_neo_data demo_float demo_feed = inr demo_records.
Proof.
  unfold demo_records.
  assert (Hok : match process_neo_data demo_float demo_feed with
                | inr _ => true
                | inl _ => false
                end = true) by (vm_compute; reflexivity).
  destruct (process_neo_data demo_float demo_feed); [discriminate Hok|reflexivity].
Qed.

Lemma one_record_per_listed_neo_witness :
  process_neo_data demo_float demo_feed = inr demo_records /\
  length demo_records = 3%nat.
Proof.
  split; [exact demo_feed_processed|].
  destruct (one_record_per_listed_neo demo_float demo_feed demo_records demo_feed_processed)
    as (pairs & Hlisted & Hlen & _).
  rewrite Hlen. injection Hlisted as <-. reflexivity.
Defined.

Lemma neo_without_approach_breaks_visibility_witness :
  exists r,
    demo_records !! 1%nat = Some r /\
    r !! "id" = Some (PStr "1002") /\
    NeoApi.get_neo_visibility (H := NeoApi.counter_source) NeoApi.strict_ymd
        (as_neo_record r) 40.7128 (-74.0060) (NeoApi.Date 2025 2 8) 7%Z
      = (inl (NeoApi.KeyError "close_approach_date"), 7%Z).
Proof.
  destruct (neo_without_approach_breaks_visibility demo_float
              (H := NeoApi.counter_source) NeoApi.strict_ymd
              demo_feed demo_records demo_pairs 1%nat "2025-02-10"
              [ ("id", PStr "1002"); ("name", PStr "(1002)");
                ("nasa_jpl_url", PStr "https://ssd.jpl.nasa.gov");
                ("absolute_magnitude_h", PFloat 21.3);
                ("is_potentially_hazardous_asteroid", PBool false);
                ("estimated_diameter",
                 PDict [("kilometers", PDict [("estimated_diameter_min", PFloat 0.1);
                                              ("estimated_diameter_max", PFloat 0.3)])]);
                ("close_approach_data", PList []) ]
              demo_feed_processed eq_refl eq_refl eq_refl)
    as (r & Hr & Hident & Hvis).
  exists r. split; [exact Hr|]. split; [exact Hident|]. apply Hvis.
Defined.

Lemma one_bad_diameter_fails_the_feed_witness :
  let bad := PDict [("id", PStr "9"); ("estimated_diameter",
                     PDict [("kilometers", PDict [("estimated_diameter_max", PFloat 0.3)])])] in
  let response := PDict [("near_earth_objects",
                          PDict [("2025-02-10", PList [demo_neo "1001" true; bad])])] in
  exists e, process_neo_data demo_float response = inl e.
Proof.
  intros bad response.
  apply (one_bad_diameter_fails_the_feed demo_float response
           [("2025-02-10", demo_neo "1001" true); ("2025-02-10", bad)]
           "2025-02-10" bad
           (PDict [("kilometers", PDict [("estimated_diameter_max", PFloat 0.3)])])
           (PDict [("estimated_diameter_max", PFloat 0.3)]) PNone).
  - reflexivity.
  - right. left. reflexivity.
  - reflexivity.
  - reflexivity.
  - reflexivity.
  - reflexivity.
Defined.

End NeoFeedExtra.

Module NeoCacheExtra.
Import PyNum PyNumFacts Cache NeoFeed.

Section FeedCache.
Variable float_of_text : string -> option Q.
Variable http_get_json : string -> list (string * string) -> Q -> (error + pyval) * Q.

Lemma request_effect (url : string) (params : list (string * string)) (st : neo_state) :
  NEO_CACHE (request http_get_json url params st).2 = NEO_CACHE st /\
  requests (request http_get_json url params st).2 = S (requests st).
Proof.
  unfold request. destruct (http_get_json url params (neo_now st)) as [response elapsed].
  split; reflexivity.
Qed.

(** An entry is served while its age is below [CACHE_DURATION], and no
    longer. *)
Lemma cached_entry (cache_key : string) (st : neo_state) (cache_time : Q) (data : payload) :
  NEO_CACHE st !! cache_key = Some (cache_time, data) ->
  (neo_now st - cache_time < CACHE_DURATION -> cached cache_key st = Some data) /\
  (CACHE_DURATION <= neo_now st - cache_time -> cached cache_key st = None).
Proof.
  intros Hentry. unfold cached. rewrite Hentry. split; intros Hage.
  - rewrite (proj2 (Qltb_lt _ _) Hage). reflexivity.
  - rewrite (proj2 (Qltb_ge _ _) Hage). reflexivity.
Qed.

(** A call that went to the server and returned has stored what it
    returns under its key, with the time of the answer. *)
Lemma get_neo_feed_stores (start_date : string) (end_date : option string) (api_key : string)
    (st st1 : neo_state) (data : payload) :
  get_neo_feed float_of_text http_get_json start_date end_date api_key st = (inr data, st1) ->
  requests st1 = S (requests st) ->
  NEO_CACHE st1 !! feed_cache_key start_date end_date api_key = Some (neo_now st1, data).
Proof.
  unfold get_neo_feed. intros Hcall Hsent.
  destruct (cached (feed_cache_key start_date end_date api_key) st) as [hit|].
  { injection Hcall as -> ->. lia. }
  destruct (request http_get_json _ _ st) as [[e|document] st'] eqn:Erequest; [discriminate|].
  destruct (process_neo_data float_of_text document) as [e|processed]; [discriminate|].
  injection Hcall as <- <-. unfold store. simpl. apply lookup_insert_eq.
Qed.

Lemma get_neo_feed_sends (start_date : string) (end_date : option string) (api_key : string)
    (st : neo_state) :
  cached (feed_cache_key start_date end_date api_key) st = None ->
  requests (get_neo_feed float_of_text http_get_json start_date end_date api_key st).2
    = S (requests st).
Proof.
  intros Hmiss. unfold get_neo_feed. rewrite Hmiss.
  match goal with |- context [request http_get_json ?u ?p st] =>
    pose proof (request_effect u p st) as [_ Hsent];
    destruct (request http_get_json u p st) as [[e|document] st'] end; [exact Hsent|].
  destruct (process_neo_data float_of_text document); exact Hsent.
Qed.

(** A feed fetched from the server is served from memory for 24
    hours: a later call with the same dates and key, while the entry is
    there and less than 86400 seconds have passed, returns the same
    records and sends nothing and changes nothing; at 86400 seconds
    exactly, or later, the call goes to the server again. *)
Theorem fetched_feed_is_served_for_a_day
    (start_date : string) (end_date : option string) (api_key : string)
    (st st1 st2 : neo_state) (data : payload) :
  get_neo_feed float_of_text http_get_json start_date end_date api_key st = (inr data, st1) ->
  requests st1 = S (requests st) ->
  NEO_CACHE st2 !! feed_cache_key start_date end_date api_key
    = NEO_CACHE st1 !! feed_cache_key start_date end_date api_key ->
  (neo_now st2 - neo_now st1 < 86400 ->
     get_neo_feed float_of_text http_get_json start_date end_date api_key st2
       = (inr data, st2)) /\
  (86400 <= neo_now st2 - neo_now st1 ->
     requests (get_neo_feed float_of_text http_get_json start_date end_date api_key st2).2
       = S (requests st2)).
Proof.
  intros Hcall Hsent Hsame.
  pose proof (get_neo_feed_stores _ _ _ _ _ _ Hcall Hsent) as Hentry.
  rewrite <- Hsame in Hentry.
  destruct (cached_entry _ _ _ _ Hentry) as [Hfresh Hstale].
  split; intros Hage.
  - unfold get_neo_feed. rewrite Hfresh; [reflexivity|].
    unfold CACHE_DURATION. lra.
  - apply get_neo_feed_sends. apply Hstale. unfold CACHE_DURATION. lra.
Qed.

(** A call that raises, whether the request failed or the answer
    could not be processed, has sent one request and leaves [NEO_CACHE]
    as it was: the failure is not remembered, and an entry that has
    expired is not given in its place. The same holds for the lookup of
    one object. *)
Theorem failed_call_leaves_the_cache
    (start_date : string) (end_date : option string) (asteroid_id api_key : string)
    (st : neo_state) :
  let feed := get_neo_feed float_of_text http_get_json start_date end_date api_key st in
  let one := get_neo_by_id http_get_json asteroid_id api_key st in
  (forall e, feed.1 = inl e ->
     NEO_CACHE feed.2 = NEO_CACHE st /\ requests feed.2 = S (requests st) /\
     cached (feed_cache_key start_date end_date api_key) st = None) /\
  (forall e, one.1 = inl e ->
     NEO_CACHE one.2 = NEO_CACHE st /\ requests one.2 = S (requests st) /\
     cached (id_cache_key asteroid_id api_key) st = None).
Proof.
  intros feed one. split; intros e Hfail.
  - subst feed. unfold get_neo_feed in *.
    destruct (cached (feed_cache_key start_date end_date api_key) st) as [hit|];
      [discriminate|].
    match goal with |- context [request http_get_json ?u ?p st] =>
      pose proof (request_effect u p st) as [Hcache Hsent];
      destruct (request http_get_json u p st) as [[e1|document] st'] end.
    + simpl in *. auto.
    + destruct (process_neo_data float_of_text document); [|discriminate].
      simpl in *. auto.
  - subst one. unfold get_neo_by_id in *.
    destruct (cached (id_cache_key asteroid_id api_key) st) as [hit|]; [discriminate|].
    match goal with |- context [request http_get_json ?u ?p st] =>
      pose proof (request_effect u p st) as [Hcache Hsent];
      destruct (request http_get_json u p st) as [[e1|document] st'] end.
    + simpl in *. auto.
    + discriminate.
Qed.
End FeedCache.

Lemma fetched_feed_is_served_for_a_day_witness :
  let call := get_neo_feed demo_float demo_server "2025-02-10" None "DEMO_KEY" in
  exists data st1,
    call (NeoState 0 ∅ 0) = (inr data, st1) /\
    call (NeoState 3600 (NEO_CACHE st1) 1) = (inr data, NeoState 3600 (NEO_CACHE st1) 1).
Proof.
  intros call.
  destruct (call (NeoState 0 ∅ 0)) as [[e|data] st1] eqn:Ecall.
  { exfalso.
    assert (Hok : match (call (NeoState 0 ∅ 0)).1 with inr _ => true | inl _ => false end = true)
      by (vm_compute; reflexivity).
    rewrite Ecall in Hok. discriminate Hok. }
  exists data, st1. split; [reflexivity|].
  assert (Hsent : requests st1 = 1%nat).
  { change st1 with (inr (A := error) data, st1).2. rewrite <- Ecall. vm_compute. reflexivity. }
  assert (Hnow : neo_now st1 == 2).
  { change st1 with (inr (A := error) data, st1).2. rewrite <- Ecall. vm_compute. reflexivity. }
  apply (fetched_feed_is_served_for_a_day demo_float demo_server "2025-02-10" None "DEMO_KEY"
           (NeoState 0 ∅ 0) st1 (NeoState 3600 (NEO_CACHE st1) 1) data Ecall Hsent eq_refl).
  simpl. rewrite Hnow. reflexivity.
Defined.

End NeoCacheExtra.

(** * app.py: the sky map, the table and the position sentence *)

Module AppExtra.
Import PyNum PyNumFacts App.

Lemma py_max_absorb (a b x : Q) :
  Qltb a b = true -> py_max a (py_max b x) = py_max b x.
Proof.
  intros Hab. unfold py_max.
  destruct (Qltb b x) eqn:Hbx.
  - apply Qltb_lt in Hab. apply Qltb_lt in Hbx.
    rewrite (proj2 (Qltb_lt a x)); [reflexivity|lra].
  - rewrite Hab. reflexivity.
Qed.

Lemma py_max_10_8 (x : Q) : py_max 10 (py_max 8 x) = py_max 10 x.
Proof.
  unfold py_max. destruct (Qltb 8 x) eqn:H8; [reflexivity|].
  apply Qltb_ge in H8.
  rewrite (proj2 (Qltb_ge 10 x)); [reflexivity|lra].
Qed.

(** The marker sizes of the sky map come down to four cases: 18 for
    the Sun, 16 for the Moon, max(10, 15 - magnitude) for the seven
    planets and max(8, 15 - magnitude) for every other body. The
    smaller minimum sizes written for Pluto and for the moons of the
    other planets change nothing, the size being 8 at least before
    they are applied. *)
Theorem marker_size_rule (name : string) (magnitude : Q) :
  marker_size name magnitude =
    if String.eqb name "Sun" then 18
    else if String.eqb name "Moon" then 16
    else if is_in name major_planets then py_max 10 (15 - magnitude)
    else py_max 8 (15 - magnitude).
Proof.
  unfold marker_size. cbv zeta.
  destruct (String.eqb name "Sun"); [reflexivity|].
  destruct (String.eqb name "Moon"); [reflexivity|].
  destruct (is_in name major_planets); [apply py_max_10_8|].
  destruct (String.eqb name "Pluto"); [apply py_max_absorb; reflexivity|].
  destruct (is_in name jupiter_moons); [apply py_max_absorb; reflexivity|].
  destruct (is_in name saturn_moons); [apply py_max_absorb; reflexivity|].
  destruct (is_in name uranus_moons); [apply py_max_absorb; reflexivity|].
  destruct (is_in name neptune_moons); [apply py_max_absorb; reflexivity|].
  reflexivity.
Qed.

Lemma is_in_major_not_sun_moon (name : string) :
  is_in name major_planets = true ->
  String.eqb name "Sun" = false /\ String.eqb name "Moon" = false.
Proof.
  unfold is_in, major_planets. simpl. intros Hin.
  repeat (apply orb_prop in Hin as [Hin|Hin];
          [apply String.eqb_eq in Hin; subst; split; reflexivity|]).
  discriminate.
Qed.

(** The Sun does not always have the largest marker: one of the seven
    planets that is brighter than magnitude -3, as Venus is, gets a
    marker of 15 - magnitude, which is more than the 18 of the Sun. *)
Theorem bright_planet_outgrows_the_sun (name : string) (magnitude sun_magnitude : Q) :
  is_in name major_planets = true ->
  magnitude < -3 ->
  marker_size name magnitude == 15 - magnitude /\
  marker_size "Sun" sun_magnitude < marker_size name magnitude.
Proof.
  intros Hmajor Hbright.
  destruct (is_in_major_not_sun_moon name Hmajor) as [Hsun Hmoon].
  assert (Hsize : marker_size name magnitude = 15 - magnitude).
  { unfold marker_size. cbv zeta. rewrite Hsun, Hmoon, Hmajor.
    rewrite py_max_10_8. unfold py_max.
    rewrite (proj2 (Qltb_lt 10 (15 - magnitude))); [reflexivity|lra]. }
  rewrite Hsize. split; [reflexivity|].
  change (marker_size "Sun" sun_magnitude) with 18. lra.
Qed.

Lemma bright_planet_outgrows_the_sun_witness :
  marker_size "Venus" (-4.2) == 19.2 /\
  marker_size "Sun" (-26.7) < marker_size "Venus" (-4.2).
Proof.
  destruct (bright_planet_outgrows_the_sun "Venus" (-4.2) (-26.7) eq_refl)
    as [Hsize Hlarger].
  - unfold Qlt; simpl; lia.
  - split; [|exact Hlarger]. rewrite Hsize. unfold Qeq; simpl; lia.
Defined.

Lemma append_inside {A} (l1 l2 l3 : list A) (x : A) :
  l1 ++ (l2 ++ [x]) ++ l3 ≡ₚ x :: l1 ++ l2 ++ l3.
Proof.
  rewrite <- app_assoc. simpl. rewrite app_assoc.
  rewrite <- Permutation_middle. rewrite <- app_assoc. reflexivity.
Qed.

(** The four lists hold every body, each in one list. *)
Lemma categorize_keeps_every_body (planets_data : list body) :
  let lists := categorize planets_data in
  planets lists ++ dwarf_planets lists ++ moons lists ++ other_bodies lists
    ≡ₚ planets_data.
Proof.
  unfold categorize.
  set (step := fun (lists : categorized) (b : body) => _).
  assert (Hstep : forall acc b,
             planets (step acc b) ++ dwarf_planets (step acc b)
               ++ moons (step acc b) ++ other_bodies (step acc b)
             ≡ₚ b :: planets acc ++ dwarf_planets acc ++ moons acc ++ other_bodies acc).
  { intros acc b. unfold step. destruct (category_of (name_of b)); simpl.
    - apply (append_inside [] (planets acc) _ b).
    - rewrite !(app_assoc (planets acc) (dwarf_planets acc)).
      apply append_inside.
    - apply append_inside.
    - rewrite !app_assoc. symmetry. apply Permutation_cons_append. }
  assert (Hacc : forall l acc,
             planets (foldl step acc l) ++ dwarf_planets (foldl step acc l)
               ++ moons (foldl step acc l) ++ other_bodies (foldl step acc l)
             ≡ₚ (planets acc ++ dwarf_planets acc ++ moons acc ++ other_bodies acc) ++ l).
  { induction l as [|b l IH]; intros acc; simpl.
    - rewrite app_nil_r. reflexivity.
    - rewrite IH, Hstep. simpl. apply Permutation_middle. }
  cbv zeta. rewrite Hacc. simpl. reflexivity.
Qed.

Lemma add_body_to_chart_text (l : list body) :
  text <$> omap add_body_to_chart l
  = name_of <$> List.filter (fun b => match altitude b with
                                       | Some a => negb (Qltb a 0)
                                       | None => false
                                       end) l.
Proof.
  induction l as [|b l IH]; [reflexivity|].
  change (omap add_body_to_chart (b :: l))
    with (match add_body_to_chart b with
          | Some t => t :: omap add_body_to_chart l
          | None => omap add_body_to_chart l
          end).
  cbn [List.filter]. unfold add_body_to_chart at 1.
  destruct (altitude b) as [a|]; [|exact IH].
  destruct (Qltb a 0); cbn [negb]; [exact IH|].
  rewrite !fmap_cons, IH. reflexivity.
Qed.

(** The sky map shows every body that is not below the horizon once,
    under its name, and no other: the sorting into planets, dwarf
    planets, moons and others loses and repeats nothing. Every marker
    lies within the horizon circle. *)
Theorem sky_map_shows_each_risen_body_once (planets_data : list body) :
  text <$> create_sky_map planets_data
    ≡ₚ name_of <$> List.filter (fun b => match altitude b with
                                          | Some a => negb (Qltb a 0)
                                          | None => false
                                          end) planets_data /\
  Forall (fun t => r t <= 90) (create_sky_map planets_data).
Proof.
  assert (Hall : create_sky_map planets_data ≡ₚ omap add_body_to_chart planets_data).
  { unfold create_sky_map. cbv zeta. rewrite <- !omap_app.
    apply omap_Permutation. apply categorize_keeps_every_body. }
  split.
  - rewrite Hall. rewrite add_body_to_chart_text. reflexivity.
  - rewrite Hall. apply Forall_forall. intros t Ht.
    apply list_elem_of_omap in Ht as (b & _ & Hb).
    unfold add_body_to_chart in Hb.
    destruct (altitude b) as [a|]; [|discriminate].
    destruct (Qltb a 0) eqn:Hlow; [discriminate|].
    injection Hb as <-. simpl. apply Qltb_ge in Hlow. lra.
Qed.

Lemma append_cancel (p s1 s2 : string) : p +:+ s1 = p +:+ s2 -> s1 = s2.
Proof.
  induction p as [|c p IH]; simpl; intros Heq; [exact Heq|].
  injection Heq as Heq. apply IH. exact Heq.
Qed.

(** The table and the sky map draw the horizon differently. The
    column Visible says Yes exactly for an altitude above 0; the map
    shows a body exactly for an altitude of 0 or more. So a body at
    altitude 0 is on the map, and is not given the sentence for a body
    below the horizon, while its row says No. *)
Theorem table_and_map_differ_on_the_horizon (b : body) (entry : row) :
  data_entry b = Some entry ->
  (col_Visible entry = "Yes" <-> exists a, altitude b = Some a /\ 0 < a) /\
  (is_Some (add_body_to_chart b) <-> exists a, altitude b = Some a /\ 0 <= a) /\
  (forall a, altitude b = Some a -> a == 0 ->
     col_Visible entry = "No" /\
     is_Some (add_body_to_chart b) /\
     get_planet_position_info b "en"
       <> Some (name_of b +:+ " is currently below the horizon and not visible.")).
Proof.
  unfold data_entry. intros Hentry.
  destruct (match azimuth b with
            | Some z => AstronomyUtils.get_azimuth_direction z
            | None => Some ""
            end) as [direction|]; [|discriminate].
  cbn [mbind option_bind] in Hentry. injection Hentry as <-. cbn [col_Visible].
  split; [|split].
  - destruct (altitude b) as [a|].
    + destruct (Qltb 0 a) eqn:Hpos; split.
      * intros _. exists a. split; [reflexivity|]. apply Qltb_lt. exact Hpos.
      * reflexivity.
      * discriminate.
      * intros (a' & [= <-] & Ha). apply Qltb_ge in Hpos. lra.
    + split; [discriminate|]. intros (a & Ha & _). discriminate.
  - unfold add_body_to_chart. destruct (altitude b) as [a|].
    + destruct (Qltb a 0) eqn:Hlow; split.
      * intros [t Ht]. discriminate.
      * intros (a' & [= <-] & Ha). apply Qltb_lt in Hlow. lra.
      * intros _. exists a. split; [reflexivity|]. apply Qltb_ge. exact Hlow.
      * intros _. eexists; reflexivity.
    + split; [intros [t Ht]; discriminate|]. intros (a & Ha & _). discriminate.
  - intros a Ha Hzero. unfold add_body_to_chart, get_planet_position_info.
    rewrite Ha.
    rewrite (proj2 (Qltb_ge 0 a)) by lra.
    rewrite (proj2 (Qltb_ge a 0)) by lra.
    split; [reflexivity|]. split; [eexists; reflexivity|].
    unfold mbind, option_bind. cbv beta iota.
    destruct (azimuth b) as [z|]; [|discriminate].
    destruct (AstronomyUtils.get_sky_position_description a z "en") as [desc|];
      [|discriminate].
    intros [= Heq]. apply append_cancel in Heq. discriminate Heq.
Qed.

Lemma table_and_map_differ_on_the_horizon_witness :
  let mars := Body (Some "Mars") (Some 0) (Some 90) (Some 1.2) (Some "Leo") in
  exists entry,
    data_entry mars = Some entry /\
    col_Visible entry = "No" /\
    is_Some (add_body_to_chart mars) /\
    get_planet_position_info mars "en"
      <> Some ("Mars is currently below the horizon and not visible.").
Proof.
  intros mars.
  destruct (data_entry mars) as [entry|] eqn:Eentry; [|vm_compute in Eentry; discriminate].
  exists entry. split; [reflexivity|].
  destruct (table_and_map_differ_on_the_horizon mars entry Eentry) as (_ & _ & Hedge).
  destruct (Hedge 0 eq_refl ltac:(reflexivity)) as (Hno & Hmap & Hinfo).
  split; [exact Hno|]. split; [exact Hmap|]. exact Hinfo.
Defined.

End AppExtra.

(** * solar_system_3d.py: the coordinates of the 3D view *)

Module SolarSystem3DExtra.
Import PyNum PyNumFacts PlanetsApi SolarSystem3D.

Section CoordinatesProps.
Variable position_au : string -> skytime -> option (Q * Q * Q).

Lemma loop_lookup (t : skytime) (names : list string) (acc : gmap string entry)
    (name : string) :
  foldl (fun (planets_3d : gmap string entry) name =>
           if String.eqb name "Sun" then planets_3d
           else
             match position_au name t with
             | None => planets_3d
             | Some (px, py, pz) =>
                 let body_type := body_type_of name in
                 <[name := Entry px py pz name
                             (App.table_get App.PLANET_COLORS name "#808080")
                             (visual_size name body_type) body_type]> planets_3d
             end) acc names !! name
  = if negb (String.eqb name "Sun") && App.is_in name names
    then match position_au name t with
         | Some p =>
             Some (Entry p.1.1 p.1.2 p.2 name
                         (App.table_get App.PLANET_COLORS name "#808080")
                         (visual_size name (body_type_of name)) (body_type_of name))
         | None => acc !! name
         end
    else acc !! name.
Proof.
  revert acc. induction names as [|first names IH]; intros acc.
  - simpl. rewrite andb_false_r. reflexivity.
  - cbn [foldl]. rewrite IH. clear IH.
    unfold App.is_in. cbn [existsb]. fold (App.is_in name names).
    destruct (String.eqb_spec name first) as [<-|Hother].
    + destruct (String.eqb name "Sun") eqn:Hsun.
      * reflexivity.
      * cbn [negb andb orb].
        destruct (position_au name t) as [[[px py] pz]|].
        -- destruct (App.is_in name names); [reflexivity|].
           rewrite lookup_insert_eq. reflexivity.
        -- destruct (App.is_in name names); reflexivity.
    + cbn [orb].
      assert (Hacc : forall acc' : gmap string entry,
                 (if String.eqb first "Sun" then acc
                  else match position_au first t with
                       | None => acc
                       | Some (px, py, pz) =>
                           <[first := Entry px py pz first
                                        (App.table_get App.PLANET_COLORS first "#808080")
                                        (visual_size first (body_type_of first))
                                        (body_type_of first)]> acc
                       end) !! name = acc !! name).
      { intros _. destruct (String.eqb first "Sun"); [reflexivity|].
        destruct (position_au first t) as [[[px py] pz]|]; [|reflexivity].
        apply lookup_insert_ne. congruence. }
      cbv zeta. rewrite (Hacc acc). reflexivity.
Qed.

Lemma Earth_is_not_in_PLANETS (kernel : gset string) :
  App.is_in "Earth" (PLANETS kernel) = false.
Proof.
  unfold PLANETS.
  destruct (group_ok kernel ["pluto barycenter"]),
           (group_ok kernel ["io"; "europa"; "ganymede"; "callisto"]),
           (group_ok kernel ["titan"; "enceladus"; "mimas"; "dione"; "rhea"; "iapetus"]),
           (group_ok kernel ["miranda"; "ariel"; "umbriel"; "titania"; "oberon"]),
           (group_ok kernel ["triton"; "nereid"]); reflexivity.
Qed.

Lemma solar_system_has_the_sun_and_no_earth_aux
    (kernel : gset string) (clock : Z) (time : option datetime) :
  exists t planets_3d,
    get_planets_3d_coordinates position_au kernel clock time = inr planets_3d /\
    forall name, name <> "Sun" ->
      planets_3d !! name
      = if App.is_in name (PLANETS kernel)
        then p ← position_au name t;
             Some (Entry p.1.1 p.1.2 p.2 name
                         (App.table_get App.PLANET_COLORS name "#808080")
                         (visual_size name (body_type_of name)) (body_type_of name))
        else None.
Proof.
  unfold get_planets_3d_coordinates.
  set (aware := match time with
                | None => datetime_now_utc clock
                | Some d => match tzinfo d with
                            | None => replace_tzinfo d utc
                            | Some _ => d
                            end
                end).
  assert (Haware : exists t, ts_from_datetime aware = inr t).
  { unfold ts_from_datetime. subst aware.
    destruct time as [d|]; [|eexists; reflexivity].
    destruct (tzinfo d) eqn:Htz; [rewrite Htz|]; eexists; reflexivity. }
  destruct Haware as [t Ht]. cbv zeta. rewrite Ht.
  exists t. eexists. split; [reflexivity|].
  intros name Hname. rewrite loop_lookup.
  destruct (String.eqb_spec name "Sun") as [->|_]; [congruence|].
  cbn [negb andb].
  destruct (App.is_in name (PLANETS kernel)).
  - destruct (position_au name t) as [p|]; [reflexivity|].
    cbn [mbind option_bind]. apply lookup_singleton_ne. congruence.
  - apply lookup_singleton_ne. congruence.
Qed.

(** What the 3D view is given, whatever the time and the ephemeris:
    the call returns; the Sun is there, at the origin with size 20,
    even when no position can be computed; the Earth is never there,
    not being in the catalogue; any other name is there exactly when
    it is in the catalogue and its position is computed, with that
    position. *)
Theorem solar_system_has_the_sun_and_no_earth
    (kernel : gset string) (clock : Z) (time : option datetime) :
  exists t planets_3d,
    get_planets_3d_coordinates position_au kernel clock time = inr planets_3d /\
    planets_3d !! "Sun" = Some sun_entry /\
    planets_3d !! "Earth" = None /\
    forall name, name <> "Sun" ->
      planets_3d !! name
      = if App.is_in name (PLANETS kernel)
        then p ← position_au name t;
             Some (Entry p.1.1 p.1.2 p.2 name
                         (App.table_get App.PLANET_COLORS name "#808080")
                         (visual_size name (body_type_of name)) (body_type_of name))
        else None.
Proof.
  unfold get_planets_3d_coordinates.
  set (aware := match time with
                | None => datetime_now_utc clock
                | Some d => match tzinfo d with
                            | None => replace_tzinfo d utc
                            | Some _ => d
                            end
                end).
  assert (Haware : exists t, ts_from_datetime aware = inr t).
  { unfold ts_from_datetime. subst aware.
    destruct time as [d|]; [|eexists; reflexivity].
    destruct (tzinfo d) eqn:Htz; [rewrite Htz|]; eexists; reflexivity. }
  destruct Haware as [t Ht]. cbv zeta. rewrite Ht.
  exists t. eexists. split; [reflexivity|].
  split; [|split].
  - rewrite loop_lookup. reflexivity.
  - rewrite loop_lookup. rewrite Earth_is_not_in_PLANETS. reflexivity.
  - intros name Hname. rewrite loop_lookup.
    destruct (String.eqb_spec name "Sun") as [->|_]; [congruence|].
    cbn [negb andb].
    destruct (App.is_in name (PLANETS kernel)).
    + destruct (position_au name t) as [p|]; [reflexivity|].
      cbn [mbind option_bind]. apply lookup_singleton_ne. congruence.
    + apply lookup_singleton_ne. congruence.
Qed.

(** The Moon of the Earth is not drawn as a moon: its type is "moon",
    which does not end with "_moon", so its size is the 1.5 of the last
    branch, less than the 1.6 that each moon of Jupiter, Saturn, Uranus
    and Neptune gets. *)
Theorem the_moon_is_smaller_than_every_other_moon
    (kernel : gset string) (clock : Z) (time : option datetime)
    (planets_3d : gmap string entry) (the_moon other : entry) (name : string) :
  get_planets_3d_coordinates position_au kernel clock time = inr planets_3d ->
  planets_3d !! "Moon" = Some the_moon ->
  planets_3d !! name = Some other ->
  App.is_in name (App.jupiter_moons ++ App.saturn_moons ++ App.uranus_moons
                    ++ App.neptune_moons) = true ->
  type the_moon = "moon" /\ size the_moon == 1.5 /\
  size other == 1.6 /\ size the_moon < size other.
Proof.
  intros Hcall Hmoon Hother Hname.
  destruct (solar_system_has_the_sun_and_no_earth_aux kernel clock time)
    as (t & result & Hresult & Hlookup).
  assert (result = planets_3d) as -> by congruence.
  rewrite (Hlookup "Moon") in Hmoon by discriminate.
  assert (Hnot_sun : name <> "Sun").
  { intros ->. discriminate Hname. }
  rewrite (Hlookup name Hnot_sun) in Hother.
  destruct (App.is_in "Moon" (PLANETS kernel)); [|discriminate].
  destruct (App.is_in name (PLANETS kernel)); [|discriminate].
  destruct (position_au "Moon" t) as [pm|]; [|discriminate].
  destruct (position_au name t) as [po|]; [|discriminate].
  cbn [mbind option_bind] in Hmoon, Hother.
  injection Hmoon as <-. injection Hother as <-. cbn [type size].
  assert (Hsize : visual_size name (body_type_of name) = 2 * MOON_SIZE_MULTIPLIER).
  { unfold App.is_in in Hname. simpl in Hname.
    repeat (apply orb_prop in Hname as [Hname|Hname];
            [apply String.eqb_eq in Hname; subst; reflexivity|]).
    discriminate. }
  rewrite Hsize. split; [reflexivity|].
  split; [vm_compute; reflexivity|]. split; vm_compute; reflexivity.
Qed.
End CoordinatesProps.

Lemma the_moon_is_smaller_than_every_other_moon_witness :
  let position_au := fun (_ : string) (_ : skytime) => Some (1, 2, 3) in
  let kernel : gset string := list_to_set ["io"; "europa"; "ganymede"; "callisto"] in
  exists planets_3d the_moon io,
    get_planets_3d_coordinates position_au kernel 0 None = inr planets_3d /\
    planets_3d !! "Moon" = Some the_moon /\
    planets_3d !! "Io" = Some io /\
    size the_moon < size io.
Proof.
  intros position_au kernel.
  assert (Hok : match get_planets_3d_coordinates position_au kernel 0 None with
                | inr m => match m !! "Moon", m !! "Io" with
                           | Some _, Some _ => true
                           | _, _ => false
                           end
                | inl _ => false
                end = true) by (vm_compute; reflexivity).
  destruct (get_planets_3d_coordinates position_au kernel 0 None)
    as [e|planets_3d] eqn:Ecall; [discriminate Hok|].
  destruct (planets_3d !! "Moon") as [the_moon|] eqn:Emoon; [|discriminate Hok].
  destruct (planets_3d !! "Io") as [io|] eqn:Eio; [|discriminate Hok].
  exists planets_3d, the_moon, io.
  split; [reflexivity|]. split; [exact Emoon|]. split; [exact Eio|].
  apply (the_moon_is_smaller_than_every_other_moon position_au kernel 0 None
           planets_3d the_moon io "Io" Ecall Emoon Eio eq_refl).
Defined.

End SolarSystem3DExtra.
